(** * The optimizing compiler driver: compiler/optimizing/optimizing_compiler.cc

    A shallow embedding of the driver of ART's optimizing compiler and the
    properties its specification states about it.

    The driver orchestrates collaborators whose code lives in other files
    (the IR graph, the optimization passes, the code generator, the
    compiled-method storage, the JIT code cache).  Each collaborator is an
    uninterpreted operation of the class [Backend] or [JitCodeCache].  The
    calls by which the driver acts on a collaborator (recording a statistic,
    constructing a graph, running a pass, reserving cache space, ...) are
    recorded as events, so that a function of the driver denotes its result
    together with the ordered trace of what it did; calls that only read are
    plain function applications.

    Conventions.
    - The release configuration is modelled: [DCHECK]s and the blocks guarded
      by [kIsDebugBuild] or [kArenaAllocatorCountAllocations] (graph
      re-validation, memory reports) are compiled out.  [VLOG] output is not
      part of the trace.
    - All [ART_ENABLE_CODEGEN_*] macros are taken as defined.
    - [size_t]/[uint32_t] quantities are [N]; no arithmetic is performed on
      them by the driver, only comparisons. *)

From Stdlib Require Import NArith String Ascii.
From Stdlib.Strings Require Import Byte.
From stdpp Require Import base decidable functions option list sorting gmap strings.

Local Open Scope string_scope.
Local Open Scope N_scope.
Local Open Scope list_scope.

(** ** Enumerations named by the driver *)

Module InstructionSet.
(** Modelled from the spec: arch/instruction_set.h is not among the sources.
    The five instruction sets [IsInstructionSetSupported] names, and [kNone]
    for the instruction sets it does not name (the spec's "unsupported
    instruction sets"). *)
Inductive t := kNone | kArm | kArm64 | kThumb2 | kX86 | kX86_64.
End InstructionSet.

Module CompilerFilter.
(** Modelled from the spec: compiler_filter.h is not among the sources.
    [kSpace] is the spec's "space-optimized filter mode"; [kSpeed] stands for
    every other filter. *)
Inductive t := kSpace | kSpeed.
End CompilerFilter.

Module CompilationKind.
Inductive t := kOsr | kBaseline | kOptimized.
End CompilationKind.

Module MethodCompilationStat.
(** The statistics the driver records (optimizing_compiler_stats.h). *)
Inductive t :=
| kAttemptBytecodeCompilation
| kAttemptIntrinsicCompilation
| kCompiledNativeStub
| kCompiledIntrinsic
| kCompiledBytecode
| kNotCompiledSkipped
| kNotCompiledInvalidBytecode
| kNotCompiledThrowCatchLoop
| kNotCompiledAmbiguousArrayOp
| kNotCompiledIrreducibleLoopAndStringInit
| kNotCompiledPhiEquivalentInOsr
| kNotCompiledPathological
| kNotCompiledSpaceFilter
| kNotCompiledNoCodegen
| kNotCompiledUnsupportedIsa
| kJitOutOfMemoryForCommit.
End MethodCompilationStat.

Module GraphAnalysisResult.
Inductive t :=
| kAnalysisSkipped
| kAnalysisInvalidBytecode
| kAnalysisFailThrowCatchLoop
| kAnalysisFailAmbiguousArrayOp
| kAnalysisFailIrreducibleLoopAndStringInit
| kAnalysisFailPhiEquivalentInOsr
| kAnalysisSuccess.
End GraphAnalysisResult.

Module RegisterAllocator.
Inductive Strategy := kRegisterAllocatorLinearScan | kRegisterAllocatorGraphColor.
End RegisterAllocator.

Module OptimizationPass.
(** The pass identities the driver names (optimization.h), with the sentinel
    [kNone].  [std::bitset<kLast + 1>] has one entry per identity. *)
Inductive t :=
| kAggressiveInstructionSimplifier
| kBoundsCheckElimination
| kCHAGuardOptimization
| kCodeSinking
| kConstantFolding
| kConstructorFenceRedundancyElimination
| kDeadCodeElimination
| kGlobalValueNumbering
| kInductionVarAnalysis
| kInliner
| kInstructionSimplifier
| kInvariantCodeMotion
| kLoadStoreElimination
| kLoopOptimization
| kScheduling
| kSelectGenerator
| kSideEffectsAnalysis
| kInstructionSimplifierArm
| kCriticalNativeAbiFixupArm
| kInstructionSimplifierArm64
| kPcRelativeFixupsX86
| kInstructionSimplifierX86
| kInstructionSimplifierX86_64
| kX86MemoryOperandGeneration
| kNone.

#[global] Instance eq_dec : EqDecision t.
Proof. solve_decision. Defined.
End OptimizationPass.

(** ** Data the driver passes around *)

(** A dex code item; the driver reads its size in 16-bit code units. *)
Record CodeItem := mkCodeItem { InsnsSizeInCodeUnits : N }.

Record DexFile := mkDexFile { PrettyMethod : N -> string }.

Module ArtMethod.
(** The attributes of a resolved method the driver reads. *)
Record t := mk {
  GetDexFile : DexFile;
  GetClassDefIndex : N;
  GetCodeItem : option CodeItem;
  GetDexMethodIndex : N;
  GetAccessFlags : N;
  IsIntrinsic : bool;
  IsNative : bool;
  IsCriticalNative : bool;
  IsSignaturePolymorphic : bool
}.
End ArtMethod.

Module DexCompilationUnit.
Record t := mk {
  GetDexFile : DexFile;
  GetCodeItem : option CodeItem;
  GetClassDefIndex : N;
  GetDexMethodIndex : N;
  GetAccessFlags : N
}.
End DexCompilationUnit.

Record CompilerOptions := mkCompilerOptions {
  GetInstructionSet : InstructionSet.t;
  GetCompilerFilter : CompilerFilter.t;
  IsBaseline : bool;
  IsBootImage : bool;
  IsJitCompiler : bool;
  GetDebuggable : bool;
  GetNativeDebuggable : bool;
  GetGenerateDebugInfo : bool;
  GenerateAnyDebugInfo : bool;
  GetDumpPassTimings : bool;
  GetDumpCfgFileName : string;
  GetPassesToRun : option (list string);
  verbose_methods : option (list string);
  GetRegisterAllocationStrategy : RegisterAllocator.Strategy
}.

(** Modelled from the spec: linker/linker_patch.h is not among the sources.
    A relocation patch is modelled by the two attributes the driver depends
    on: its in-code literal offset and the signature under which the storage
    keys the patch's thunk code. *)
Record LinkerPatch := mkLinkerPatch { LiteralOffset : N; ThunkSignature : N }.

#[global] Instance LinkerPatch_eq_dec : EqDecision LinkerPatch.
Proof. solve_decision. Defined.

Record OptimizationDef := mkOptimizationDef {
  pass : OptimizationPass.t;
  pass_name : option string;
  depends_on : OptimizationPass.t
}.

(** Modelled from the spec: the helper [OptDef] of optimization.h is not among
    the sources.  Called with one, two or three arguments; a definition
    without a stated dependency depends on the sentinel [kNone] (in override
    mode "every pass is treated as unconditionally eligible"). *)
Definition OptDef (p : OptimizationPass.t) : OptimizationDef :=
  mkOptimizationDef p None OptimizationPass.kNone.

Definition OptDefNamed (p : OptimizationPass.t) (name : string) : OptimizationDef :=
  mkOptimizationDef p (Some name) OptimizationPass.kNone.

Definition OptDefAfter (p : OptimizationPass.t) (name : string)
    (dep : OptimizationPass.t) : OptimizationDef :=
  mkOptimizationDef p (Some name) dep.

Record CompiledMethod := mkCompiledMethod {
  cm_instruction_set : InstructionSet.t;
  cm_code : list byte;
  cm_stack_map : list byte;
  cm_cfi : list byte;
  cm_patches : list LinkerPatch;
  cm_intrinsic : bool
}.

Definition MarkAsIntrinsic (m : CompiledMethod) : CompiledMethod :=
  mkCompiledMethod (cm_instruction_set m) (cm_code m) (cm_stack_map m) (cm_cfi m)
                   (cm_patches m) true.

(** [CodeVectorAllocator]: the code buffer the code generator fills. *)
Record CodeVectorAllocator := mkCodeVectorAllocator { memory_ : list byte }.

Definition GetMemory (a : CodeVectorAllocator) : list byte := memory_ a.

(** ** Traces *)

Inductive CompileEvent :=
| EvMaybeRecordStat (s : MethodCompilationStat.t)
| EvNewHGraph (method_idx : N) (dead_reference_safe : bool) (kind : CompilationKind.t)
| EvCodeGeneratorCreate (created : bool)
| EvPrintHeader (method_name : string)
| EvDumpGraph (pass_name : string) (is_after_pass : bool) (graph_in_bad_state : bool)
| EvStartTiming (pass_name : string)
| EvEndTiming
| EvLogTimings (method_name : string)
| EvDumpGraphWithDisassembly
| EvBuildGraph (result : GraphAnalysisResult.t)
| EvBuildIntrinsicGraph
| EvRun (p : OptimizationPass.t) (pass_name : string) (pass_change : bool)
| EvPrepareForRegisterAllocation
| EvLivenessAnalyze
| EvAllocateRegisters (strategy : RegisterAllocator.Strategy)
| EvIsLeafMethod (result : bool)
| EvCodegenCompile.

Inductive StorageEvent :=
| EvSwapAllocCompiledMethod (m : CompiledMethod)
| EvEmitThunkCode (patch : LinkerPatch)
| EvSetThunkCode (patch : LinkerPatch) (code : list byte).

Module ArrayRef.
(** [ArrayRef<const uint8_t>]: a pointer and a length. *)
Record t := mk { data : N; size : N }.
End ArrayRef.

Inductive JitEvent :=
| EvReserve (code_size stack_map_size number_of_roots : N)
            (result : option (ArrayRef.t * ArrayRef.t))
| EvCommit (reserved_code reserved_data : ArrayRef.t) (result : bool)
| EvFree (code_ptr data_ptr : N)
| EvAddMemoryUsage
| EvWriteLog (code_ptr code_size : N).

Inductive Event :=
| Compiling (e : CompileEvent)
| Storing (e : StorageEvent)
| Caching (e : JitEvent).

(** ** Effects

    [Tr A]: a computation of the pipeline, which only calls collaborators
    that work on the graph and code generator at hand.  [M S A]: a
    computation that also reads and updates a shared resource of type [S]
    (the compiled-method storage, or the runtime holding the code cache). *)

Definition Tr (A : Type) : Type := A * list CompileEvent.

Definition tr_ret {A} (a : A) : Tr A := (a, []).

Definition tr_bind {A B} (m : Tr A) (k : A -> Tr B) : Tr B :=
  let r := k (fst m) in (fst r, snd m ++ snd r).

Definition emit (e : CompileEvent) : Tr unit := (tt, [e]).

Definition tr_when (b : bool) (m : Tr unit) : Tr unit := if b then m else tr_ret tt.

Definition M (S A : Type) : Type := S -> A * S * list Event.

Definition m_ret {S A} (a : A) : M S A := fun s => (a, s, []).

Definition m_bind {S A B} (m : M S A) (k : A -> M S B) : M S B :=
  fun s =>
    let '(a, s1, l1) := m s in
    let '(b, s2, l2) := k a s1 in
    (b, s2, l1 ++ l2).

Definition lift {S A} (m : Tr A) : M S A :=
  fun s => (fst m, s, Compiling <$> snd m).

Definition m_when {S} (b : bool) (m : M S unit) : M S unit := if b then m else m_ret tt.

Declare Scope tr_scope.
Delimit Scope tr_scope with tr.
Declare Scope m_scope.
Delimit Scope m_scope with m.

Notation "'let*' x := c1 'in' c2" := (tr_bind c1 (fun x => c2))
  (at level 10, x pattern, c1 at level 100, c2 at level 200) : tr_scope.
Notation "c1 ;; c2" := (tr_bind c1 (fun _ => c2))
  (at level 100, c2 at level 200, right associativity) : tr_scope.
Notation "'let*' x := c1 'in' c2" := (m_bind c1 (fun x => c2))
  (at level 10, x pattern, c1 at level 100, c2 at level 200) : m_scope.
Notation "c1 ;; c2" := (m_bind c1 (fun _ => c2))
  (at level 100, c2 at level 200, right associativity) : m_scope.

(** ** Native stubs, stack map streams and debug information *)

Record JniCompiledMethod := mkJniCompiledMethod {
  jni_GetInstructionSet : InstructionSet.t;
  jni_GetFrameSize : N;
  jni_GetCoreSpillMask : N;
  jni_GetFpSpillMask : N;
  jni_GetCode : list byte;
  jni_GetCfi : list byte
}.

(** A [StackMapStream] is known to the driver through the calls it makes on
    it; the stream is modelled as the instruction set it was created for and
    the calls received, oldest first.  Its encoder is a collaborator. *)
Inductive StackMapCall :=
| BeginMethod (frame_size_in_bytes core_spill_mask fp_spill_mask num_dex_registers : N)
              (baseline debuggable : bool)
| EndMethod (code_size : N).

Record StackMapStream := mkStackMapStream {
  stream_instruction_set : InstructionSet.t;
  stream_calls : list StackMapCall
}.

Record MethodDebugInfo := mkMethodDebugInfo {
  custom_name : string;
  info_dex_file : DexFile;
  info_class_def_index : N;
  info_dex_method_index : N;
  info_access_flags : N;
  info_code_item : option CodeItem;
  info_isa : InstructionSet.t;
  info_deduped : bool;
  info_is_native_debuggable : bool;
  info_is_optimized : bool;
  info_is_code_address_text_relative : bool;
  info_code_address : N;
  info_code_size : N;
  info_frame_size_in_bytes : N;
  info_code_info : option (list byte);
  info_cfi : list byte
}.

(** ** Collaborators of the pipeline

    The operations of other files the driver calls while it compiles one
    method.  A [CodeGenerator] stands for the code generator together with
    the graph it was created for ([codegen->GetGraph()]): passes, register
    allocation and code generation update both in place. *)

Record Runtime := mkRuntime { HasJit : bool; IsJavaDebuggable : bool }.

Class Backend := {
  HGraph : Type;
  CodeGenerator : Type;
  (* optimization.h *)
  OptimizationPassName : OptimizationPass.t -> string;
  OptimizationPassByName : string -> OptimizationPass.t;
  HOptimization_Run :
    DexCompilationUnit.t -> OptimizationPass.t -> string -> CodeGenerator ->
    bool * CodeGenerator;
  (* compiler.h, dex/dex_file_annotations.h *)
  IsPathologicalCase : option CodeItem -> N -> DexFile -> bool;
  HasDeadReferenceSafeAnnotation : DexFile -> ArtMethod.t -> bool;
  MethodContainsRSensitiveAccess : DexFile -> ArtMethod.t -> N -> bool;
  (* nodes.h, jit/jit_code_cache.h *)
  HGraph_new : DexFile -> N -> InstructionSet.t -> bool -> bool -> CompilationKind.t -> HGraph;
  SetArtMethod : ArtMethod.t -> HGraph -> HGraph;
  GetProfilingInfo : option ArtMethod.t -> option N;
  SetProfilingInfo : option N -> HGraph -> HGraph;
  (* code_generator.h, builder.h *)
  CodeGenerator_Create : HGraph -> CompilerOptions -> option CodeGenerator;
  cfi_SetEnabled : bool -> CodeGenerator -> CodeGenerator;
  SetDisassemblyInformation : CodeGenerator -> CodeGenerator;
  BuildGraph : DexCompilationUnit.t -> CodeGenerator -> GraphAnalysisResult.t * CodeGenerator;
  BuildIntrinsicGraph : DexCompilationUnit.t -> ArtMethod.t -> CodeGenerator -> CodeGenerator;
  (* register allocation *)
  PrepareForRegisterAllocation_Run : CodeGenerator -> CodeGenerator;
  SsaLivenessAnalysis_Analyze : CodeGenerator -> CodeGenerator;
  RegisterAllocator_AllocateRegisters :
    RegisterAllocator.Strategy -> CodeGenerator -> CodeGenerator;
  IsLeafMethod : CodeGenerator -> bool;
  (* code generation and its side tables *)
  CodeGenerator_Compile : CodeGenerator -> CodeGenerator * list byte;
  CodeGenerator_GetInstructionSet : CodeGenerator -> InstructionSet.t;
  EmitLinkerPatches : CodeGenerator -> list LinkerPatch;
  BuildStackMaps : CodeGenerator -> option CodeItem -> list byte;
  cfi_data : CodeGenerator -> list byte;
  NeedsThunkCode : CodeGenerator -> LinkerPatch -> bool;
  EmitThunkCode : CodeGenerator -> LinkerPatch -> list byte * string;
  GetNumberOfJitRoots : CodeGenerator -> N;
  EmitJitRoots : CodeGenerator -> list byte -> N -> list byte * list N;
  GetFrameSize : CodeGenerator -> N;
  HasShouldDeoptimizeFlag : CodeGenerator -> bool;
  GetCHASingleImplementationList : CodeGenerator -> list N;
  (* class_linker.h *)
  ResolveMethod : N -> DexFile -> option ArtMethod.t;
  LookupResolvedMethod : N -> DexFile -> option ArtMethod.t;
  (* jni/quick/jni_compiler.h, stack_map_stream.h, oat_quick_method_header.h,
     debug/elf_debug_writer.h *)
  ArtQuickJniCompileMethod : CompilerOptions -> N -> N -> DexFile -> JniCompiledMethod;
  StackMapStream_Encode : StackMapStream -> list byte;
  InstructionAlignedSize : N;
  MakeElfFileForJIT : InstructionSet.t -> bool -> MethodDebugInfo -> list byte
}.

(** ** The verbosity filter ([PassObserver::IsVerboseMethod]) *)

(** [strstr(haystack, needle)]: the suffix of [haystack] that starts at the
    first occurrence of [needle], or [None] for the null pointer. *)
Fixpoint strstr (haystack needle : string) : option string :=
  if String.prefix needle haystack then Some haystack
  else match haystack with
       | EmptyString => None
       | String _ rest => strstr rest needle
       end.

(** [arraysize] of a string literal counts the terminating NUL. *)
Definition arraysize (literal : string) : nat := S (String.length literal).

Definition HasVerboseMethods (opts : CompilerOptions) : bool :=
  match verbose_methods opts with Some _ => true | None => false end.

(** Modelled from the spec: [CompilerOptions::IsVerboseMethod] is declared in
    driver/compiler_options.h, which is not among the sources.  The spec and
    the comment at the call site describe it as an exact match of the method
    name against the configured allow-list. *)
Definition CompilerOptions_IsVerboseMethod (opts : CompilerOptions) (method_name : string) : bool :=
  match verbose_methods opts with
  | Some allowed => existsb (String.eqb method_name) allowed
  | None => false
  end.

Section StringFilter.
(** The compiled-in filter, a parameter here so that the substring branch can
    be stated for any value of the constant. *)
Variable kStringFilter : string.

Definition IsVerboseMethodWith (opts : CompilerOptions) (method_name : string) : bool :=
  if HasVerboseMethods opts then CompilerOptions_IsVerboseMethod opts method_name
  else
    let kStringFilterEmpty := (arraysize kStringFilter <=? 1)%nat in
    if kStringFilterEmpty || bool_decide (strstr method_name kStringFilter <> None)
    then true
    else false.
End StringFilter.

Definition kStringFilter : string := "".

Definition IsVerboseMethod : CompilerOptions -> string -> bool :=
  IsVerboseMethodWith kStringFilter.

(** What "contains" means for the filter: [needle] occurs in [haystack]. *)
Definition Contains (haystack needle : string) : Prop :=
  exists before after : string, haystack = before +:+ needle +:+ after.

(** ** The pass observer and pass scopes *)

Record PassObserver := mkPassObserver {
  cached_method_name_ : string;
  timing_logger_enabled_ : bool;
  visualizer_enabled_ : bool;
  graph_in_bad_state_ : bool
}.

Definition SetGraphInBadState (o : PassObserver) : PassObserver :=
  mkPassObserver (cached_method_name_ o) (timing_logger_enabled_ o)
                 (visualizer_enabled_ o) true.

Definition StartPass (o : PassObserver) (name : string) : Tr unit :=
  (tr_when (visualizer_enabled_ o) (emit (EvDumpGraph name false (graph_in_bad_state_ o)));;
   tr_when (timing_logger_enabled_ o) (emit (EvStartTiming name)))%tr.

Definition EndPass (o : PassObserver) (name : string) (pass_change : bool) : Tr unit :=
  (tr_when (timing_logger_enabled_ o) (emit EvEndTiming);;
   tr_when (visualizer_enabled_ o) (emit (EvDumpGraph name true (graph_in_bad_state_ o))))%tr.

Definition DumpDisassembly (o : PassObserver) : Tr unit :=
  tr_when (visualizer_enabled_ o) (emit EvDumpGraphWithDisassembly).

(** The destructor of the observer. *)
Definition PassObserver_delete (o : PassObserver) : Tr unit :=
  tr_when (timing_logger_enabled_ o) (emit (EvLogTimings (cached_method_name_ o))).

(** ** The pass pipeline *)

(** The names under which the builder and the three steps of register
    allocation report to the observer (constants of builder.h,
    prepare_for_register_allocation.h, ssa_liveness_analysis.h and
    register_allocator.h). *)
Definition kBuilderPassName : string := "builder".
Definition kPrepareForRegisterAllocationPassName : string := "prepare_for_register_allocation".
Definition kLivenessPassName : string := "liveness".
Definition kRegisterAllocatorPassName : string := "register".

Section Pipeline.
Context `{backend : Backend}.
Variable compiler_options : CompilerOptions.
Variable runtime : Runtime.

(** The constructor of the observer: timing and visualization are switched
    off for a method the verbosity filter does not select. *)
Definition PassObserver_new (method_name : string) (codegen : CodeGenerator)
    : Tr (PassObserver * CodeGenerator) :=
  let timing := GetDumpPassTimings compiler_options in
  let visualizer := negb (String.eqb (GetDumpCfgFileName compiler_options) "") in
  if timing || visualizer then
    let verbose := IsVerboseMethod compiler_options method_name in
    let timing := if negb verbose then false else timing in
    let visualizer := if negb verbose then false else visualizer in
    let o := mkPassObserver method_name timing visualizer false in
    if visualizer then
      (emit (EvPrintHeader method_name);;
       tr_ret (o, SetDisassemblyInformation codegen))%tr
    else tr_ret (o, codegen)
  else tr_ret (mkPassObserver method_name timing visualizer false, codegen).

(** [optimizations[i]->GetPassName()]: the name given in the definition, or
    the default name of the pass. *)
Definition GetPassName (d : OptimizationDef) : string :=
  default (OptimizationPassName (pass d)) (pass_name d).

(** The state of the loop of [RunOptimizations]: the outcome bitset, the
    accumulated result and the graph being rewritten. *)
Record PassLoop := mkPassLoop {
  pass_changes : OptimizationPass.t -> bool;
  change : bool;
  loop_codegen : CodeGenerator
}.

Definition PassLoop_init (codegen : CodeGenerator) : PassLoop :=
  mkPassLoop (<[OptimizationPass.kNone := true]> (fun _ => false)) false codegen.

(** One iteration of the loop, for [definitions[i] = d]. *)
Definition RunOptimizations_step (dex_compilation_unit : DexCompilationUnit.t)
    (o : PassObserver) (d : OptimizationDef) (st : PassLoop) : Tr PassLoop :=
  if pass_changes st (depends_on d) then
    (StartPass o (GetPassName d);;
     let '(pass_change, codegen) :=
       HOptimization_Run dex_compilation_unit (pass d) (GetPassName d) (loop_codegen st) in
     emit (EvRun (pass d) (GetPassName d) pass_change);;
     let st' := mkPassLoop (<[pass d := pass_change]> (pass_changes st))
                           (if pass_change then true else change st)
                           codegen in
     EndPass o (GetPassName d) pass_change;;
     tr_ret st')%tr
  else
    tr_ret (mkPassLoop (<[pass d := false]> (pass_changes st)) (change st) (loop_codegen st)).

Fixpoint RunOptimizations_loop (dex_compilation_unit : DexCompilationUnit.t)
    (o : PassObserver) (definitions : list OptimizationDef) (st : PassLoop) : Tr PassLoop :=
  match definitions with
  | [] => tr_ret st
  | d :: rest =>
      (let* st' := RunOptimizations_step dex_compilation_unit o d st in
       RunOptimizations_loop dex_compilation_unit o rest st')%tr
  end.

(** [RunOptimizations(graph, codegen, dex_compilation_unit, pass_observer,
    definitions, length)]. *)
Definition RunOptimizations_defs (dex_compilation_unit : DexCompilationUnit.t)
    (o : PassObserver) (definitions : list OptimizationDef) (codegen : CodeGenerator)
    : Tr (bool * CodeGenerator) :=
  (let* st := RunOptimizations_loop dex_compilation_unit o definitions
                                    (PassLoop_init codegen) in
   tr_ret (change st, loop_codegen st))%tr.

Definition RunBaselineOptimizations (dex_compilation_unit : DexCompilationUnit.t)
    (o : PassObserver) (codegen : CodeGenerator) : Tr (bool * CodeGenerator) :=
  match GetInstructionSet compiler_options with
  | InstructionSet.kThumb2 | InstructionSet.kArm =>
      RunOptimizations_defs dex_compilation_unit o
        [ OptDef OptimizationPass.kCriticalNativeAbiFixupArm ] codegen
  | InstructionSet.kX86 =>
      RunOptimizations_defs dex_compilation_unit o
        [ OptDef OptimizationPass.kPcRelativeFixupsX86 ] codegen
  | _ => tr_ret (false, codegen)
  end.

Definition RunArchOptimizations (dex_compilation_unit : DexCompilationUnit.t)
    (o : PassObserver) (codegen : CodeGenerator) : Tr (bool * CodeGenerator) :=
  match GetInstructionSet compiler_options with
  | InstructionSet.kThumb2 | InstructionSet.kArm =>
      RunOptimizations_defs dex_compilation_unit o
        [ OptDef OptimizationPass.kInstructionSimplifierArm;
          OptDef OptimizationPass.kSideEffectsAnalysis;
          OptDefNamed OptimizationPass.kGlobalValueNumbering "GVN$after_arch";
          OptDef OptimizationPass.kCriticalNativeAbiFixupArm;
          OptDef OptimizationPass.kScheduling ] codegen
  | InstructionSet.kArm64 =>
      RunOptimizations_defs dex_compilation_unit o
        [ OptDef OptimizationPass.kInstructionSimplifierArm64;
          OptDef OptimizationPass.kSideEffectsAnalysis;
          OptDefNamed OptimizationPass.kGlobalValueNumbering "GVN$after_arch";
          OptDef OptimizationPass.kScheduling ] codegen
  | InstructionSet.kX86 =>
      RunOptimizations_defs dex_compilation_unit o
        [ OptDef OptimizationPass.kInstructionSimplifierX86;
          OptDef OptimizationPass.kSideEffectsAnalysis;
          OptDefNamed OptimizationPass.kGlobalValueNumbering "GVN$after_arch";
          OptDef OptimizationPass.kPcRelativeFixupsX86;
          OptDef OptimizationPass.kX86MemoryOperandGeneration ] codegen
  | InstructionSet.kX86_64 =>
      RunOptimizations_defs dex_compilation_unit o
        [ OptDef OptimizationPass.kInstructionSimplifierX86_64;
          OptDef OptimizationPass.kSideEffectsAnalysis;
          OptDefNamed OptimizationPass.kGlobalValueNumbering "GVN$after_arch";
          OptDef OptimizationPass.kX86MemoryOperandGeneration ] codegen
  | _ => tr_ret (false, codegen)
  end.

Definition AllocateRegisters (o : PassObserver) (strategy : RegisterAllocator.Strategy)
    (codegen : CodeGenerator) : Tr CodeGenerator :=
  (StartPass o kPrepareForRegisterAllocationPassName;;
   emit EvPrepareForRegisterAllocation;;
   let codegen := PrepareForRegisterAllocation_Run codegen in
   EndPass o kPrepareForRegisterAllocationPassName true;;
   StartPass o kLivenessPassName;;
   emit EvLivenessAnalyze;;
   let codegen := SsaLivenessAnalysis_Analyze codegen in
   EndPass o kLivenessPassName true;;
   StartPass o kRegisterAllocatorPassName;;
   emit (EvAllocateRegisters strategy);;
   let codegen := RegisterAllocator_AllocateRegisters strategy codegen in
   EndPass o kRegisterAllocatorPassName true;;
   tr_ret codegen)%tr.

Definition kPassNameSeparator : string := "$".

(** Strip pass name suffix to get optimization name. *)
Definition ConvertPassNameToOptimizationName (pass_name : string) : string :=
  match String.index 0 kPassNameSeparator pass_name with
  | None => pass_name
  | Some pos => String.substring 0 pos pass_name
  end.

(** The curated pass list of the optimized tier. *)
Definition optimizations : list OptimizationDef :=
  [ OptDef OptimizationPass.kConstantFolding;
    OptDef OptimizationPass.kInstructionSimplifier;
    OptDefNamed OptimizationPass.kDeadCodeElimination "dead_code_elimination$initial";
    OptDef OptimizationPass.kInliner;
    OptDefAfter OptimizationPass.kConstantFolding "constant_folding$after_inlining"
                OptimizationPass.kInliner;
    OptDefAfter OptimizationPass.kInstructionSimplifier "instruction_simplifier$after_inlining"
                OptimizationPass.kInliner;
    OptDefAfter OptimizationPass.kDeadCodeElimination "dead_code_elimination$after_inlining"
                OptimizationPass.kInliner;
    OptDefNamed OptimizationPass.kSideEffectsAnalysis "side_effects$before_gvn";
    OptDef OptimizationPass.kGlobalValueNumbering;
    OptDef OptimizationPass.kSelectGenerator;
    OptDefNamed OptimizationPass.kConstantFolding "constant_folding$after_gvn";
    OptDefNamed OptimizationPass.kInstructionSimplifier "instruction_simplifier$after_gvn";
    OptDefNamed OptimizationPass.kDeadCodeElimination "dead_code_elimination$after_gvn";
    OptDefNamed OptimizationPass.kSideEffectsAnalysis "side_effects$before_licm";
    OptDef OptimizationPass.kInvariantCodeMotion;
    OptDef OptimizationPass.kInductionVarAnalysis;
    OptDef OptimizationPass.kBoundsCheckElimination;
    OptDef OptimizationPass.kLoopOptimization;
    OptDefNamed OptimizationPass.kConstantFolding "constant_folding$after_bce";
    OptDefNamed OptimizationPass.kAggressiveInstructionSimplifier
                "instruction_simplifier$after_bce";
    OptDef OptimizationPass.kLoadStoreElimination;
    OptDef OptimizationPass.kCHAGuardOptimization;
    OptDefNamed OptimizationPass.kDeadCodeElimination "dead_code_elimination$final";
    OptDef OptimizationPass.kCodeSinking;
    OptDefNamed OptimizationPass.kAggressiveInstructionSimplifier
                "instruction_simplifier$before_codegen";
    OptDef OptimizationPass.kConstructorFenceRedundancyElimination ].

(** [RunOptimizations(graph, codegen, dex_compilation_unit, pass_observer)]: the pass list
    given on the command line if there is one, else the curated list followed
    by the architecture-specific one. *)
Definition RunOptimizations (dex_compilation_unit : DexCompilationUnit.t)
    (o : PassObserver) (codegen : CodeGenerator) : Tr CodeGenerator :=
  match GetPassesToRun compiler_options with
  | Some pass_names =>
      let definitions :=
        map (fun pass_name =>
               OptDefNamed (OptimizationPassByName (ConvertPassNameToOptimizationName pass_name))
                           pass_name)
            pass_names in
      (let* r := RunOptimizations_defs dex_compilation_unit o definitions codegen in
       tr_ret (snd r))%tr
  | None =>
      (let* r := RunOptimizations_defs dex_compilation_unit o optimizations codegen in
       let* r := RunArchOptimizations dex_compilation_unit o (snd r) in
       tr_ret (snd r))%tr
  end.

(** ** Eligibility, graph construction and code generation *)

Definition IsInstructionSetSupported (instruction_set : InstructionSet.t) : bool :=
  match instruction_set with
  | InstructionSet.kArm
  | InstructionSet.kArm64
  | InstructionSet.kThumb2
  | InstructionSet.kX86
  | InstructionSet.kX86_64 => true
  | _ => false
  end.

Definition kSpaceFilterOptimizingThreshold : N := 128.

(** [CodeItemInstructionAccessor(dex_file, code_item).InsnsSizeInCodeUnits()];
    the accessor of a null code item is empty. *)
Definition InsnsSize (code_item : option CodeItem) : N :=
  from_option InsnsSizeInCodeUnits 0 code_item.

Definition MaybeRecordStat (s : MethodCompilationStat.t) : Tr unit :=
  emit (EvMaybeRecordStat s).

(** The statistic recorded for a graph the builder could not build. *)
Definition BuildFailureStat (result : GraphAnalysisResult.t) : Tr unit :=
  match result with
  | GraphAnalysisResult.kAnalysisSkipped =>
      MaybeRecordStat MethodCompilationStat.kNotCompiledSkipped
  | GraphAnalysisResult.kAnalysisInvalidBytecode =>
      MaybeRecordStat MethodCompilationStat.kNotCompiledInvalidBytecode
  | GraphAnalysisResult.kAnalysisFailThrowCatchLoop =>
      MaybeRecordStat MethodCompilationStat.kNotCompiledThrowCatchLoop
  | GraphAnalysisResult.kAnalysisFailAmbiguousArrayOp =>
      MaybeRecordStat MethodCompilationStat.kNotCompiledAmbiguousArrayOp
  | GraphAnalysisResult.kAnalysisFailIrreducibleLoopAndStringInit =>
      MaybeRecordStat MethodCompilationStat.kNotCompiledIrreducibleLoopAndStringInit
  | GraphAnalysisResult.kAnalysisFailPhiEquivalentInOsr =>
      MaybeRecordStat MethodCompilationStat.kNotCompiledPhiEquivalentInOsr
  | GraphAnalysisResult.kAnalysisSuccess => tr_ret tt
  end.

Definition is_success (result : GraphAnalysisResult.t) : bool :=
  match result with GraphAnalysisResult.kAnalysisSuccess => true | _ => false end.

Definition is_baseline (kind : CompilationKind.t) : bool :=
  match kind with CompilationKind.kBaseline => true | _ => false end.

Definition is_space (filter : CompilerFilter.t) : bool :=
  match filter with CompilerFilter.kSpace => true | _ => false end.

(** [TryCompile]: the code generator that compiled the method, or [None]
    (the null pointer) if the method was not compiled; with the code buffer. *)
Definition TryCompile (code_allocator : CodeVectorAllocator)
    (dex_compilation_unit : DexCompilationUnit.t) (method : option ArtMethod.t)
    (compilation_kind : CompilationKind.t)
    : Tr (option CodeGenerator * CodeVectorAllocator) :=
  (MaybeRecordStat MethodCompilationStat.kAttemptBytecodeCompilation;;
   let instruction_set := GetInstructionSet compiler_options in
   let dex_file := DexCompilationUnit.GetDexFile dex_compilation_unit in
   let method_idx := DexCompilationUnit.GetDexMethodIndex dex_compilation_unit in
   let code_item := DexCompilationUnit.GetCodeItem dex_compilation_unit in
   if negb (IsInstructionSetSupported instruction_set) then
     MaybeRecordStat MethodCompilationStat.kNotCompiledUnsupportedIsa;;
     tr_ret (None, code_allocator)
   else if IsPathologicalCase code_item method_idx dex_file then
     MaybeRecordStat MethodCompilationStat.kNotCompiledPathological;;
     tr_ret (None, code_allocator)
   else if is_space (GetCompilerFilter compiler_options)
           && (kSpaceFilterOptimizingThreshold <? InsnsSize code_item) then
     MaybeRecordStat MethodCompilationStat.kNotCompiledSpaceFilter;;
     tr_ret (None, code_allocator)
   else
     let dead_reference_safe :=
       match method with
       | Some m => HasDeadReferenceSafeAnnotation dex_file m
                   && negb (MethodContainsRSensitiveAccess dex_file m method_idx)
       | None => false
       end in
     emit (EvNewHGraph method_idx dead_reference_safe compilation_kind);;
     let graph := HGraph_new dex_file method_idx (GetInstructionSet compiler_options)
                             dead_reference_safe (GetDebuggable compiler_options)
                             compilation_kind in
     let graph := match method with Some m => SetArtMethod m graph | None => graph end in
     let graph := if HasJit runtime
                  then SetProfilingInfo (GetProfilingInfo method) graph
                  else graph in
     let created := CodeGenerator_Create graph compiler_options in
     emit (EvCodeGeneratorCreate (bool_decide (created <> None)));;
     match created with
     | None =>
         MaybeRecordStat MethodCompilationStat.kNotCompiledNoCodegen;;
         tr_ret (None, code_allocator)
     | Some codegen =>
         let codegen := cfi_SetEnabled (GenerateAnyDebugInfo compiler_options) codegen in
         let* (pass_observer, codegen) :=
           PassObserver_new (PrettyMethod dex_file method_idx) codegen in
         StartPass pass_observer kBuilderPassName;;
         let '(result, codegen) := BuildGraph dex_compilation_unit codegen in
         emit (EvBuildGraph result);;
         if negb (is_success result) then
           BuildFailureStat result;;
           let pass_observer := SetGraphInBadState pass_observer in
           EndPass pass_observer kBuilderPassName true;;
           PassObserver_delete pass_observer;;
           tr_ret (None, code_allocator)
         else
           EndPass pass_observer kBuilderPassName true;;
           let* codegen :=
             (if is_baseline compilation_kind
              then let* r := RunBaselineOptimizations dex_compilation_unit
                                                      pass_observer codegen in
                   tr_ret (snd r)
              else RunOptimizations dex_compilation_unit pass_observer codegen) in
           let* codegen :=
             AllocateRegisters pass_observer
                               (GetRegisterAllocationStrategy compiler_options) codegen in
           let '(codegen, code) := CodeGenerator_Compile codegen in
           emit EvCodegenCompile;;
           DumpDisassembly pass_observer;;
           MaybeRecordStat MethodCompilationStat.kCompiledBytecode;;
           PassObserver_delete pass_observer;;
           tr_ret (Some codegen, mkCodeVectorAllocator code)
     end)%tr.

(** [TryCompileIntrinsic]: the graph comes from the intrinsic's template; the
    attempt is given up if the allocated code is not a leaf method. *)
Definition TryCompileIntrinsic (code_allocator : CodeVectorAllocator)
    (dex_compilation_unit : DexCompilationUnit.t) (method : ArtMethod.t)
    : Tr (option CodeGenerator * CodeVectorAllocator) :=
  (MaybeRecordStat MethodCompilationStat.kAttemptIntrinsicCompilation;;
   let instruction_set := GetInstructionSet compiler_options in
   let dex_file := DexCompilationUnit.GetDexFile dex_compilation_unit in
   let method_idx := DexCompilationUnit.GetDexMethodIndex dex_compilation_unit in
   if negb (IsInstructionSetSupported instruction_set) then
     tr_ret (None, code_allocator)
   else
     emit (EvNewHGraph method_idx true CompilationKind.kOptimized);;
     let graph := HGraph_new dex_file method_idx (GetInstructionSet compiler_options)
                             true (GetDebuggable compiler_options)
                             CompilationKind.kOptimized in
     let graph := SetArtMethod method graph in
     let created := CodeGenerator_Create graph compiler_options in
     emit (EvCodeGeneratorCreate (bool_decide (created <> None)));;
     match created with
     | None => tr_ret (None, code_allocator)
     | Some codegen =>
         let codegen := cfi_SetEnabled (GenerateAnyDebugInfo compiler_options) codegen in
         let* (pass_observer, codegen) :=
           PassObserver_new (PrettyMethod dex_file method_idx) codegen in
         StartPass pass_observer kBuilderPassName;;
         emit EvBuildIntrinsicGraph;;
         let codegen := BuildIntrinsicGraph dex_compilation_unit method codegen in
         EndPass pass_observer kBuilderPassName true;;
         let* r := RunOptimizations_defs dex_compilation_unit pass_observer
                     [OptDef OptimizationPass.kInstructionSimplifier] codegen in
         let* r := RunArchOptimizations dex_compilation_unit pass_observer (snd r) in
         let* codegen :=
           AllocateRegisters pass_observer
                             (GetRegisterAllocationStrategy compiler_options) (snd r) in
         emit (EvIsLeafMethod (IsLeafMethod codegen));;
         if negb (IsLeafMethod codegen) then
           PassObserver_delete pass_observer;;
           tr_ret (None, code_allocator)
         else
           let '(codegen, code) := CodeGenerator_Compile codegen in
           emit EvCodegenCompile;;
           DumpDisassembly pass_observer;;
           MaybeRecordStat MethodCompilationStat.kCompiledIntrinsic;;
           PassObserver_delete pass_observer;;
           tr_ret (Some codegen, mkCodeVectorAllocator code)
     end)%tr.

(** ** Code emission and patch resolution *)

(** [std::sort(first, last, comp)] is modelled by insertion sort on the
    strict comparator [comp]: an element is placed behind the elements that
    compare less than it.  The C++ standard leaves the order of equivalent
    elements open; the theorems below use only what it guarantees. *)
Fixpoint sort_insert {A} (comp : A -> A -> bool) (x : A) (l : list A) : list A :=
  match l with
  | [] => [x]
  | y :: l' => if comp y x then y :: sort_insert comp x l' else x :: y :: l'
  end.

Fixpoint std_sort {A} (comp : A -> A -> bool) (l : list A) : list A :=
  match l with
  | [] => []
  | x :: l' => sort_insert comp x (std_sort comp l')
  end.

Definition EmitAndSortLinkerPatches (codegen : CodeGenerator) : list LinkerPatch :=
  let linker_patches := EmitLinkerPatches codegen in
  std_sort (fun lhs rhs => LiteralOffset lhs <? LiteralOffset rhs) linker_patches.

(** Modelled from the spec: [CompiledMethodStorage]
    (driver/compiled_method_storage.h) is not among the sources.  Its thunk
    table is "a shared, keyed thunk cache": a finite map from the signature
    of a patch to the thunk's code and debug name.  [GetThunkCode] answers
    the empty array when the table has no entry; of two registrations under
    one signature "only one survives", the first. *)
Record CompiledMethodStorage := mkCompiledMethodStorage {
  thunk_map_ : gmap N (list byte * string)
}.

Definition GetThunkCode (storage : CompiledMethodStorage) (patch : LinkerPatch) : list byte :=
  match thunk_map_ storage !! ThunkSignature patch with
  | Some value => fst value
  | None => []
  end.

Definition SetThunkCode (storage : CompiledMethodStorage) (patch : LinkerPatch)
    (code : list byte) (debug_name : string) : CompiledMethodStorage :=
  match thunk_map_ storage !! ThunkSignature patch with
  | Some _ => storage
  | None => mkCompiledMethodStorage
              (<[ThunkSignature patch := (code, debug_name)]> (thunk_map_ storage))
  end.

(** [CompiledMethod::SwapAllocCompiledMethod]: the artifact holding the given
    arrays; a fresh artifact is not marked as intrinsic.  The storage is
    modelled by its thunk table alone, which an allocation does not touch:
    what else the storage does to allocate the artifact is not modelled, and
    the allocation is recorded in the trace. *)
Definition SwapAllocCompiledMethod (instruction_set : InstructionSet.t)
    (code stack_map cfi : list byte) (patches : list LinkerPatch)
    : M CompiledMethodStorage CompiledMethod :=
  fun storage =>
    let compiled_method := mkCompiledMethod instruction_set code stack_map cfi patches false in
    (compiled_method, storage, [Storing (EvSwapAllocCompiledMethod compiled_method)]).

Definition is_empty {A} (l : list A) : bool :=
  match l with [] => true | _ => false end.

(** The body of the loop over the patches in [Emit]. *)
Definition Emit_thunk (codegen : CodeGenerator) (patch : LinkerPatch)
    : M CompiledMethodStorage unit :=
  fun storage =>
    if NeedsThunkCode codegen patch && is_empty (GetThunkCode storage patch) then
      let '(code, debug_name) := EmitThunkCode codegen patch in
      (tt, SetThunkCode storage patch code debug_name,
       [Storing (EvEmitThunkCode patch); Storing (EvSetThunkCode patch code)])
    else (tt, storage, []).

Fixpoint Emit_thunks (codegen : CodeGenerator) (linker_patches : list LinkerPatch)
    : M CompiledMethodStorage unit :=
  match linker_patches with
  | [] => m_ret tt
  | patch :: rest => (Emit_thunk codegen patch;; Emit_thunks codegen rest)%m
  end.

(** Create a [CompiledMethod] for an optimized graph. *)
Definition Emit (code_allocator : CodeVectorAllocator) (codegen : CodeGenerator)
    (code_item_for_osr_check : option CodeItem) : M CompiledMethodStorage CompiledMethod :=
  let linker_patches := EmitAndSortLinkerPatches codegen in
  let stack_map := BuildStackMaps codegen code_item_for_osr_check in
  (let* compiled_method :=
     SwapAllocCompiledMethod (CodeGenerator_GetInstructionSet codegen)
                             (GetMemory code_allocator) stack_map (cfi_data codegen)
                             linker_patches in
   Emit_thunks codegen linker_patches;;
   m_ret compiled_method)%m.

(** ** Ahead-of-time entry points *)

Definition is_intrinsic_method (method : option ArtMethod.t) : bool :=
  match method with Some m => ArtMethod.IsIntrinsic m | None => false end.

Definition Compile (code_item : option CodeItem) (access_flags class_def_idx method_idx : N)
    (dex_file : DexFile) : M CompiledMethodStorage (option CompiledMethod) :=
  let code_allocator := mkCodeVectorAllocator [] in
  let method := ResolveMethod method_idx dex_file in
  let dex_compilation_unit :=
    DexCompilationUnit.mk dex_file code_item class_def_idx method_idx access_flags in
  (* Try to compile a fully intrinsified implementation. *)
  (let* (codegen, code_allocator) :=
     match method with
     | Some m =>
         if ArtMethod.IsIntrinsic m
         then lift (TryCompileIntrinsic code_allocator dex_compilation_unit m)
         else m_ret (None, code_allocator)
     | None => m_ret (None, code_allocator)
     end in
   let compiled_intrinsic := bool_decide (codegen <> None) in
   let* (codegen, code_allocator) :=
     match codegen with
     | None =>
         lift (TryCompile code_allocator dex_compilation_unit method
                          (if IsBaseline compiler_options
                           then CompilationKind.kBaseline
                           else CompilationKind.kOptimized))
     | Some _ => m_ret (codegen, code_allocator)
     end in
   match codegen with
   | Some codegen =>
       let* compiled_method :=
         Emit code_allocator codegen (if compiled_intrinsic then None else code_item) in
       m_ret (Some (if compiled_intrinsic
                    then MarkAsIntrinsic compiled_method
                    else compiled_method))
   | None => m_ret None
   end)%m.

Definition CreateJniStackMap (jni_compiled_method : JniCompiledMethod) (code_size : N)
    (debuggable : bool) : list byte :=
  let stack_map_stream :=
    mkStackMapStream (jni_GetInstructionSet jni_compiled_method) [] in
  let stack_map_stream :=
    mkStackMapStream (stream_instruction_set stack_map_stream)
      (stream_calls stack_map_stream ++
       [BeginMethod (jni_GetFrameSize jni_compiled_method)
                    (jni_GetCoreSpillMask jni_compiled_method)
                    (jni_GetFpSpillMask jni_compiled_method)
                    0 false debuggable]) in
  let stack_map_stream :=
    mkStackMapStream (stream_instruction_set stack_map_stream)
      (stream_calls stack_map_stream ++ [EndMethod code_size]) in
  StackMapStream_Encode stack_map_stream.

Definition kDexNoIndex16 : N := 65535.

Definition byte_size (bytes : list byte) : N := N.of_nat (length bytes).

(** The intrinsic fast path of [JniCompile]: the artifact it returns, if it
    applies and succeeds. *)
Definition JniCompile_intrinsic (access_flags method_idx : N) (dex_file : DexFile)
    : M CompiledMethodStorage (option CompiledMethod) :=
  if IsBootImage compiler_options then
    match LookupResolvedMethod method_idx dex_file with
    | Some method =>
        if ArtMethod.IsIntrinsic method && negb (ArtMethod.IsSignaturePolymorphic method) then
          let dex_compilation_unit :=
            DexCompilationUnit.mk dex_file None kDexNoIndex16 method_idx access_flags in
          (let* (codegen, code_allocator) :=
             lift (TryCompileIntrinsic (mkCodeVectorAllocator []) dex_compilation_unit method) in
           match codegen with
           | Some codegen =>
               let* compiled_method := Emit code_allocator codegen None in
               m_ret (Some (MarkAsIntrinsic compiled_method))
           | None => m_ret None
           end)%m
        else m_ret None
    | None => m_ret None
    end
  else m_ret None.

Definition JniCompile (access_flags method_idx : N) (dex_file : DexFile)
    : M CompiledMethodStorage CompiledMethod :=
  (let* intrinsic := JniCompile_intrinsic access_flags method_idx dex_file in
   match intrinsic with
   | Some compiled_method => m_ret compiled_method
   | None =>
       let jni_compiled_method :=
         ArtQuickJniCompileMethod compiler_options access_flags method_idx dex_file in
       lift (MaybeRecordStat MethodCompilationStat.kCompiledNativeStub);;
       let stack_map :=
         CreateJniStackMap jni_compiled_method
                           (byte_size (jni_GetCode jni_compiled_method))
                           (GetDebuggable compiler_options && IsJitCompiler compiler_options) in
       SwapAllocCompiledMethod (jni_GetInstructionSet jni_compiled_method)
                               (jni_GetCode jni_compiled_method)
                               stack_map
                               (jni_GetCfi jni_compiled_method)
                               []
   end)%m.

(** [GenerateJitDebugInfo]. *)
Definition GenerateJitDebugInfo (info : MethodDebugInfo) : list byte :=
  if GenerateAnyDebugInfo compiler_options then
    let mini_debug_info := negb (GetGenerateDebugInfo compiler_options) in
    MakeElfFileForJIT (GetInstructionSet compiler_options) mini_debug_info info
  else [].

End Pipeline.

(** ** The JIT commit protocol *)

(** The arguments of [JitCodeCache::Commit]. *)
Record CommitArgs := mkCommitArgs {
  commit_method : ArtMethod.t;
  commit_reserved_code : ArrayRef.t;
  commit_code : list byte;
  commit_reserved_data : ArrayRef.t;
  commit_roots : list N;
  commit_stack_map : list byte;
  commit_debug_info : list byte;
  commit_is_full_debug_info : bool;
  commit_compilation_kind : CompilationKind.t;
  commit_has_should_deoptimize_flag : bool;
  commit_cha_single_implementation_list : list N
}.

(** The code cache and the methods it publishes code for
    (jit/jit_code_cache.h, jit/jit.h, art_method.h), as operations on a state
    [R] of the runtime.  [Reserve] answers the reserved code and data
    extents, or [None] when it fails. *)
Class JitCodeCache (R : Type) := {
  Reserve : N -> N -> N -> ArtMethod.t -> R -> option (ArrayRef.t * ArrayRef.t) * R;
  Commit : CommitArgs -> R -> bool * R;
  Free : N -> N -> R -> R;
  AddMemoryUsage : ArtMethod.t -> R -> R;
  GetEntryPointFromQuickCompiledCodePtrSize : ArtMethod.t -> R -> N
}.

Section Jit.
Context `{backend : Backend} {R : Type} `{code_cache : JitCodeCache R}.
Variable compiler_options : CompilerOptions.
Variable runtime : Runtime.

Definition GetEntryPointOf (method : ArtMethod.t) (r : R) : N :=
  GetEntryPointFromQuickCompiledCodePtrSize method r.

Definition code_cache_Reserve (code_size stack_map_size number_of_roots : N)
    (method : ArtMethod.t) : M R (option (ArrayRef.t * ArrayRef.t)) :=
  fun r =>
    let '(result, r') := Reserve code_size stack_map_size number_of_roots method r in
    (result, r', [Caching (EvReserve code_size stack_map_size number_of_roots result)]).

Definition code_cache_Commit (args : CommitArgs) : M R bool :=
  fun r =>
    let '(result, r') := Commit args r in
    (result, r',
     [Caching (EvCommit (commit_reserved_code args) (commit_reserved_data args) result)]).

Definition code_cache_Free (code_ptr data_ptr : N) : M R unit :=
  fun r => (tt, Free code_ptr data_ptr r, [Caching (EvFree code_ptr data_ptr)]).

Definition jit_AddMemoryUsage (method : ArtMethod.t) : M R unit :=
  fun r => (tt, AddMemoryUsage method r, [Caching EvAddMemoryUsage]).

Definition jit_logger_WriteLog (code_ptr code_size : N) : M R unit :=
  fun r => (tt, r, [Caching (EvWriteLog code_ptr code_size)]).

(** The native-method branch of [JitCompile]. *)
Definition JitCompile_native (method : ArtMethod.t) (compilation_kind : CompilationKind.t)
    (jit_logger : bool) : M R bool :=
  let dex_file := ArtMethod.GetDexFile method in
  let class_def_idx := ArtMethod.GetClassDefIndex method in
  let code_item := ArtMethod.GetCodeItem method in
  let method_idx := ArtMethod.GetDexMethodIndex method in
  let access_flags := ArtMethod.GetAccessFlags method in
  if IsJavaDebuggable runtime && ArtMethod.IsCriticalNative method then m_ret false
  else
    let jni_compiled_method :=
      ArtQuickJniCompileMethod compiler_options access_flags method_idx dex_file in
    let roots : list N := [] in
    let stack_map :=
      CreateJniStackMap jni_compiled_method
                        (byte_size (jni_GetCode jni_compiled_method))
                        (GetDebuggable compiler_options && IsJitCompiler compiler_options) in
    (let* reserved :=
       code_cache_Reserve (byte_size (jni_GetCode jni_compiled_method))
                          (byte_size stack_map) 0 method in
     match reserved with
     | None =>
         lift (MaybeRecordStat MethodCompilationStat.kJitOutOfMemoryForCommit);;
         m_ret false
     | Some (reserved_code, reserved_data) =>
         let code := ArrayRef.data reserved_code + InstructionAlignedSize in
         (* Add debug info after we know the code location but before we update
            entry-point. *)
         let debug_info :=
           if GenerateAnyDebugInfo compiler_options then
             GenerateJitDebugInfo compiler_options
               (mkMethodDebugInfo "art_jni_trampoline" dex_file class_def_idx method_idx
                  access_flags code_item (jni_GetInstructionSet jni_compiled_method)
                  false (GetNativeDebuggable compiler_options) true false code
                  (byte_size (jni_GetCode jni_compiled_method))
                  (jni_GetFrameSize jni_compiled_method) None
                  (jni_GetCfi jni_compiled_method))
           else [] in
         let* committed :=
           code_cache_Commit
             (mkCommitArgs method reserved_code (jni_GetCode jni_compiled_method)
                reserved_data roots stack_map debug_info
                (GetGenerateDebugInfo compiler_options) compilation_kind false []) in
         if negb committed then
           code_cache_Free (ArrayRef.data reserved_code) (ArrayRef.data reserved_data);;
           m_ret false
         else
           jit_AddMemoryUsage method;;
           m_when jit_logger
             (jit_logger_WriteLog code (byte_size (jni_GetCode jni_compiled_method)));;
           m_ret true
     end)%m.

(** The bytecode branch of [JitCompile]. *)
Definition JitCompile_bytecode (method : ArtMethod.t) (compilation_kind : CompilationKind.t)
    (jit_logger : bool) : M R bool :=
  let dex_file := ArtMethod.GetDexFile method in
  let class_def_idx := ArtMethod.GetClassDefIndex method in
  let code_item := ArtMethod.GetCodeItem method in
  let method_idx := ArtMethod.GetDexMethodIndex method in
  let access_flags := ArtMethod.GetAccessFlags method in
  let dex_compilation_unit :=
    DexCompilationUnit.mk dex_file code_item class_def_idx method_idx access_flags in
  (let* (compiled, code_allocator) :=
     lift (TryCompile compiler_options runtime (mkCodeVectorAllocator [])
                      dex_compilation_unit (Some method) compilation_kind) in
   match compiled with
   | None => m_ret false
   | Some codegen =>
       let stack_map := BuildStackMaps codegen code_item in
       let* reserved :=
         code_cache_Reserve (byte_size (GetMemory code_allocator)) (byte_size stack_map)
                            (GetNumberOfJitRoots codegen) method in
       match reserved with
       | None =>
           lift (MaybeRecordStat MethodCompilationStat.kJitOutOfMemoryForCommit);;
           m_ret false
       | Some (reserved_code, reserved_data) =>
           let code := ArrayRef.data reserved_code + InstructionAlignedSize in
           let roots_data := ArrayRef.data reserved_data in
           let '(memory, roots) :=
             EmitJitRoots codegen (GetMemory code_allocator) roots_data in
           let code_allocator := mkCodeVectorAllocator memory in
           (* Add debug info after we know the code location but before we update
              entry-point. *)
           let debug_info :=
             if GenerateAnyDebugInfo compiler_options then
               GenerateJitDebugInfo compiler_options
                 (mkMethodDebugInfo "" dex_file class_def_idx method_idx access_flags
                    code_item (CodeGenerator_GetInstructionSet codegen) false
                    (GetNativeDebuggable compiler_options) true false code
                    (byte_size (GetMemory code_allocator)) (GetFrameSize codegen)
                    (if (byte_size stack_map =? 0) then None else Some stack_map)
                    (cfi_data codegen))
             else [] in
           let* committed :=
             code_cache_Commit
               (mkCommitArgs method reserved_code (GetMemory code_allocator) reserved_data
                  roots stack_map debug_info (GetGenerateDebugInfo compiler_options)
                  compilation_kind (HasShouldDeoptimizeFlag codegen)
                  (GetCHASingleImplementationList codegen)) in
           if negb committed then
             code_cache_Free (ArrayRef.data reserved_code) (ArrayRef.data reserved_data);;
             m_ret false
           else
             jit_AddMemoryUsage method;;
             m_when jit_logger
               (jit_logger_WriteLog code (byte_size (GetMemory code_allocator)));;
             m_ret true
       end
   end)%m.

Definition JitCompile (method : ArtMethod.t) (compilation_kind : CompilationKind.t)
    (jit_logger : bool) : M R bool :=
  if ArtMethod.IsNative method
  then JitCompile_native method compilation_kind jit_logger
  else JitCompile_bytecode method compilation_kind jit_logger.

End Jit.

(** Modelled from the spec: what the driver relies on from the code cache
    about the entry point of a method.  The entry point is updated by a
    [Commit] that succeeds ("publish the filled extents atomically so the
    method's entry point can be updated"); reserving, a failed commit and
    freeing ("return both extents to the cache; no further observable
    effect") leave it alone. *)
Class JitCodeCacheContract (R : Type) `{code_cache : JitCodeCache R} : Prop := {
  Reserve_entry_point : forall code_size stack_map_size number_of_roots owner r m,
    GetEntryPointFromQuickCompiledCodePtrSize m
      (snd (Reserve code_size stack_map_size number_of_roots owner r))
    = GetEntryPointFromQuickCompiledCodePtrSize m r;
  Commit_failure_entry_point : forall args r m,
    fst (Commit args r) = false ->
    GetEntryPointFromQuickCompiledCodePtrSize m (snd (Commit args r))
    = GetEntryPointFromQuickCompiledCodePtrSize m r;
  Free_entry_point : forall code_ptr data_ptr r m,
    GetEntryPointFromQuickCompiledCodePtrSize m (Free code_ptr data_ptr r)
    = GetEntryPointFromQuickCompiledCodePtrSize m r
}.

(** ** Classifying events *)

(** The events of the observer, the passes and register allocation. *)
Definition is_pass_event (e : CompileEvent) : bool :=
  match e with
  | EvPrintHeader _ | EvDumpGraph _ _ _ | EvStartTiming _ | EvEndTiming
  | EvLogTimings _ | EvDumpGraphWithDisassembly | EvRun _ _ _
  | EvPrepareForRegisterAllocation | EvLivenessAnalyze | EvAllocateRegisters _ => true
  | _ => false
  end.

Definition pass_events (l : list CompileEvent) : Prop :=
  Forall (fun e => is_pass_event e = true) l.

(** The events [TryCompile] may record once a method has passed its
    eligibility checks. *)
Definition is_pipeline_event (e : CompileEvent) : bool :=
  match e with
  | EvMaybeRecordStat s =>
      match s with
      | MethodCompilationStat.kNotCompiledNoCodegen
      | MethodCompilationStat.kNotCompiledSkipped
      | MethodCompilationStat.kNotCompiledInvalidBytecode
      | MethodCompilationStat.kNotCompiledThrowCatchLoop
      | MethodCompilationStat.kNotCompiledAmbiguousArrayOp
      | MethodCompilationStat.kNotCompiledIrreducibleLoopAndStringInit
      | MethodCompilationStat.kNotCompiledPhiEquivalentInOsr
      | MethodCompilationStat.kCompiledBytecode => true
      | _ => false
      end
  | EvNewHGraph _ _ _ | EvCodeGeneratorCreate _ | EvBuildGraph _ | EvCodegenCompile => true
  | _ => is_pass_event e
  end.

Definition pipeline_events (l : list CompileEvent) : Prop :=
  Forall (fun e => is_pipeline_event e = true) l.

(** A computation that reports a non-leaf method only when it gives up and
    hands back the code buffer [ca] untouched. *)
Definition gives_up_if_not_leaf `{backend : Backend} (ca : CodeVectorAllocator)
    (m : Tr (option CodeGenerator * CodeVectorAllocator)) : Prop :=
  In (EvIsLeafMethod false) (snd m) -> fst m = (None, ca).

Definition is_Free (e : Event) : bool :=
  match e with Caching (EvFree _ _) => true | _ => false end.

(** What a run of [JitCompile] on runtime [r] that reserved the extents
    [(reserved_code, reserved_data)] and then failed to commit has done: it
    answers false; it freed the two extents, once; the runtime is left as
    the cache's three operations made it; no entry point moved. *)
Definition freed_after_failed_commit {R : Type} `{code_cache : JitCodeCache R}
    (method : ArtMethod.t) (r : R) (run : bool * R * list Event)
    (reserved_code reserved_data : ArrayRef.t) : Prop :=
  fst (fst run) = false
  /\ filter (fun e => is_Free e = true) (snd run)
     = [Caching (EvFree (ArrayRef.data reserved_code) (ArrayRef.data reserved_data))]
  /\ (exists code_size stack_map_size number_of_roots args,
        Reserve code_size stack_map_size number_of_roots method r
        = (Some (reserved_code, reserved_data),
           snd (Reserve code_size stack_map_size number_of_roots method r))
        /\ commit_reserved_code args = reserved_code
        /\ commit_reserved_data args = reserved_data
        /\ fst (Commit args (snd (Reserve code_size stack_map_size number_of_roots method r)))
           = false
        /\ snd (fst run)
           = Free (ArrayRef.data reserved_code) (ArrayRef.data reserved_data)
               (snd (Commit args
                       (snd (Reserve code_size stack_map_size number_of_roots method r)))))
  /\ forall m, GetEntryPointOf m (snd (fst run)) = GetEntryPointOf m r.


(** ** A small backend and code cache to run the driver on

    Passes log themselves in the code generator and report a change as the
    scenario says; the code generator emits the scenario's patches and thunk
    code; the heuristic for pathological methods is the size bound of the
    runtime (a quarter of the 16-bit range). *)

Module Sample.

Record Scenario := mkScenario {
  changes : OptimizationPass.t -> bool;
  patches : list LinkerPatch;
  needs_thunk : LinkerPatch -> bool;
  thunk : list byte;
  leaf : bool;
  resolved : option ArtMethod.t
}.

Definition backend (sc : Scenario) : Backend := {|
  HGraph := unit;
  CodeGenerator := list OptimizationPass.t;
  OptimizationPassName := fun _ => "pass";
  OptimizationPassByName := fun _ => OptimizationPass.kConstantFolding;
  HOptimization_Run := fun _ p _ codegen => (changes sc p, codegen ++ [p]);
  IsPathologicalCase := fun code_item _ _ => 16383 <=? from_option InsnsSizeInCodeUnits 0 code_item;
  HasDeadReferenceSafeAnnotation := fun _ _ => false;
  MethodContainsRSensitiveAccess := fun _ _ _ => false;
  HGraph_new := fun _ _ _ _ _ _ => tt;
  SetArtMethod := fun _ graph => graph;
  GetProfilingInfo := fun _ => None;
  SetProfilingInfo := fun _ graph => graph;
  CodeGenerator_Create := fun _ _ => Some [];
  cfi_SetEnabled := fun _ codegen => codegen;
  SetDisassemblyInformation := fun codegen => codegen;
  BuildGraph := fun _ codegen => (GraphAnalysisResult.kAnalysisSuccess, codegen);
  BuildIntrinsicGraph := fun _ _ codegen => codegen;
  PrepareForRegisterAllocation_Run := fun codegen => codegen;
  SsaLivenessAnalysis_Analyze := fun codegen => codegen;
  RegisterAllocator_AllocateRegisters := fun _ codegen => codegen;
  IsLeafMethod := fun _ => leaf sc;
  CodeGenerator_Compile := fun codegen => (codegen, [x90; xc3]);
  CodeGenerator_GetInstructionSet := fun _ => InstructionSet.kX86_64;
  EmitLinkerPatches := fun _ => patches sc;
  BuildStackMaps := fun _ _ => [x01];
  cfi_data := fun _ => [];
  NeedsThunkCode := fun _ patch => needs_thunk sc patch;
  EmitThunkCode := fun _ _ => (thunk sc, "thunk");
  GetNumberOfJitRoots := fun _ => 0;
  EmitJitRoots := fun _ memory _ => (memory, []);
  GetFrameSize := fun _ => 16;
  HasShouldDeoptimizeFlag := fun _ => false;
  GetCHASingleImplementationList := fun _ => [];
  ResolveMethod := fun _ _ => resolved sc;
  LookupResolvedMethod := fun _ _ => resolved sc;
  ArtQuickJniCompileMethod := fun _ _ _ _ =>
    mkJniCompiledMethod InstructionSet.kX86_64 32 1 0 [xc3] [];
  StackMapStream_Encode := fun stream => (fun _ => x00) <$> stream_calls stream;
  InstructionAlignedSize := 32;
  MakeElfFileForJIT := fun _ _ _ => []
|}.

(** A runtime with one entry point and a count of open reservations; its
    cache accepts or rejects every commit, as [accept] says. *)
Record SampleRuntime := mkSampleRuntime { entry_point : N; open_reservations : nat }.

Definition code_cache (accept : bool) : JitCodeCache SampleRuntime := {|
  Reserve := fun code_size stack_map_size _ _ r =>
    (Some (ArrayRef.mk 4096 code_size, ArrayRef.mk 8192 stack_map_size),
     mkSampleRuntime (entry_point r) (S (open_reservations r)));
  Commit := fun args r =>
    if accept
    then (true, mkSampleRuntime (ArrayRef.data (commit_reserved_code args) + 32)
                                (pred (open_reservations r)))
    else (false, r);
  Free := fun _ _ r => mkSampleRuntime (entry_point r) (pred (open_reservations r));
  AddMemoryUsage := fun _ r => r;
  GetEntryPointFromQuickCompiledCodePtrSize := fun _ r => entry_point r
|}.

Definition dex_file : DexFile := mkDexFile (fun _ => "void Main.run()").

Definition method (native intrinsic : bool) : ArtMethod.t :=
  ArtMethod.mk dex_file 0 (Some (mkCodeItem 8)) 7 1 intrinsic native false false.

Definition options (instruction_set : InstructionSet.t) (filter : CompilerFilter.t)
    : CompilerOptions :=
  mkCompilerOptions instruction_set filter false true false false false false false
                    false "" None None RegisterAllocator.kRegisterAllocatorLinearScan.

Definition runtime : Runtime := mkRuntime false false.

Definition observer : PassObserver := mkPassObserver "void Main.run()" false false false.

Definition compilation_unit : DexCompilationUnit.t :=
  DexCompilationUnit.mk dex_file (Some (mkCodeItem 8)) 0 7 1.

(** No pass changes the graph; two patches at one offset; a leaf method. *)
Definition quiet : Scenario :=
  mkScenario (fun _ => false) [mkLinkerPatch 8 1; mkLinkerPatch 4 2; mkLinkerPatch 4 3]
             (fun _ => true) [xe9] true None.

(** An intrinsic whose code is not a leaf method. *)
Definition non_leaf_intrinsic : Scenario :=
  mkScenario (fun _ => false) [mkLinkerPatch 8 1] (fun _ => true) [xe9] false
             (Some (method false true)).

(** The curated pass list around the inliner, and the state of the loop on
    the quiet backend when the three initial passes, respectively these and
    the inliner, have had their turn. *)
Definition initial_passes : list OptimizationDef := take 3 optimizations.

Definition inliner : OptimizationDef := OptDef OptimizationPass.kInliner.

Definition folding_after_inlining : OptimizationDef :=
  OptDefAfter OptimizationPass.kConstantFolding "constant_folding$after_inlining"
              OptimizationPass.kInliner.

Definition before_inliner : @PassLoop (backend quiet) :=
  fst (RunOptimizations_loop (backend := backend quiet) compilation_unit observer initial_passes
                             (PassLoop_init (backend := backend quiet) [])).

Definition after_inliner : @PassLoop (backend quiet) :=
  fst (RunOptimizations_loop (backend := backend quiet) compilation_unit observer
                             (initial_passes ++ [inliner])
                             (PassLoop_init (backend := backend quiet) [])).

End Sample.

(** ** Orders on patches *)

(** With respect to a strict comparator, [x] may stand before [y] when [y]
    does not compare less than [x]. *)
Definition not_after {A} (comp : A -> A -> bool) (x y : A) : Prop := comp y x = false.

Definition offset_le (a b : LinkerPatch) : Prop := LiteralOffset a <= LiteralOffset b.

Definition offset_lt (a b : LinkerPatch) : Prop := LiteralOffset a < LiteralOffset b.

(** ** Reading traces *)

(** The statistic an event records, the pass it runs. *)
Definition stat_of (e : CompileEvent) : option MethodCompilationStat.t :=
  match e with EvMaybeRecordStat s => Some s | _ => None end.

Definition run_of (e : CompileEvent) : option (OptimizationPass.t * string) :=
  match e with EvRun p name _ => Some (p, name) | _ => None end.

(** The result the builder reports, the graph an event constructs. *)
Definition built_of (e : CompileEvent) : option GraphAnalysisResult.t :=
  match e with EvBuildGraph result => Some result | _ => None end.

Definition graph_of (e : CompileEvent) : option (N * bool * CompilationKind.t) :=
  match e with EvNewHGraph idx safe kind => Some (idx, safe, kind) | _ => None end.

(** The work done on a graph once it is built: passes, register allocation
    and code generation. *)
Definition work_of (e : CompileEvent) : option CompileEvent :=
  match e with
  | EvRun _ _ _ | EvPrepareForRegisterAllocation | EvLivenessAnalyze
  | EvAllocateRegisters _ | EvIsLeafMethod _ | EvCodegenCompile => Some e
  | _ => None
  end.

(** What the observer writes: the header, graph dumps, timings, the timing
    log and the disassembly. *)
Definition observed_of (e : CompileEvent) : option CompileEvent :=
  match e with
  | EvPrintHeader _ | EvDumpGraph _ _ _ | EvStartTiming _ | EvEndTiming
  | EvLogTimings _ | EvDumpGraphWithDisassembly => Some e
  | _ => None
  end.

(** A graph dump: the pass, whether it is the dump after the pass, and
    whether the graph is flagged as being in a bad state. *)
Definition dump_of (e : CompileEvent) : option (string * bool * bool) :=
  match e with EvDumpGraph name after bad => Some (name, after, bad) | _ => None end.

(** A timing event: the start of the named pass, or an end. *)
Definition timing_of (e : CompileEvent) : option (option string) :=
  match e with
  | EvStartTiming name => Some (Some name)
  | EvEndTiming => Some None
  | _ => None
  end.

(** The run of a pass, with what it reported. *)
Definition ran_of (e : CompileEvent) : option (OptimizationPass.t * string * bool) :=
  match e with EvRun p name pass_change => Some (p, name, pass_change) | _ => None end.

(** The trace of a [PassScope] of observer [o] around one run of a pass. *)
Definition pass_scope (o : PassObserver) (r : OptimizationPass.t * string * bool)
    : list CompileEvent :=
  let '(p, name, pass_change) := r in
  snd (StartPass o name) ++ [EvRun p name pass_change] ++ snd (EndPass o name pass_change).

(** The graph dumps of a trace, as pass name and whether the dump is the one
    after the pass; its timing events. *)
Definition dumps (l : list CompileEvent) : list (string * bool) :=
  omap (fun e => match e with EvDumpGraph name after _ => Some (name, after) | _ => None end) l.

Definition timings (l : list CompileEvent) : list (option string) := omap timing_of l.

(** Dumps before and after each of [names]; timings started and ended for
    each of [names]. *)
Definition before_and_after (names : list string) : list (string * bool) :=
  flat_map (fun name => [(name, false); (name, true)]) names.

Definition started_and_ended (names : list string) : list (option string) :=
  flat_map (fun name => [Some name; None]) names.

(** The three kinds of events of a run of an entry point. *)
Definition compiling_of (e : Event) : option CompileEvent :=
  match e with Compiling e => Some e | _ => None end.

Definition storing_of (e : Event) : option StorageEvent :=
  match e with Storing e => Some e | _ => None end.

Definition caching_of (e : Event) : option JitEvent :=
  match e with Caching e => Some e | _ => None end.

(** The statistics a run records. *)
Definition stats (l : list Event) : list MethodCompilationStat.t :=
  omap stat_of (omap compiling_of l).

(** No character of [s] is [c]. *)
Fixpoint free_of (c : ascii) (s : string) : Prop :=
  match s with
  | EmptyString => True
  | String a rest => a <> c /\ free_of c rest
  end.

(** Only the sentinel's entry can be true while no pass reports a change. *)
Definition only_sentinel `{backend : Backend} (st : PassLoop) : Prop :=
  change st = false
  /\ forall p, pass_changes st p = true -> p = OptimizationPass.kNone.

(** Further scenarios for the sample backend. *)
Module SampleMore.

(** Every pass changes the graph. *)
Definition busy : Sample.Scenario :=
  Sample.mkScenario (fun _ => true) [mkLinkerPatch 8 1; mkLinkerPatch 4 2]
                    (fun _ => true) [xe9] true None.


(** The sample backend with a builder that reports [built] and a table
    [by_name] of pass names; a code generator on which passes have run emits
    its patches in the opposite order. *)
Definition backend (sc : Sample.Scenario) (built : GraphAnalysisResult.t)
    (by_name : string -> OptimizationPass.t) : Backend := {|
  HGraph := unit;
  CodeGenerator := list OptimizationPass.t;
  OptimizationPassName := fun _ => "pass";
  OptimizationPassByName := by_name;
  HOptimization_Run := fun _ p _ codegen => (Sample.changes sc p, codegen ++ [p]);
  IsPathologicalCase := fun code_item _ _ =>
    16383 <=? from_option InsnsSizeInCodeUnits 0 code_item;
  HasDeadReferenceSafeAnnotation := fun _ _ => true;
  MethodContainsRSensitiveAccess := fun _ _ _ => false;
  HGraph_new := fun _ _ _ _ _ _ => tt;
  SetArtMethod := fun _ graph => graph;
  GetProfilingInfo := fun _ => None;
  SetProfilingInfo := fun _ graph => graph;
  CodeGenerator_Create := fun _ _ => Some [];
  cfi_SetEnabled := fun _ codegen => codegen;
  SetDisassemblyInformation := fun codegen => codegen;
  BuildGraph := fun _ codegen => (built, codegen);
  BuildIntrinsicGraph := fun _ _ codegen => codegen;
  PrepareForRegisterAllocation_Run := fun codegen => codegen;
  SsaLivenessAnalysis_Analyze := fun codegen => codegen;
  RegisterAllocator_AllocateRegisters := fun _ codegen => codegen;
  IsLeafMethod := fun _ => Sample.leaf sc;
  CodeGenerator_Compile := fun codegen => (codegen, [x90; xc3]);
  CodeGenerator_GetInstructionSet := fun _ => InstructionSet.kX86_64;
  EmitLinkerPatches := fun codegen =>
    if is_empty codegen then Sample.patches sc else reverse (Sample.patches sc);
  BuildStackMaps := fun _ _ => [x01];
  cfi_data := fun _ => [];
  NeedsThunkCode := fun _ patch => Sample.needs_thunk sc patch;
  EmitThunkCode := fun _ _ => (Sample.thunk sc, "thunk");
  GetNumberOfJitRoots := fun _ => 0;
  EmitJitRoots := fun _ memory _ => (memory, []);
  GetFrameSize := fun _ => 16;
  HasShouldDeoptimizeFlag := fun _ => false;
  GetCHASingleImplementationList := fun _ => [];
  ResolveMethod := fun _ _ => Sample.resolved sc;
  LookupResolvedMethod := fun _ _ => Sample.resolved sc;
  ArtQuickJniCompileMethod := fun _ _ _ _ =>
    mkJniCompiledMethod InstructionSet.kX86_64 32 1 0 [xc3] [];
  StackMapStream_Encode := fun stream => (fun _ => x00) <$> stream_calls stream;
  InstructionAlignedSize := 32;
  MakeElfFileForJIT := fun _ _ _ => []
|}.

(** A table of two pass names. *)
Definition by_name (name : string) : OptimizationPass.t :=
  if String.eqb name "inliner" then OptimizationPass.kInliner
  else if String.eqb name "GVN" then OptimizationPass.kGlobalValueNumbering
  else OptimizationPass.kNone.

(** A builder that skips the method. *)
Definition skipping : Backend := backend Sample.quiet GraphAnalysisResult.kAnalysisSkipped by_name.

(** A builder that succeeds; every pass changes the graph. *)
Definition building : Backend := backend busy GraphAnalysisResult.kAnalysisSuccess by_name.

(** Options that ask for the dump of the graphs and of the pass timings, for
    the methods whose name contains one of [verbose], and for the passes
    [passes] if given. *)
Definition dumping (verbose : option (list string)) (passes : option (list string))
    : CompilerOptions :=
  mkCompilerOptions InstructionSet.kX86_64 CompilerFilter.kSpeed false true false false
                    false false false true "graphs.cfg" passes verbose
                    RegisterAllocator.kRegisterAllocatorLinearScan.

End SampleMore.

(** * Properties *)

(** ** Traces compose *)

Lemma tr_bind_ret_l {A B} (a : A) (k : A -> Tr B) : tr_bind (tr_ret a) k = k a.
Proof. unfold tr_bind, tr_ret. simpl. by destruct (k a). Qed.

Lemma tr_bind_assoc {A B C} (m : Tr A) (f : A -> Tr B) (g : B -> Tr C) :
  tr_bind (tr_bind m f) g = tr_bind m (fun x => tr_bind (f x) g).
Proof. unfold tr_bind. simpl. by rewrite app_assoc. Qed.

Lemma tr_bind_fst {A B} (m : Tr A) (k : A -> Tr B) : fst (tr_bind m k) = fst (k (fst m)).
Proof. reflexivity. Qed.

Lemma tr_bind_snd {A B} (m : Tr A) (k : A -> Tr B) :
  snd (tr_bind m k) = snd m ++ snd (k (fst m)).
Proof. reflexivity. Qed.

(** ** The pass loop *)

Section PassLoopFacts.
Context `{backend : Backend}.
Variable cu : DexCompilationUnit.t.
Implicit Types (o : PassObserver) (d : OptimizationDef) (st : PassLoop).

Lemma RunOptimizations_loop_app o (l1 l2 : list OptimizationDef) st :
  RunOptimizations_loop cu o (l1 ++ l2) st
  = tr_bind (RunOptimizations_loop cu o l1 st) (RunOptimizations_loop cu o l2).
Proof.
  revert st. induction l1 as [|d l1 IH]; intros st; simpl.
  - by rewrite tr_bind_ret_l.
  - rewrite tr_bind_assoc. unfold tr_bind at 1 3. by rewrite IH.
Qed.

(** A pass whose dependency's entry is false: nothing is called, the graph
    and the accumulated result stay, the pass's own entry becomes false. *)
Lemma RunOptimizations_step_skip o d st :
  pass_changes st (depends_on d) = false ->
  RunOptimizations_step cu o d st
  = tr_ret (mkPassLoop (<[pass d := false]> (pass_changes st)) (change st) (loop_codegen st)).
Proof. intros H. unfold RunOptimizations_step. by rewrite H. Qed.

(** A pass whose dependency's entry is true runs inside a pass scope. *)
Lemma RunOptimizations_step_run o d st :
  pass_changes st (depends_on d) = true ->
  RunOptimizations_step cu o d st
  = (let r := HOptimization_Run cu (pass d) (GetPassName d) (loop_codegen st) in
     (mkPassLoop (<[pass d := fst r]> (pass_changes st))
                 (if fst r then true else change st) (snd r),
      snd (StartPass o (GetPassName d))
      ++ [EvRun (pass d) (GetPassName d) (fst r)]
      ++ snd (EndPass o (GetPassName d) (fst r)))).
Proof.
  intros H. unfold RunOptimizations_step. rewrite H.
  destruct (HOptimization_Run _ _ _) as [pass_change codegen].
  unfold tr_bind, tr_ret, emit. simpl. by rewrite app_nil_r.
Qed.

(** The entry a pass leaves behind: it ran and changed the graph. *)
Lemma pass_changes_step o d st :
  pass_changes (fst (RunOptimizations_step cu o d st)) (pass d)
  = pass_changes st (depends_on d)
    && fst (HOptimization_Run cu (pass d) (GetPassName d) (loop_codegen st)).
Proof.
  destruct (pass_changes st (depends_on d)) eqn:H.
  - rewrite RunOptimizations_step_run by done. simpl. by rewrite fn_lookup_insert.
  - rewrite RunOptimizations_step_skip by done. simpl. by rewrite fn_lookup_insert.
Qed.

Lemma pass_changes_step_ne o d st (p : OptimizationPass.t) :
  pass d <> p ->
  pass_changes (fst (RunOptimizations_step cu o d st)) p = pass_changes st p.
Proof.
  intros Hne. destruct (pass_changes st (depends_on d)) eqn:H.
  - rewrite RunOptimizations_step_run by done. simpl. by rewrite fn_lookup_insert_ne.
  - rewrite RunOptimizations_step_skip by done. simpl. by rewrite fn_lookup_insert_ne.
Qed.

(** Entries are written under the identities of the definitions only. *)
Lemma pass_changes_loop_ne o (l : list OptimizationDef) st (p : OptimizationPass.t) :
  Forall (fun x => pass x <> p) l ->
  pass_changes (fst (RunOptimizations_loop cu o l st)) p = pass_changes st p.
Proof.
  intros Hl. revert st. induction Hl as [|d l Hd Hl IH]; intros st; [done|].
  cbn [RunOptimizations_loop]. rewrite tr_bind_fst, IH. by apply pass_changes_step_ne.
Qed.

(** The entry of an identity after a run is the outcome of its most recent
    occurrence. *)
Lemma pass_changes_most_recent o (before between : list OptimizationDef) d st :
  Forall (fun x => pass x <> pass d) between ->
  pass_changes (fst (RunOptimizations_loop cu o (before ++ d :: between) st)) (pass d)
  = (let s := fst (RunOptimizations_loop cu o before st) in
     pass_changes s (depends_on d)
     && fst (HOptimization_Run cu (pass d) (GetPassName d) (loop_codegen s))).
Proof.
  intros Hbetween. rewrite RunOptimizations_loop_app, tr_bind_fst.
  cbn [RunOptimizations_loop].
  rewrite tr_bind_fst, pass_changes_loop_ne by done. apply pass_changes_step.
Qed.

(** C2. In every run of [RunOptimizations], a pass whose dependency resolves
    to a prior occurrence that was skipped, or that ran without changing the
    graph, finds the dependency's entry false; it is not executed (no call is
    made, graph and result are unchanged) and its own entry is set to
    false. *)
Theorem RunOptimizations_skips_dependent_pass
    o (before : list OptimizationDef) (prior : OptimizationDef)
    (between : list OptimizationDef) d (after : list OptimizationDef)
    (codegen : CodeGenerator) :
  pass prior = depends_on d ->
  Forall (fun x => pass x <> depends_on d) between ->
  (let s0 := fst (RunOptimizations_loop cu o before (PassLoop_init codegen)) in
   pass_changes s0 (depends_on prior) = false
   \/ fst (HOptimization_Run cu (pass prior) (GetPassName prior) (loop_codegen s0)) = false) ->
  let s := fst (RunOptimizations_loop cu o (before ++ prior :: between) (PassLoop_init codegen)) in
  let skipped :=
    mkPassLoop (<[pass d := false]> (pass_changes s)) (change s) (loop_codegen s) in
  pass_changes s (depends_on d) = false
  /\ RunOptimizations_step cu o d s = (skipped, [])
  /\ pass_changes skipped (pass d) = false
  /\ RunOptimizations_loop cu o ((before ++ prior :: between) ++ d :: after)
                           (PassLoop_init codegen)
     = (fst (RunOptimizations_loop cu o after skipped),
        snd (RunOptimizations_loop cu o (before ++ prior :: between) (PassLoop_init codegen))
        ++ snd (RunOptimizations_loop cu o after skipped)).
Proof.
  intros Hdep Hbetween Hprior s skipped.
  assert (Hentry : pass_changes s (depends_on d) = false).
  { subst s. rewrite <- Hdep in *. rewrite pass_changes_most_recent by done.
    simpl in *. destruct Hprior as [-> | ->]; [done | apply andb_false_r]. }
  assert (Hstep : RunOptimizations_step cu o d s = (skipped, [])).
  { by rewrite RunOptimizations_step_skip. }
  repeat split; try done.
  - simpl. apply fn_lookup_insert.
  - rewrite RunOptimizations_loop_app. unfold tr_bind at 1. simpl.
    fold s. rewrite Hstep. unfold tr_bind. simpl. done.
Qed.

(** C3. In every run of [RunOptimizations] whose definitions do not use the
    sentinel as their own identity, the sentinel's entry is true at every
    iteration, from its initialization on; a pass that depends on the
    sentinel is therefore executed whatever ran or changed before it: the
    loop over the whole list makes the call, in the pass's scope and on the
    graph the earlier passes left, and goes on with what the pass
    reported. *)
Theorem RunOptimizations_sentinel_always_satisfied
    o (definitions : list OptimizationDef) (codegen : CodeGenerator) :
  Forall (fun x => pass x <> OptimizationPass.kNone) definitions ->
  forall (earlier : list OptimizationDef) (rest : list OptimizationDef),
  definitions = earlier ++ rest ->
  let s := fst (RunOptimizations_loop cu o earlier (PassLoop_init codegen)) in
  pass_changes s OptimizationPass.kNone = true
  /\ forall d (after : list OptimizationDef),
       rest = d :: after ->
       depends_on d = OptimizationPass.kNone ->
       let r := HOptimization_Run cu (pass d) (GetPassName d) (loop_codegen s) in
       let ran := mkPassLoop (<[pass d := fst r]> (pass_changes s))
                             (if fst r then true else change s) (snd r) in
       snd (RunOptimizations_step cu o d s)
       = snd (StartPass o (GetPassName d))
         ++ [EvRun (pass d) (GetPassName d) (fst r)]
         ++ snd (EndPass o (GetPassName d) (fst r))
       /\ loop_codegen (fst (RunOptimizations_step cu o d s)) = snd r
       /\ pass_changes (fst (RunOptimizations_step cu o d s)) (pass d) = fst r
       /\ RunOptimizations_loop cu o definitions (PassLoop_init codegen)
          = (fst (RunOptimizations_loop cu o after ran),
             snd (RunOptimizations_loop cu o earlier (PassLoop_init codegen))
             ++ (snd (StartPass o (GetPassName d))
                 ++ [EvRun (pass d) (GetPassName d) (fst r)]
                 ++ snd (EndPass o (GetPassName d) (fst r)))
             ++ snd (RunOptimizations_loop cu o after ran))
       /\ In (EvRun (pass d) (GetPassName d) (fst r))
             (snd (RunOptimizations_defs cu o definitions codegen)).
Proof.
  intros Hdefs earlier rest -> s.
  apply Forall_app in Hdefs as [Hearlier _].
  assert (Hs : pass_changes s OptimizationPass.kNone = true).
  { subst s. rewrite pass_changes_loop_ne by done. simpl. apply fn_lookup_insert. }
  split; [done|]. intros d after -> Hd r ran.
  assert (Hstep : RunOptimizations_step cu o d s
                  = (ran, snd (StartPass o (GetPassName d))
                          ++ [EvRun (pass d) (GetPassName d) (fst r)]
                          ++ snd (EndPass o (GetPassName d) (fst r)))).
  { by rewrite RunOptimizations_step_run by (by rewrite Hd). }
  assert (Hloop : RunOptimizations_loop cu o (earlier ++ d :: after) (PassLoop_init codegen)
                  = (fst (RunOptimizations_loop cu o after ran),
                     snd (RunOptimizations_loop cu o earlier (PassLoop_init codegen))
                     ++ (snd (StartPass o (GetPassName d))
                         ++ [EvRun (pass d) (GetPassName d) (fst r)]
                         ++ snd (EndPass o (GetPassName d) (fst r)))
                     ++ snd (RunOptimizations_loop cu o after ran))).
  { rewrite RunOptimizations_loop_app. cbn [RunOptimizations_loop].
    unfold tr_bind at 1. fold s. unfold tr_bind at 1. by rewrite Hstep. }
  rewrite Hstep. cbn [fst snd]. split; [done|]. split; [done|].
  split; [subst ran; simpl; apply fn_lookup_insert|]. split; [exact Hloop|].
  unfold RunOptimizations_defs. rewrite tr_bind_snd, Hloop. cbn [fst snd tr_ret].
  rewrite !in_app_iff. left. right. left. right. left. by left.
Qed.

End PassLoopFacts.

(** The curated list on the sample backend, where the inliner, like every
    pass, reports no change: the constant folding that depends on it is
    skipped. *)
Lemma RunOptimizations_skips_dependent_pass_witness :
  (pass Sample.inliner = depends_on Sample.folding_after_inlining
   /\ Forall (fun x => pass x <> depends_on Sample.folding_after_inlining) []
   /\ fst (HOptimization_Run (Backend := Sample.backend Sample.quiet) Sample.compilation_unit
             (pass Sample.inliner) "pass" (loop_codegen Sample.before_inliner))
      = false)
  /\ pass_changes Sample.after_inliner (depends_on Sample.folding_after_inlining) = false
  /\ RunOptimizations_step Sample.compilation_unit Sample.observer Sample.folding_after_inlining
                           Sample.after_inliner
     = (mkPassLoop (<[OptimizationPass.kConstantFolding := false]>
                      (pass_changes Sample.after_inliner))
                   (change Sample.after_inliner) (loop_codegen Sample.after_inliner),
        []).
Proof.
  split; [by repeat split|].
  destruct (@RunOptimizations_skips_dependent_pass (Sample.backend Sample.quiet)
              Sample.compilation_unit Sample.observer Sample.initial_passes Sample.inliner []
              Sample.folding_after_inlining [] []
              eq_refl (List.Forall_nil _) (or_intror eq_refl)) as (H1 & H2 & _).
  split; [exact H1 | exact H2].
Defined.

(** The curated list on the sample backend: the inliner depends on the
    sentinel and runs although no pass before it changed the graph. *)
Lemma RunOptimizations_sentinel_always_satisfied_witness :
  Forall (fun x => pass x <> OptimizationPass.kNone) optimizations
  /\ pass_changes Sample.before_inliner OptimizationPass.kNone = true
  /\ snd (RunOptimizations_step Sample.compilation_unit Sample.observer Sample.inliner
                                Sample.before_inliner)
     = [EvRun OptimizationPass.kInliner "pass" false]
  /\ In (EvRun OptimizationPass.kInliner "pass" false)
        (snd (RunOptimizations_defs (backend := Sample.backend Sample.quiet)
                Sample.compilation_unit Sample.observer optimizations [])).
Proof.
  assert (H : Forall (fun x => pass x <> OptimizationPass.kNone) optimizations).
  { unfold optimizations. repeat (constructor; [discriminate|]). constructor. }
  split; [exact H|].
  destruct (@RunOptimizations_sentinel_always_satisfied (Sample.backend Sample.quiet)
              Sample.compilation_unit Sample.observer optimizations [] H
              Sample.initial_passes (drop 3 optimizations) eq_refl) as [H1 H2].
  split; [exact H1|].
  destruct (H2 Sample.inliner (drop 4 optimizations) eq_refl eq_refl)
    as (H3 & _ & _ & _ & H4).
  split; [exact H3 | exact H4].
Defined.

(** ** Sorting the relocation patches *)

Section SortFacts.
Context {A : Type} (comp : A -> A -> bool).
Hypothesis comp_asym : forall x y, comp x y = true -> comp y x = false.

Lemma sort_insert_Permutation (x : A) (l : list A) : sort_insert comp x l ≡ₚ x :: l.
Proof.
  induction l as [|y l IH]; simpl; [done|].
  destruct (comp y x); [|done]. rewrite IH. apply Permutation_swap.
Qed.

Lemma std_sort_Permutation (l : list A) : std_sort comp l ≡ₚ l.
Proof.
  induction l as [|x l IH]; simpl; [done|].
  by rewrite sort_insert_Permutation, IH.
Qed.

Lemma sort_insert_HdRel (y x : A) (l : list A) :
  comp y x = true -> HdRel (not_after comp) y l -> HdRel (not_after comp) y (sort_insert comp x l).
Proof.
  intros Hyx Hl. destruct l as [|z l]; simpl.
  - constructor. by apply comp_asym.
  - destruct (comp z x); constructor.
    + by inversion Hl.
    + by apply comp_asym.
Qed.

Lemma sort_insert_Sorted (x : A) (l : list A) :
  Sorted (not_after comp) l -> Sorted (not_after comp) (sort_insert comp x l).
Proof.
  induction 1 as [|y l Hl IH Hy]; simpl.
  - repeat constructor.
  - destruct (comp y x) eqn:Hyx.
    + constructor; [done|]. by apply sort_insert_HdRel.
    + constructor; [by constructor|]. by constructor.
Qed.

Lemma std_sort_Sorted (l : list A) : Sorted (not_after comp) (std_sort comp l).
Proof.
  induction l as [|x l IH]; simpl; [constructor|]. by apply sort_insert_Sorted.
Qed.
End SortFacts.

Lemma Sorted_weaken {A} (R1 R2 : A -> A -> Prop) (l : list A) :
  (forall a b, R1 a b -> R2 a b) -> Sorted R1 l -> Sorted R2 l.
Proof.
  intros HR. induction 1 as [|a l Hl IH Ha]; constructor; [done|].
  destruct Ha; constructor. by apply HR.
Qed.

Lemma Sorted_offset_lt_NoDup (l : list LinkerPatch) :
  Sorted offset_lt l -> NoDup (LiteralOffset <$> l).
Proof.
  intros H. apply Sorted_StronglySorted in H;
    [|intros a b c; unfold offset_lt; lia].
  induction H as [|a l Hl IH Ha]; simpl; constructor; [|done].
  intros Hin. apply list_elem_of_fmap in Hin as (b & Hab & Hb).
  rewrite Forall_forall in Ha. specialize (Ha b Hb). unfold offset_lt in Ha. lia.
Qed.

Lemma Sorted_offset_le_NoDup (l : list LinkerPatch) :
  Sorted offset_le l -> NoDup (LiteralOffset <$> l) -> Sorted offset_lt l.
Proof.
  intros H Hnodup. apply Sorted_StronglySorted in H;
    [|intros a b c; unfold offset_le; lia].
  apply StronglySorted_Sorted.
  induction H as [|a l Hl IH Ha]; [constructor|].
  simpl in Hnodup. apply NoDup_cons in Hnodup as [Hnotin Hnodup].
  constructor; [by apply IH|].
  rewrite Forall_forall in *. intros b Hb. specialize (Ha b Hb).
  unfold offset_le, offset_lt in *.
  assert (LiteralOffset a <> LiteralOffset b).
  { intros Heq. apply Hnotin. rewrite Heq. by apply list_elem_of_fmap_2. }
  lia.
Qed.

(** C4, as the code has it.  The patch list of [EmitAndSortLinkerPatches] is
    the emitted patches, rearranged in ascending order of literal offset:
    of two consecutive patches the first's offset is at most the second's.
    The order is strict exactly when no two emitted patches share a literal
    offset. *)
Theorem EmitAndSortLinkerPatches_sorted `{backend : Backend} (codegen : CodeGenerator) :
  EmitAndSortLinkerPatches codegen ≡ₚ EmitLinkerPatches codegen
  /\ Sorted offset_le (EmitAndSortLinkerPatches codegen)
  /\ (Sorted offset_lt (EmitAndSortLinkerPatches codegen)
      <-> NoDup (LiteralOffset <$> EmitLinkerPatches codegen)).
Proof.
  unfold EmitAndSortLinkerPatches.
  set (comp := fun lhs rhs : LinkerPatch => LiteralOffset lhs <? LiteralOffset rhs).
  assert (Hperm : std_sort comp (EmitLinkerPatches codegen) ≡ₚ EmitLinkerPatches codegen)
    by apply std_sort_Permutation.
  assert (Hsorted : Sorted offset_le (std_sort comp (EmitLinkerPatches codegen))).
  { eapply Sorted_weaken; [|apply (std_sort_Sorted comp)].
    - intros a b. unfold not_after, offset_le, comp. by rewrite N.ltb_ge.
    - intros x y. unfold comp. rewrite N.ltb_lt, N.ltb_ge. lia. }
  split; [done|]. split; [done|]. split.
  - intros H. rewrite <- Hperm. by apply Sorted_offset_lt_NoDup.
  - intros H. apply Sorted_offset_le_NoDup; [done|]. by rewrite Hperm.
Qed.

(** C4, as stated, fails: the sample code generator emits two patches at
    literal offset 4, and they come out next to each other. *)
Lemma patches_at_one_offset_not_strictly_sorted :
  EmitAndSortLinkerPatches (backend := Sample.backend Sample.quiet) []
  = [mkLinkerPatch 4 2; mkLinkerPatch 4 3; mkLinkerPatch 8 1]
  /\ ~ Sorted offset_lt
         (EmitAndSortLinkerPatches (backend := Sample.backend Sample.quiet) []).
Proof.
  split; [reflexivity|].
  intros H. apply Sorted_inv in H as [_ H].
  apply HdRel_inv in H. unfold offset_lt in H. simpl in H. lia.
Qed.

(** ** What the pipeline records *)

Section PipelineFacts.
Context `{backend : Backend}.
Variable compiler_options : CompilerOptions.
Variable runtime : Runtime.

Lemma pass_events_bind {A B} (m : Tr A) (k : A -> Tr B) :
  pass_events (snd m) -> (forall a, pass_events (snd (k a))) ->
  pass_events (snd (tr_bind m k)).
Proof. intros Hm Hk. rewrite tr_bind_snd. apply Forall_app. split; [done | apply Hk]. Qed.

Lemma pass_events_when (b : bool) (e : CompileEvent) :
  is_pass_event e = true -> pass_events (snd (tr_when b (emit e))).
Proof. intros He. destruct b; simpl; by repeat constructor. Qed.

Lemma pass_events_emit (e : CompileEvent) :
  is_pass_event e = true -> pass_events (snd (emit e)).
Proof. intros He. by repeat constructor. Qed.

Lemma pass_events_ret {A} (a : A) : pass_events (snd (tr_ret a)).
Proof. constructor. Qed.

Ltac pass_events :=
  repeat first
    [ apply pass_events_ret
    | apply pass_events_when; reflexivity
    | apply pass_events_emit; reflexivity
    | apply pass_events_bind; [|intros ?] ].

Lemma StartPass_events o name : pass_events (snd (StartPass o name)).
Proof. unfold StartPass. pass_events. Qed.

Lemma EndPass_events o name pass_change : pass_events (snd (EndPass o name pass_change)).
Proof. unfold EndPass. pass_events. Qed.

Lemma DumpDisassembly_events o : pass_events (snd (DumpDisassembly o)).
Proof. unfold DumpDisassembly. pass_events. Qed.

Lemma PassObserver_delete_events o : pass_events (snd (PassObserver_delete o)).
Proof. unfold PassObserver_delete. pass_events. Qed.

Lemma PassObserver_new_events name (codegen : CodeGenerator) :
  pass_events (snd (PassObserver_new compiler_options name codegen)).
Proof.
  unfold PassObserver_new.
  repeat match goal with |- context [if ?b then _ else _] => destruct b end;
    pass_events.
Qed.

Lemma RunOptimizations_step_events u o d (st : PassLoop) :
  pass_events (snd (RunOptimizations_step u o d st)).
Proof.
  destruct (pass_changes st (depends_on d)) eqn:H.
  - rewrite RunOptimizations_step_run by done. cbv zeta. cbn [snd].
    apply Forall_app. split; [apply StartPass_events|].
    constructor; [done | apply EndPass_events].
  - rewrite RunOptimizations_step_skip by done. pass_events.
Qed.

Lemma RunOptimizations_loop_events u o (l : list OptimizationDef) (st : PassLoop) :
  pass_events (snd (RunOptimizations_loop u o l st)).
Proof.
  revert st. induction l as [|d l IH]; intros st; cbn [RunOptimizations_loop].
  - pass_events.
  - apply pass_events_bind; [apply RunOptimizations_step_events | intros; apply IH].
Qed.

Lemma RunOptimizations_defs_events u o (l : list OptimizationDef) (codegen : CodeGenerator) :
  pass_events (snd (RunOptimizations_defs u o l codegen)).
Proof.
  unfold RunOptimizations_defs.
  apply pass_events_bind; [apply RunOptimizations_loop_events | intros; pass_events].
Qed.

Lemma RunBaselineOptimizations_events u o (codegen : CodeGenerator) :
  pass_events (snd (RunBaselineOptimizations compiler_options u o codegen)).
Proof.
  unfold RunBaselineOptimizations.
  destruct (GetInstructionSet compiler_options);
    first [apply RunOptimizations_defs_events | pass_events].
Qed.

Lemma RunArchOptimizations_events u o (codegen : CodeGenerator) :
  pass_events (snd (RunArchOptimizations compiler_options u o codegen)).
Proof.
  unfold RunArchOptimizations.
  destruct (GetInstructionSet compiler_options);
    first [apply RunOptimizations_defs_events | pass_events].
Qed.

Lemma RunOptimizations_events u o (codegen : CodeGenerator) :
  pass_events (snd (RunOptimizations compiler_options u o codegen)).
Proof.
  unfold RunOptimizations. destruct (GetPassesToRun compiler_options).
  - apply pass_events_bind; [apply RunOptimizations_defs_events | intros; pass_events].
  - apply pass_events_bind; [apply RunOptimizations_defs_events | intros].
    apply pass_events_bind; [apply RunArchOptimizations_events | intros; pass_events].
Qed.

Lemma AllocateRegisters_events o strategy (codegen : CodeGenerator) :
  pass_events (snd (AllocateRegisters o strategy codegen)).
Proof.
  unfold AllocateRegisters.
  repeat first
    [ apply pass_events_ret
    | apply pass_events_emit; reflexivity
    | apply pass_events_bind; [first [apply StartPass_events | apply EndPass_events | idtac]
                              | intros ?] ].
Qed.

Lemma pipeline_events_bind {A B} (m : Tr A) (k : A -> Tr B) :
  pipeline_events (snd m) -> (forall a, pipeline_events (snd (k a))) ->
  pipeline_events (snd (tr_bind m k)).
Proof. intros Hm Hk. rewrite tr_bind_snd. apply Forall_app. split; [done | apply Hk]. Qed.

Lemma pipeline_events_pass (l : list CompileEvent) : pass_events l -> pipeline_events l.
Proof. intros H. eapply Forall_impl; [exact H|]. intros e He. by destruct e. Qed.

Lemma pipeline_events_emit (e : CompileEvent) :
  is_pipeline_event e = true -> pipeline_events (snd (emit e)).
Proof. intros He. by repeat constructor. Qed.

Lemma BuildFailureStat_events result :
  is_success result = false -> pipeline_events (snd (BuildFailureStat result)).
Proof. destruct result; intros H; try done; by repeat constructor. Qed.

(** The part of [TryCompile] behind the eligibility checks. *)
Lemma TryCompile_pipeline_events ca cu method kind :
  IsInstructionSetSupported (GetInstructionSet compiler_options) = true ->
  IsPathologicalCase (DexCompilationUnit.GetCodeItem cu)
                     (DexCompilationUnit.GetDexMethodIndex cu)
                     (DexCompilationUnit.GetDexFile cu) = false ->
  is_space (GetCompilerFilter compiler_options)
  && (kSpaceFilterOptimizingThreshold <? InsnsSize (DexCompilationUnit.GetCodeItem cu))
  = false ->
  exists rest,
    snd (TryCompile compiler_options runtime ca cu method kind)
    = EvMaybeRecordStat MethodCompilationStat.kAttemptBytecodeCompilation :: rest
    /\ pipeline_events rest.
Proof.
  intros Hisa Hpath Hspace. unfold TryCompile. rewrite Hisa, Hpath, Hspace.
  cbn [negb]. rewrite tr_bind_snd. cbn [MaybeRecordStat emit snd app fst].
  eexists. split; [reflexivity|].
  apply pipeline_events_bind; [by apply pipeline_events_emit | intros _].
  apply pipeline_events_bind; [by apply pipeline_events_emit | intros _].
  destruct (CodeGenerator_Create _ _) as [codegen|].
  2: { apply pipeline_events_bind; [by apply pipeline_events_emit | intros _].
       constructor. }
  apply pipeline_events_bind;
    [apply pipeline_events_pass, PassObserver_new_events | intros [o codegen']].
  apply pipeline_events_bind;
    [apply pipeline_events_pass, StartPass_events | intros _].
  destruct (BuildGraph cu codegen') as [result codegen''].
  apply pipeline_events_bind; [by apply pipeline_events_emit | intros _].
  destruct (is_success result) eqn:Hresult; cbn [negb].
  - apply pipeline_events_bind;
      [apply pipeline_events_pass, EndPass_events | intros _].
    apply pipeline_events_bind.
    { destruct (is_baseline kind).
      - apply pipeline_events_bind;
          [apply pipeline_events_pass, RunBaselineOptimizations_events | intros; constructor].
      - apply pipeline_events_pass, RunOptimizations_events. }
    intros codegen3.
    apply pipeline_events_bind;
      [apply pipeline_events_pass, AllocateRegisters_events | intros codegen4].
    destruct (CodeGenerator_Compile codegen4) as [codegen5 code].
    apply pipeline_events_bind; [by apply pipeline_events_emit | intros _].
    apply pipeline_events_bind;
      [apply pipeline_events_pass, DumpDisassembly_events | intros _].
    apply pipeline_events_bind; [by apply pipeline_events_emit | intros _].
    apply pipeline_events_bind;
      [apply pipeline_events_pass, PassObserver_delete_events | intros _].
    constructor.
  - apply pipeline_events_bind; [by apply BuildFailureStat_events | intros _].
    apply pipeline_events_bind;
      [apply pipeline_events_pass, EndPass_events | intros _].
    apply pipeline_events_bind;
      [apply pipeline_events_pass, PassObserver_delete_events | intros _].
    constructor.
Qed.

(** C6, as the code has it.  On a supported instruction set, a method the
    heuristic classifies as pathological makes [TryCompile] return null with
    the statistic [kNotCompiledPathological] recorded, and nothing else
    done: no graph is constructed and no pass runs.  The result is an
    ordinary return value.  On an instruction set that is not supported
    [TryCompile] returns null with [kNotCompiledUnsupportedIsa] recorded,
    whatever the heuristic would say of the method: it is not consulted. *)
Theorem TryCompile_rejects_pathological ca cu method kind :
  (IsInstructionSetSupported (GetInstructionSet compiler_options) = true ->
   IsPathologicalCase (DexCompilationUnit.GetCodeItem cu)
                      (DexCompilationUnit.GetDexMethodIndex cu)
                      (DexCompilationUnit.GetDexFile cu) = true ->
   TryCompile compiler_options runtime ca cu method kind
   = (None, ca,
      [EvMaybeRecordStat MethodCompilationStat.kAttemptBytecodeCompilation;
       EvMaybeRecordStat MethodCompilationStat.kNotCompiledPathological])
   /\ (forall idx safe k,
         ~ In (EvNewHGraph idx safe k)
              (snd (TryCompile compiler_options runtime ca cu method kind)))
   /\ (forall p name pass_change,
         ~ In (EvRun p name pass_change)
              (snd (TryCompile compiler_options runtime ca cu method kind))))
  /\ (IsInstructionSetSupported (GetInstructionSet compiler_options) = false ->
      TryCompile compiler_options runtime ca cu method kind
      = (None, ca,
         [EvMaybeRecordStat MethodCompilationStat.kAttemptBytecodeCompilation;
          EvMaybeRecordStat MethodCompilationStat.kNotCompiledUnsupportedIsa])
      /\ ~ In (EvMaybeRecordStat MethodCompilationStat.kNotCompiledPathological)
              (snd (TryCompile compiler_options runtime ca cu method kind))).
Proof.
  split.
  - intros Hisa Hpath.
    assert (H : TryCompile compiler_options runtime ca cu method kind
                = (None, ca,
                   [EvMaybeRecordStat MethodCompilationStat.kAttemptBytecodeCompilation;
                    EvMaybeRecordStat MethodCompilationStat.kNotCompiledPathological])).
    { unfold TryCompile. by rewrite Hisa, Hpath. }
    rewrite H. split; [done|].
    split; intros; simpl; intros [?|[?|[]]]; discriminate.
  - intros Hisa.
    assert (H : TryCompile compiler_options runtime ca cu method kind
                = (None, ca,
                   [EvMaybeRecordStat MethodCompilationStat.kAttemptBytecodeCompilation;
                    EvMaybeRecordStat MethodCompilationStat.kNotCompiledUnsupportedIsa])).
    { unfold TryCompile. by rewrite Hisa. }
    rewrite H. split; [done|]. simpl. intros [?|[?|[]]]; discriminate.
Qed.

(** C5, as the code has it.  Under the space filter [TryCompile] returns
    null for every method of more than 128 code units; it is the space
    filter that rejects the method, and its statistic that is recorded, when
    the method has passed the two earlier checks; a method stopped by one of
    these has that check's statistic recorded instead.  A method of exactly
    128 code units is never rejected by the space filter. *)
Theorem TryCompile_space_filter ca cu method kind :
  GetCompilerFilter compiler_options = CompilerFilter.kSpace ->
  kSpaceFilterOptimizingThreshold = 128
  /\ (kSpaceFilterOptimizingThreshold + 1 <= InsnsSize (DexCompilationUnit.GetCodeItem cu) ->
      fst (fst (TryCompile compiler_options runtime ca cu method kind)) = None
      /\ (IsInstructionSetSupported (GetInstructionSet compiler_options) = true ->
          IsPathologicalCase (DexCompilationUnit.GetCodeItem cu)
                             (DexCompilationUnit.GetDexMethodIndex cu)
                             (DexCompilationUnit.GetDexFile cu) = false ->
          TryCompile compiler_options runtime ca cu method kind
          = (None, ca,
             [EvMaybeRecordStat MethodCompilationStat.kAttemptBytecodeCompilation;
              EvMaybeRecordStat MethodCompilationStat.kNotCompiledSpaceFilter]))
      /\ (IsInstructionSetSupported (GetInstructionSet compiler_options) = false ->
          TryCompile compiler_options runtime ca cu method kind
          = (None, ca,
             [EvMaybeRecordStat MethodCompilationStat.kAttemptBytecodeCompilation;
              EvMaybeRecordStat MethodCompilationStat.kNotCompiledUnsupportedIsa]))
      /\ (IsInstructionSetSupported (GetInstructionSet compiler_options) = true ->
          IsPathologicalCase (DexCompilationUnit.GetCodeItem cu)
                             (DexCompilationUnit.GetDexMethodIndex cu)
                             (DexCompilationUnit.GetDexFile cu) = true ->
          TryCompile compiler_options runtime ca cu method kind
          = (None, ca,
             [EvMaybeRecordStat MethodCompilationStat.kAttemptBytecodeCompilation;
              EvMaybeRecordStat MethodCompilationStat.kNotCompiledPathological])))
  /\ (InsnsSize (DexCompilationUnit.GetCodeItem cu) = kSpaceFilterOptimizingThreshold ->
      ~ In (EvMaybeRecordStat MethodCompilationStat.kNotCompiledSpaceFilter)
           (snd (TryCompile compiler_options runtime ca cu method kind))).
Proof.
  intros Hfilter. split; [done|]. split.
  - intros Hsize.
    assert (Hgate : (kSpaceFilterOptimizingThreshold
                     <? InsnsSize (DexCompilationUnit.GetCodeItem cu)) = true).
    { apply N.ltb_lt. lia. }
    split; [|split; [|split]].
    + unfold TryCompile. rewrite Hfilter, Hgate.
      destruct (IsInstructionSetSupported _); [|done].
      by destruct (IsPathologicalCase _ _ _).
    + intros Hisa Hpath. unfold TryCompile. by rewrite Hisa, Hpath, Hfilter, Hgate.
    + intros Hisa. unfold TryCompile. by rewrite Hisa.
    + intros Hisa Hpath. unfold TryCompile. by rewrite Hisa, Hpath.
  - intros Hsize.
    destruct (IsInstructionSetSupported (GetInstructionSet compiler_options)) eqn:Hisa.
    2: { unfold TryCompile. rewrite Hisa. simpl. intros [?|[?|[]]]; discriminate. }
    destruct (IsPathologicalCase (DexCompilationUnit.GetCodeItem cu)
                (DexCompilationUnit.GetDexMethodIndex cu)
                (DexCompilationUnit.GetDexFile cu)) eqn:Hpath.
    { unfold TryCompile. rewrite Hisa, Hpath. simpl. intros [?|[?|[]]]; discriminate. }
    destruct (TryCompile_pipeline_events ca cu method kind Hisa Hpath)
      as (rest & -> & Hrest).
    { rewrite Hsize. by rewrite N.ltb_irrefl, andb_false_r. }
    intros [?|Hin]; [discriminate|].
    unfold pipeline_events in Hrest. rewrite Forall_forall in Hrest.
    apply list_elem_of_In, Hrest in Hin. discriminate.
Qed.

End PipelineFacts.

(** On the sample backend: a method of 129 code units on x86-64. *)
Lemma TryCompile_space_filter_witness :
  GetCompilerFilter (Sample.options InstructionSet.kX86_64 CompilerFilter.kSpace)
  = CompilerFilter.kSpace
  /\ TryCompile (backend := Sample.backend Sample.quiet)
       (Sample.options InstructionSet.kX86_64 CompilerFilter.kSpace) Sample.runtime
       (mkCodeVectorAllocator [])
       (DexCompilationUnit.mk Sample.dex_file (Some (mkCodeItem 129)) 0 7 1)
       None CompilationKind.kOptimized
     = (None, mkCodeVectorAllocator [],
        [EvMaybeRecordStat MethodCompilationStat.kAttemptBytecodeCompilation;
         EvMaybeRecordStat MethodCompilationStat.kNotCompiledSpaceFilter]).
Proof.
  split; [reflexivity|].
  destruct (@TryCompile_space_filter (Sample.backend Sample.quiet)
              (Sample.options InstructionSet.kX86_64 CompilerFilter.kSpace) Sample.runtime
              (mkCodeVectorAllocator [])
              (DexCompilationUnit.mk Sample.dex_file (Some (mkCodeItem 129)) 0 7 1)
              None CompilationKind.kOptimized eq_refl) as (_ & H & _).
  destruct H as (_ & H & _); [by vm_compute|].
  apply H; reflexivity.
Defined.

(** C5, as stated, fails: under the space filter, a method of 129 code units
    compiled for an instruction set that is not supported is rejected by the
    first check, and a method of 20000 code units on x86-64 by the check for
    pathological methods; each check records its own statistic, and the
    space filter's is not recorded. *)
Lemma earlier_checks_hide_space_filter_statistic :
  (TryCompile (backend := Sample.backend Sample.quiet)
     (Sample.options InstructionSet.kNone CompilerFilter.kSpace) Sample.runtime
     (mkCodeVectorAllocator [])
     (DexCompilationUnit.mk Sample.dex_file (Some (mkCodeItem 129)) 0 7 1)
     None CompilationKind.kOptimized
   = (None, mkCodeVectorAllocator [],
      [EvMaybeRecordStat MethodCompilationStat.kAttemptBytecodeCompilation;
       EvMaybeRecordStat MethodCompilationStat.kNotCompiledUnsupportedIsa])
   /\ ~ In (EvMaybeRecordStat MethodCompilationStat.kNotCompiledSpaceFilter)
           (snd (TryCompile (backend := Sample.backend Sample.quiet)
                   (Sample.options InstructionSet.kNone CompilerFilter.kSpace) Sample.runtime
                   (mkCodeVectorAllocator [])
                   (DexCompilationUnit.mk Sample.dex_file (Some (mkCodeItem 129)) 0 7 1)
                   None CompilationKind.kOptimized)))
  /\ (TryCompile (backend := Sample.backend Sample.quiet)
        (Sample.options InstructionSet.kX86_64 CompilerFilter.kSpace) Sample.runtime
        (mkCodeVectorAllocator [])
        (DexCompilationUnit.mk Sample.dex_file (Some (mkCodeItem 20000)) 0 7 1)
        None CompilationKind.kOptimized
      = (None, mkCodeVectorAllocator [],
         [EvMaybeRecordStat MethodCompilationStat.kAttemptBytecodeCompilation;
          EvMaybeRecordStat MethodCompilationStat.kNotCompiledPathological])
      /\ ~ In (EvMaybeRecordStat MethodCompilationStat.kNotCompiledSpaceFilter)
              (snd (TryCompile (backend := Sample.backend Sample.quiet)
                      (Sample.options InstructionSet.kX86_64 CompilerFilter.kSpace)
                      Sample.runtime (mkCodeVectorAllocator [])
                      (DexCompilationUnit.mk Sample.dex_file (Some (mkCodeItem 20000)) 0 7 1)
                      None CompilationKind.kOptimized))).
Proof.
  split; (split; [reflexivity|]); simpl; intros [H|[H|[]]]; discriminate H.
Qed.

(** On the sample backend: a method of 20000 code units on x86-64. *)
Lemma TryCompile_rejects_pathological_witness :
  (IsInstructionSetSupported
     (GetInstructionSet (Sample.options InstructionSet.kX86_64 CompilerFilter.kSpeed)) = true
   /\ IsPathologicalCase (Backend := Sample.backend Sample.quiet)
        (Some (mkCodeItem 20000)) 7 Sample.dex_file = true)
  /\ TryCompile (backend := Sample.backend Sample.quiet)
       (Sample.options InstructionSet.kX86_64 CompilerFilter.kSpeed) Sample.runtime
       (mkCodeVectorAllocator [])
       (DexCompilationUnit.mk Sample.dex_file (Some (mkCodeItem 20000)) 0 7 1)
       None CompilationKind.kOptimized
     = (None, mkCodeVectorAllocator [],
        [EvMaybeRecordStat MethodCompilationStat.kAttemptBytecodeCompilation;
         EvMaybeRecordStat MethodCompilationStat.kNotCompiledPathological]).
Proof.
  split; [by split|].
  exact (proj1 (proj1 (@TryCompile_rejects_pathological (Sample.backend Sample.quiet)
                         (Sample.options InstructionSet.kX86_64 CompilerFilter.kSpeed)
                         Sample.runtime (mkCodeVectorAllocator [])
                         (DexCompilationUnit.mk Sample.dex_file (Some (mkCodeItem 20000))
                                                0 7 1)
                         None CompilationKind.kOptimized) eq_refl eq_refl)).
Defined.

(** C6, as stated, fails: a method of 20000 code units, which the heuristic
    classifies as pathological, compiled for an instruction set that is not
    supported, is rejected by the first check; the heuristic is not consulted
    and its statistic is not recorded. *)
Lemma unsupported_isa_hides_pathological_statistic :
  IsPathologicalCase (Backend := Sample.backend Sample.quiet)
    (Some (mkCodeItem 20000)) 7 Sample.dex_file = true
  /\ TryCompile (backend := Sample.backend Sample.quiet)
       (Sample.options InstructionSet.kNone CompilerFilter.kSpeed) Sample.runtime
       (mkCodeVectorAllocator [])
       (DexCompilationUnit.mk Sample.dex_file (Some (mkCodeItem 20000)) 0 7 1)
       None CompilationKind.kOptimized
     = (None, mkCodeVectorAllocator [],
        [EvMaybeRecordStat MethodCompilationStat.kAttemptBytecodeCompilation;
         EvMaybeRecordStat MethodCompilationStat.kNotCompiledUnsupportedIsa])
  /\ ~ In (EvMaybeRecordStat MethodCompilationStat.kNotCompiledPathological)
          (snd (TryCompile (backend := Sample.backend Sample.quiet)
                  (Sample.options InstructionSet.kNone CompilerFilter.kSpeed) Sample.runtime
                  (mkCodeVectorAllocator [])
                  (DexCompilationUnit.mk Sample.dex_file (Some (mkCodeItem 20000)) 0 7 1)
                  None CompilationKind.kOptimized)).
Proof.
  split; [reflexivity|]. split; [reflexivity|].
  simpl. intros [?|[?|[]]]; discriminate.
Qed.

(** ** The intrinsic fast path *)

Section IntrinsicFacts.
Context `{backend : Backend}.
Variable compiler_options : CompilerOptions.
Variable runtime : Runtime.

Lemma m_bind_lift {S A B} (m : Tr A) (k : A -> M S B) (s : S) :
  m_bind (lift m) k s
  = (fst (fst (k (fst m) s)), snd (fst (k (fst m) s)),
     (Compiling <$> snd m) ++ snd (k (fst m) s)).
Proof. unfold m_bind, lift. by destruct (k (fst m) s) as [[b s2] l2]. Qed.

Lemma m_bind_eq {S A B} (m : M S A) (k : A -> M S B) (s : S) :
  m_bind m k s
  = (fst (fst (k (fst (fst (m s))) (snd (fst (m s))))),
     snd (fst (k (fst (fst (m s))) (snd (fst (m s))))),
     snd (m s) ++ snd (k (fst (fst (m s))) (snd (fst (m s))))).
Proof.
  unfold m_bind. destruct (m s) as [[a s1] l1]. simpl.
  by destruct (k a s1) as [[b s2] l2].
Qed.

Lemma gives_up_pass_events {A} (m : Tr A) :
  pass_events (snd m) -> ~ In (EvIsLeafMethod false) (snd m).
Proof.
  intros H Hin. unfold pass_events in H. rewrite Forall_forall in H.
  apply list_elem_of_In, H in Hin. discriminate.
Qed.

Lemma gives_up_bind {A} ca (m : Tr A) k :
  ~ In (EvIsLeafMethod false) (snd m) ->
  (forall a, gives_up_if_not_leaf ca (k a)) ->
  gives_up_if_not_leaf ca (tr_bind m k).
Proof.
  intros Hm Hk Hin. rewrite tr_bind_snd in Hin. apply in_app_or in Hin as [Hin|Hin].
  - by destruct Hm.
  - rewrite tr_bind_fst. by apply Hk.
Qed.

Lemma gives_up_emit ca (e : CompileEvent) k :
  e <> EvIsLeafMethod false ->
  gives_up_if_not_leaf ca (k tt) ->
  gives_up_if_not_leaf ca (tr_bind (emit e) k).
Proof.
  intros He Hk. apply gives_up_bind; [|by intros []].
  simpl. intros [?|[]]. by destruct He.
Qed.

Lemma gives_up_ret ca r : gives_up_if_not_leaf ca (tr_ret r).
Proof. intros []. Qed.

(** [TryCompileIntrinsic] returns null when the allocated code is not a leaf
    method. *)
Lemma TryCompileIntrinsic_gives_up ca dex_compilation_unit m :
  gives_up_if_not_leaf ca (TryCompileIntrinsic compiler_options ca dex_compilation_unit m).
Proof.
  unfold TryCompileIntrinsic, MaybeRecordStat.
  apply gives_up_emit; [done|].
  destruct (IsInstructionSetSupported _); cbn [negb]; [|apply gives_up_ret].
  apply gives_up_emit; [done|]. apply gives_up_emit; [done|].
  destruct (CodeGenerator_Create _ _) as [codegen|]; [|apply gives_up_ret].
  apply gives_up_bind; [apply gives_up_pass_events, PassObserver_new_events|].
  intros [o codegen1].
  apply gives_up_bind; [apply gives_up_pass_events, StartPass_events | intros _].
  apply gives_up_emit; [done|].
  apply gives_up_bind; [apply gives_up_pass_events, EndPass_events | intros _].
  apply gives_up_bind;
    [apply gives_up_pass_events, RunOptimizations_defs_events | intros r1].
  apply gives_up_bind;
    [apply gives_up_pass_events, RunArchOptimizations_events | intros r2].
  apply gives_up_bind;
    [apply gives_up_pass_events, AllocateRegisters_events | intros codegen2].
  destruct (IsLeafMethod codegen2); cbn [negb].
  - apply gives_up_emit; [done|].
    destruct (CodeGenerator_Compile codegen2) as [codegen3 code].
    apply gives_up_emit; [done|].
    apply gives_up_bind; [apply gives_up_pass_events, DumpDisassembly_events | intros _].
    apply gives_up_emit; [done|].
    apply gives_up_bind;
      [apply gives_up_pass_events, PassObserver_delete_events | intros _].
    apply gives_up_ret.
  - intros _. reflexivity.
Qed.

Lemma Emit_not_intrinsic ca (codegen : CodeGenerator) code_item storage :
  cm_intrinsic (fst (fst (Emit ca codegen code_item storage))) = false.
Proof.
  unfold Emit. rewrite m_bind_eq. cbn [fst snd SwapAllocCompiledMethod].
  rewrite m_bind_eq. reflexivity.
Qed.

(** C7. A method that resolves to an intrinsic and whose code generator
    reports, after register allocation in [TryCompileIntrinsic], that the
    method is not a leaf: the intrinsic attempt returns null, [Compile] goes
    on to [TryCompile], and what [Compile] returns is what [Emit] makes of
    the code generator of [TryCompile], for the method's own code item; it
    is not marked as intrinsic. *)
Theorem Compile_non_leaf_intrinsic_falls_through
    code_item access_flags class_def_idx method_idx dex_file storage m :
  ResolveMethod method_idx dex_file = Some m ->
  ArtMethod.IsIntrinsic m = true ->
  In (EvIsLeafMethod false)
     (snd (TryCompileIntrinsic compiler_options (mkCodeVectorAllocator [])
             (DexCompilationUnit.mk dex_file code_item class_def_idx method_idx access_flags)
             m)) ->
  let dex_compilation_unit :=
    DexCompilationUnit.mk dex_file code_item class_def_idx method_idx access_flags in
  let attempt :=
    TryCompileIntrinsic compiler_options (mkCodeVectorAllocator []) dex_compilation_unit m in
  let general :=
    TryCompile compiler_options runtime (mkCodeVectorAllocator []) dex_compilation_unit (Some m)
               (if IsBaseline compiler_options
                then CompilationKind.kBaseline else CompilationKind.kOptimized) in
  let compiled :=
    Compile compiler_options runtime code_item access_flags class_def_idx method_idx
            dex_file storage in
  fst attempt = (None, mkCodeVectorAllocator [])
  /\ compiled
     = match fst (fst general) with
       | Some codegen =>
           let emitted := Emit (snd (fst general)) codegen code_item storage in
           (Some (fst (fst emitted)), snd (fst emitted),
            (Compiling <$> snd attempt) ++ (Compiling <$> snd general) ++ snd emitted)
       | None =>
           (None, storage, (Compiling <$> snd attempt) ++ (Compiling <$> snd general))
       end
  /\ forall compiled_method,
       fst (fst compiled) = Some compiled_method -> cm_intrinsic compiled_method = false.
Proof.
  intros Hresolved Hintrinsic Hleaf dex_compilation_unit attempt general compiled.
  assert (Hattempt : fst attempt = (None, mkCodeVectorAllocator [])).
  { by apply TryCompileIntrinsic_gives_up. }
  assert (Hcompiled : compiled
     = match fst (fst general) with
       | Some codegen =>
           let emitted := Emit (snd (fst general)) codegen code_item storage in
           (Some (fst (fst emitted)), snd (fst emitted),
            (Compiling <$> snd attempt) ++ (Compiling <$> snd general) ++ snd emitted)
       | None =>
           (None, storage, (Compiling <$> snd attempt) ++ (Compiling <$> snd general))
       end).
  { subst compiled. unfold Compile. rewrite Hresolved, Hintrinsic.
    fold dex_compilation_unit. fold attempt. rewrite m_bind_lift, Hattempt.
    cbn [bool_decide decide_rel fst snd]. 
    rewrite (m_bind_lift general). fold general.
    destruct general as [[[codegen|] ca'] events]; cbn [fst snd].
    - rewrite m_bind_eq. unfold m_ret. cbn [fst snd]. by rewrite app_nil_r.
    - unfold m_ret. cbn [fst snd]. by rewrite app_nil_r. }
  split; [done|]. split; [done|].
  intros cm. rewrite Hcompiled.
  destruct (fst (fst general)) as [codegen|]; cbn [fst]; [|done].
  intros [= <-]. apply Emit_not_intrinsic.
Qed.

End IntrinsicFacts.

(** On the sample backend: an intrinsic whose code is not a leaf method. *)
Lemma Compile_non_leaf_intrinsic_falls_through_witness :
  (ResolveMethod (Backend := Sample.backend Sample.non_leaf_intrinsic) 7 Sample.dex_file
   = Some (Sample.method false true)
   /\ ArtMethod.IsIntrinsic (Sample.method false true) = true
   /\ In (EvIsLeafMethod false)
         (snd (TryCompileIntrinsic (backend := Sample.backend Sample.non_leaf_intrinsic)
                 (Sample.options InstructionSet.kX86_64 CompilerFilter.kSpeed)
                 (mkCodeVectorAllocator [])
                 (DexCompilationUnit.mk Sample.dex_file (Some (mkCodeItem 8)) 0 7 1)
                 (Sample.method false true))))
  /\ fst (TryCompileIntrinsic (backend := Sample.backend Sample.non_leaf_intrinsic)
            (Sample.options InstructionSet.kX86_64 CompilerFilter.kSpeed)
            (mkCodeVectorAllocator [])
            (DexCompilationUnit.mk Sample.dex_file (Some (mkCodeItem 8)) 0 7 1)
            (Sample.method false true))
     = (None, mkCodeVectorAllocator []).
Proof.
  assert (Hleaf :
    In (EvIsLeafMethod false)
       (snd (TryCompileIntrinsic (backend := Sample.backend Sample.non_leaf_intrinsic)
               (Sample.options InstructionSet.kX86_64 CompilerFilter.kSpeed)
               (mkCodeVectorAllocator [])
               (DexCompilationUnit.mk Sample.dex_file (Some (mkCodeItem 8)) 0 7 1)
               (Sample.method false true)))).
  { vm_compute. repeat (first [left; reflexivity | right]). }
  split; [by repeat split|].
  exact (proj1 (@Compile_non_leaf_intrinsic_falls_through
                  (Sample.backend Sample.non_leaf_intrinsic)
                  (Sample.options InstructionSet.kX86_64 CompilerFilter.kSpeed)
                  Sample.runtime (Some (mkCodeItem 8)) 1 0 7 Sample.dex_file
                  (mkCompiledMethodStorage ∅) (Sample.method false true)
                  eq_refl eq_refl Hleaf)).
Defined.

(** ** The verbosity filter *)

Lemma append_String (a : ascii) (s t : string) : String a s +:+ t = String a (s +:+ t).
Proof. reflexivity. Qed.

Lemma append_empty (t : string) : "" +:+ t = t.
Proof. reflexivity. Qed.

Lemma prefix_spec (needle haystack : string) :
  String.prefix needle haystack = true <-> exists after, haystack = needle +:+ after.
Proof.
  revert haystack. induction needle as [|a needle IH]; intros haystack.
  - destruct haystack; simpl; split; eauto.
  - destruct haystack as [|b haystack]; simpl.
    + split; [done | by intros [? ?]].
    + destruct (Ascii.ascii_dec a b) as [->|Hne].
      * rewrite IH. split; intros [after H]; exists after;
          rewrite append_String in *; congruence.
      * split; [done | intros [after H]; rewrite append_String in H; congruence].
Qed.

Lemma strstr_spec (haystack needle : string) :
  strstr haystack needle <> None <-> Contains haystack needle.
Proof.
  split.
  - induction haystack as [|c rest IH]; cbn [strstr].
    + destruct (String.prefix needle "") eqn:Hp; [|done]. intros _.
      apply prefix_spec in Hp as [after Heq]. by exists "", after.
    + destruct (String.prefix needle (String c rest)) eqn:Hp.
      * intros _. apply prefix_spec in Hp as [after Heq]. by exists "", after.
      * intros H. destruct (IH H) as (before & after & ->).
        by exists (String c before), after.
  - intros (before & after & ->).
    induction before as [|c before IH].
    + rewrite append_empty.
      assert (Hp : String.prefix needle (needle +:+ after) = true)
        by (apply prefix_spec; eauto).
      destruct (needle +:+ after); cbn [strstr]; by rewrite Hp.
    + rewrite append_String. cbn [strstr]. by destruct (String.prefix needle _).
Qed.

(** C8. [IsVerboseMethod] answers with the exact-match test against the
    verbose-methods list when one is configured; otherwise with the
    substring test against the compiled-in filter, for which the empty
    filter, the one compiled in, selects every method. *)
Theorem IsVerboseMethod_filter (filter : string) (opts : CompilerOptions) (name : string) :
  match verbose_methods opts with
  | Some allowed =>
      (IsVerboseMethodWith filter opts name = true <-> In name allowed)
      /\ (IsVerboseMethod opts name = true <-> In name allowed)
  | None =>
      (IsVerboseMethodWith filter opts name = true <-> Contains name filter)
      /\ IsVerboseMethodWith "" opts name = true
      /\ IsVerboseMethod opts name = true
  end.
Proof.
  unfold IsVerboseMethod, IsVerboseMethodWith, HasVerboseMethods,
    CompilerOptions_IsVerboseMethod, kStringFilter.
  destruct (verbose_methods opts) as [allowed|].
  - assert (H : existsb (String.eqb name) allowed = true <-> In name allowed).
    { rewrite existsb_exists. split.
      - intros (x & Hx & Heq). apply String.eqb_eq in Heq. by subst.
      - intros Hin. exists name. split; [done | apply String.eqb_refl]. }
    done.
  - split; [|done].
    destruct (arraysize filter <=? 1)%nat eqn:Hempty; simpl.
    + split; [intros _ | done].
      destruct filter; [|done]. by exists "", name.
    + rewrite <- strstr_spec. case_bool_decide; split; done.
Qed.

(** ** Thunks *)

Section ThunkFacts.
Context `{backend : Backend}.
Implicit Types (storage : CompiledMethodStorage) (patch : LinkerPatch).

Lemma m_seq_eq {S B} (m : M S unit) (k : M S B) (s : S) :
  m_bind m (fun _ => k) s
  = (fst (fst (k (snd (fst (m s))))), snd (fst (k (snd (fst (m s))))),
     snd (m s) ++ snd (k (snd (fst (m s))))).
Proof. apply m_bind_eq. Qed.












Lemma Emit_eq ca (codegen : CodeGenerator) code_item storage :
  Emit ca codegen code_item storage
  = (let patches := EmitAndSortLinkerPatches codegen in
     let compiled_method :=
       mkCompiledMethod (CodeGenerator_GetInstructionSet codegen) (GetMemory ca)
                        (BuildStackMaps codegen code_item) (cfi_data codegen) patches false in
     (compiled_method,
      snd (fst (Emit_thunks codegen patches storage)),
      Storing (EvSwapAllocCompiledMethod compiled_method)
      :: snd (Emit_thunks codegen patches storage))).
Proof.
  unfold Emit. rewrite m_bind_eq. cbn [fst snd SwapAllocCompiledMethod].
  rewrite m_seq_eq. unfold m_ret. cbn [fst snd app]. by rewrite app_nil_r.
Qed.





End ThunkFacts.


(** ** Native stubs *)

(** C10. An artifact [JniCompile] produces by the generic stub path, that
    is, when the intrinsic fast path does not apply or gives up, has no
    relocation patches, and its stack map is the encoding of a stream that
    was told of the stub's frame and of zero dex registers, and nothing
    else. *)
Theorem JniCompile_generic_stub `{backend : Backend} (compiler_options : CompilerOptions)
    (access_flags method_idx : N) (dex_file : DexFile) (storage : CompiledMethodStorage) :
  fst (fst (JniCompile_intrinsic compiler_options access_flags method_idx dex_file storage))
  = None ->
  let stub := ArtQuickJniCompileMethod compiler_options access_flags method_idx dex_file in
  let compiled_method :=
    fst (fst (JniCompile compiler_options access_flags method_idx dex_file storage)) in
  cm_patches compiled_method = []
  /\ cm_stack_map compiled_method
     = StackMapStream_Encode
         (mkStackMapStream (jni_GetInstructionSet stub)
            [BeginMethod (jni_GetFrameSize stub) (jni_GetCoreSpillMask stub)
                         (jni_GetFpSpillMask stub) 0 false
                         (GetDebuggable compiler_options && IsJitCompiler compiler_options);
             EndMethod (byte_size (jni_GetCode stub))])
  /\ cm_code compiled_method = jni_GetCode stub
  /\ cm_intrinsic compiled_method = false.
Proof.
  intros Hgeneric stub compiled_method. subst compiled_method.
  unfold JniCompile. rewrite m_bind_eq, Hgeneric. rewrite m_bind_lift.
  cbn [fst snd SwapAllocCompiledMethod cm_patches cm_stack_map cm_code cm_intrinsic].
  done.
Qed.

(** On the sample backend, for a boot image: the method is an intrinsic, the
    fast path is tried and gives up because the code is not a leaf method. *)
Lemma JniCompile_generic_stub_witness :
  fst (fst (JniCompile_intrinsic (backend := Sample.backend Sample.non_leaf_intrinsic)
              (Sample.options InstructionSet.kX86_64 CompilerFilter.kSpeed)
              1 7 Sample.dex_file (mkCompiledMethodStorage ∅)))
  = None
  /\ cm_patches
       (fst (fst (JniCompile (backend := Sample.backend Sample.non_leaf_intrinsic)
                    (Sample.options InstructionSet.kX86_64 CompilerFilter.kSpeed)
                    1 7 Sample.dex_file (mkCompiledMethodStorage ∅))))
     = [].
Proof.
  assert (H : fst (fst (JniCompile_intrinsic
                          (backend := Sample.backend Sample.non_leaf_intrinsic)
                          (Sample.options InstructionSet.kX86_64 CompilerFilter.kSpeed)
                          1 7 Sample.dex_file (mkCompiledMethodStorage ∅)))
              = None)
    by (vm_compute; reflexivity).
  split; [exact H|].
  exact (proj1 (@JniCompile_generic_stub (Sample.backend Sample.non_leaf_intrinsic)
                  (Sample.options InstructionSet.kX86_64 CompilerFilter.kSpeed)
                  1 7 Sample.dex_file (mkCompiledMethodStorage ∅) H)).
Defined.

(** ** The JIT commit protocol *)

Lemma Compiling_not_Caching (l : list CompileEvent) (e : JitEvent) :
  ~ In (Caching e) (Compiling <$> l).
Proof.
  intros Hin. apply list_elem_of_In, list_elem_of_fmap in Hin as (x & Hx & _). discriminate.
Qed.

Lemma filter_Free_Compiling (l : list CompileEvent) :
  filter (fun e => is_Free e = true) (Compiling <$> l) = [].
Proof.
  induction l as [|e l IH]; [done|]. rewrite fmap_cons, filter_cons.
  cbn [is_Free]. by rewrite decide_False.
Qed.

Lemma In_Caching_app (l : list CompileEvent) (l' : list Event) (e : JitEvent) :
  In (Caching e) ((Compiling <$> l) ++ l') -> In (Caching e) l'.
Proof. intros H. apply in_app_or in H as [H|H]; [by apply Compiling_not_Caching in H | done]. Qed.

Section JitFacts.
Context `{backend : Backend} {R : Type} `{code_cache : JitCodeCache R}.
Context {contract : JitCodeCacheContract R}.
Variable compiler_options : CompilerOptions.
Variable runtime : Runtime.

(** C1. A JIT compilation, of bytecode or of a native method, in which
    [Reserve] succeeded and [Commit] then failed: the commit was called on
    the reserved extents; [JitCompile] returns false; [Free] is called
    exactly once, with the data pointers of the reserved code and data
    extents; and the entry point of the method, as of every method, is what
    it was before. *)
Theorem JitCompile_frees_after_failed_commit
    (method : ArtMethod.t) (compilation_kind : CompilationKind.t) (jit_logger : bool) (r : R)
    (code_size stack_map_size number_of_roots : N)
    (reserved_code reserved_data committed_code committed_data : ArrayRef.t) :
  let run := JitCompile compiler_options runtime method compilation_kind jit_logger r in
  In (Caching (EvReserve code_size stack_map_size number_of_roots
                         (Some (reserved_code, reserved_data)))) (snd run) ->
  In (Caching (EvCommit committed_code committed_data false)) (snd run) ->
  committed_code = reserved_code /\ committed_data = reserved_data
  /\ freed_after_failed_commit method r run reserved_code reserved_data.
Proof.
  intros run. subst run. unfold JitCompile.
  destruct (ArtMethod.IsNative method).
  - unfold JitCompile_native.
    destruct (IsJavaDebuggable runtime && ArtMethod.IsCriticalNative method);
      [intros []|].
    unfold m_bind, code_cache_Reserve, code_cache_Commit, code_cache_Free.
    match goal with
    | |- context [Reserve ?a ?b ?c ?d ?e] =>
        pose proof (Reserve_entry_point a b c d e) as Hentry1;
        destruct (Reserve a b c d e) as [[[c0 d0]|] r1] eqn:HR; cbn [fst snd] in *
    end.
    2: { simpl. intros [H|[H|[]]]; congruence. }
    match goal with
    | |- context [Commit ?a ?b] =>
        pose proof (Commit_failure_entry_point a b) as Hentry2;
        assert (Hc : commit_reserved_code a = c0) by reflexivity;
        assert (Hd : commit_reserved_data a = d0) by reflexivity;
        destruct (Commit a b) as [[|] r2] eqn:HC; cbn [fst snd negb] in *
    end.
    + destruct jit_logger; simpl; intros _ H;
        repeat (destruct H as [H|H]; [congruence|]); destruct H.
    + simpl. intros [H|[H|[H|[]]]]; [|congruence..]. injection H as <- <- <- <- <-.
      intros [H|[H|[H|[]]]]; [congruence | | congruence]. injection H as <- <-.
      split; [done|]. split; [done|]. unfold freed_after_failed_commit. cbn [fst snd].
      split; [done|]. split; [reflexivity|]. split.
      * do 3 eexists. eexists (mkCommitArgs _ _ _ _ _ _ _ _ _ _ _).
        rewrite HR. cbn [fst snd]. rewrite HC.
        cbn [fst snd commit_reserved_code commit_reserved_data]. done.
      * intros m. unfold GetEntryPointOf.
        rewrite Free_entry_point, Hentry2, Hentry1; done.
  - unfold JitCompile_bytecode, lift, m_bind.
    destruct (TryCompile _ _ _ _ _ _) as [[[codegen|] code_allocator] prefix];
      cbn [fst snd].
    2: { unfold m_ret. rewrite app_nil_r. intros H. by apply Compiling_not_Caching in H. }
    unfold code_cache_Reserve, code_cache_Commit, code_cache_Free.
    match goal with
    | |- context [Reserve ?a ?b ?c ?d ?e] =>
        pose proof (Reserve_entry_point a b c d e) as Hentry1;
        destruct (Reserve a b c d e) as [[[c0 d0]|] r1] eqn:HR; cbn [fst snd] in *
    end.
    2: { simpl. intros H. apply In_Caching_app in H. simpl in H.
         destruct H as [H|[H|[]]]; congruence. }
    destruct (EmitJitRoots _ _ _) as [memory roots].
    match goal with
    | |- context [Commit ?a ?b] =>
        pose proof (Commit_failure_entry_point a b) as Hentry2;
        destruct (Commit a b) as [[|] r2] eqn:HC; cbn [fst snd negb] in *
    end.
    + intros _. destruct jit_logger; simpl; intros H; apply In_Caching_app in H;
        simpl in H; repeat (destruct H as [H|H]; [congruence|]); destruct H.
    + simpl. intros H. apply In_Caching_app in H. simpl in H.
      destruct H as [H|[H|[H|[]]]]; [|congruence..]. injection H as <- <- <- <- <-.
      intros H. apply In_Caching_app in H. simpl in H.
      destruct H as [H|[H|[H|[]]]]; [congruence | | congruence]. injection H as <- <-.
      split; [done|]. split; [done|]. unfold freed_after_failed_commit. cbn [fst snd].
      split; [done|]. split; [by rewrite filter_app, filter_Free_Compiling|]. split.
      * do 3 eexists. eexists (mkCommitArgs _ _ _ _ _ _ _ _ _ _ _).
        rewrite HR. cbn [fst snd]. rewrite HC.
        cbn [fst snd commit_reserved_code commit_reserved_data]. done.
      * intros m. unfold GetEntryPointOf.
        rewrite Free_entry_point, Hentry2, Hentry1; done.
Qed.

End JitFacts.

Lemma Sample_code_cache_contract (accept : bool) :
  @JitCodeCacheContract Sample.SampleRuntime (Sample.code_cache accept).
Proof.
  split.
  - reflexivity.
  - intros args r m. simpl. by destruct accept.
  - reflexivity.
Qed.

(** On the sample backend and a cache that rejects every commit: a bytecode
    method whose two bytes of code and one byte of stack map were reserved
    at 4096 and 8192. *)
Lemma JitCompile_frees_after_failed_commit_witness :
  (In (Caching (EvReserve 2 1 0 (Some (ArrayRef.mk 4096 2, ArrayRef.mk 8192 1))))
      (snd (JitCompile (backend := Sample.backend Sample.quiet)
              (code_cache := Sample.code_cache false)
              (Sample.options InstructionSet.kX86_64 CompilerFilter.kSpeed) Sample.runtime
              (Sample.method false false) CompilationKind.kOptimized true
              (Sample.mkSampleRuntime 0 0)))
   /\ In (Caching (EvCommit (ArrayRef.mk 4096 2) (ArrayRef.mk 8192 1) false))
         (snd (JitCompile (backend := Sample.backend Sample.quiet)
                 (code_cache := Sample.code_cache false)
                 (Sample.options InstructionSet.kX86_64 CompilerFilter.kSpeed) Sample.runtime
                 (Sample.method false false) CompilationKind.kOptimized true
                 (Sample.mkSampleRuntime 0 0))))
  /\ freed_after_failed_commit (code_cache := Sample.code_cache false)
       (Sample.method false false) (Sample.mkSampleRuntime 0 0)
       (JitCompile (backend := Sample.backend Sample.quiet)
          (code_cache := Sample.code_cache false)
          (Sample.options InstructionSet.kX86_64 CompilerFilter.kSpeed) Sample.runtime
          (Sample.method false false) CompilationKind.kOptimized true
          (Sample.mkSampleRuntime 0 0))
       (ArrayRef.mk 4096 2) (ArrayRef.mk 8192 1).
Proof.
  assert (H1 :
    In (Caching (EvReserve 2 1 0 (Some (ArrayRef.mk 4096 2, ArrayRef.mk 8192 1))))
       (snd (JitCompile (backend := Sample.backend Sample.quiet)
               (code_cache := Sample.code_cache false)
               (Sample.options InstructionSet.kX86_64 CompilerFilter.kSpeed) Sample.runtime
               (Sample.method false false) CompilationKind.kOptimized true
               (Sample.mkSampleRuntime 0 0)))).
  { vm_compute. repeat (first [left; reflexivity | right]). }
  assert (H2 :
    In (Caching (EvCommit (ArrayRef.mk 4096 2) (ArrayRef.mk 8192 1) false))
       (snd (JitCompile (backend := Sample.backend Sample.quiet)
               (code_cache := Sample.code_cache false)
               (Sample.options InstructionSet.kX86_64 CompilerFilter.kSpeed) Sample.runtime
               (Sample.method false false) CompilationKind.kOptimized true
               (Sample.mkSampleRuntime 0 0)))).
  { vm_compute. repeat (first [left; reflexivity | right]). }
  split; [by split|].
  exact (proj2 (proj2 (@JitCompile_frees_after_failed_commit
                         (Sample.backend Sample.quiet) Sample.SampleRuntime
                         (Sample.code_cache false) (Sample_code_cache_contract false)
                         (Sample.options InstructionSet.kX86_64 CompilerFilter.kSpeed)
                         Sample.runtime (Sample.method false false)
                         CompilationKind.kOptimized true (Sample.mkSampleRuntime 0 0)
                         2 1 0 (ArrayRef.mk 4096 2) (ArrayRef.mk 8192 1)
                         (ArrayRef.mk 4096 2) (ArrayRef.mk 8192 1) H1 H2))).
Defined.

(** * Further properties of the driver *)

(** ** The pass loop, continued *)

Lemma StartPass_no_run o name : Forall (fun e => run_of e = None) (snd (StartPass o name)).
Proof.
  unfold StartPass. destruct (visualizer_enabled_ o), (timing_logger_enabled_ o);
    repeat constructor.
Qed.

Lemma EndPass_no_run o name c : Forall (fun e => run_of e = None) (snd (EndPass o name c)).
Proof.
  unfold EndPass. destruct (visualizer_enabled_ o), (timing_logger_enabled_ o);
    repeat constructor.
Qed.

Lemma no_run_omap (l : list CompileEvent) :
  Forall (fun e => run_of e = None) l -> omap run_of l = [].
Proof. induction 1 as [|e l He Hl IH]; [done|]. simpl. by rewrite He. Qed.

Lemma no_run_not_In (l : list CompileEvent) p name c :
  Forall (fun e => run_of e = None) l -> ~ In (EvRun p name c) l.
Proof.
  intros H Hin. rewrite Forall_forall in H. apply list_elem_of_In, H in Hin. discriminate.
Qed.

Section PassLoopMore.
Context `{backend : Backend}.
Variable cu : DexCompilationUnit.t.
Implicit Types (o : PassObserver) (d : OptimizationDef) (st : PassLoop).

(** What one iteration records: a run, in its scope, or nothing. *)
Lemma RunOptimizations_step_In_run o d st p name c :
  In (EvRun p name c) (snd (RunOptimizations_step cu o d st)) <->
  pass_changes st (depends_on d) = true
  /\ p = pass d /\ name = GetPassName d
  /\ c = fst (HOptimization_Run cu (pass d) (GetPassName d) (loop_codegen st)).
Proof.
  destruct (pass_changes st (depends_on d)) eqn:H.
  - rewrite RunOptimizations_step_run by done. cbv zeta. cbn [snd].
    rewrite !in_app_iff. split.
    + intros [Hin|[Hin|Hin]].
      * by apply no_run_not_In in Hin; [|apply StartPass_no_run].
      * by destruct Hin as [[= <- <- <-]|[]].
      * by apply no_run_not_In in Hin; [|apply EndPass_no_run].
    + intros (_ & -> & -> & ->). right. left. by left.
  - rewrite RunOptimizations_step_skip by done. simpl. split; [done | by intros [? _]].
Qed.

Lemma RunOptimizations_step_change o d st :
  change (fst (RunOptimizations_step cu o d st)) = true <->
  change st = true \/ exists p name, In (EvRun p name true) (snd (RunOptimizations_step cu o d st)).
Proof.
  split.
  - destruct (pass_changes st (depends_on d)) eqn:H.
    + destruct (fst (HOptimization_Run cu (pass d) (GetPassName d) (loop_codegen st))) eqn:Hc.
      * intros _. right. exists (pass d), (GetPassName d).
        apply RunOptimizations_step_In_run. by rewrite Hc.
      * rewrite RunOptimizations_step_run by done. cbv zeta. cbn [fst change].
        rewrite Hc. auto.
    + rewrite RunOptimizations_step_skip by done. simpl. auto.
  - intros [Hc|(p & name & Hin)].
    + destruct (pass_changes st (depends_on d)) eqn:H.
      * rewrite RunOptimizations_step_run by done. cbv zeta. cbn [fst change].
        by destruct (fst (HOptimization_Run _ _ _ _)).
      * by rewrite RunOptimizations_step_skip.
    + apply RunOptimizations_step_In_run in Hin as (H & -> & -> & Hc).
      rewrite RunOptimizations_step_run by done. cbv zeta. cbn [fst change].
      by rewrite <- Hc.
Qed.

Lemma RunOptimizations_loop_change o (l : list OptimizationDef) st :
  change (fst (RunOptimizations_loop cu o l st)) = true <->
  change st = true \/ exists p name, In (EvRun p name true) (snd (RunOptimizations_loop cu o l st)).
Proof.
  revert st. induction l as [|d l IH]; intros st; cbn [RunOptimizations_loop].
  - simpl. split; [auto | by intros [?|(? & ? & [])]].
  - rewrite tr_bind_fst, tr_bind_snd, IH, RunOptimizations_step_change.
    setoid_rewrite in_app_iff. split.
    + intros [[H|(p & name & H)]|(p & name & H)];
        [by left | right; exists p, name; by left | right; exists p, name; by right].
    + intros [H|(p & name & [H|H])];
        [left; by left | left; right; by exists p, name | right; by exists p, name].
Qed.

(** X1. [RunOptimizations] returns true exactly when a pass that ran reported
    a change. *)
Theorem RunOptimizations_returns_any_change o (definitions : list OptimizationDef)
    (codegen : CodeGenerator) :
  fst (fst (RunOptimizations_defs cu o definitions codegen)) = true <->
  exists p name, In (EvRun p name true) (snd (RunOptimizations_defs cu o definitions codegen)).
Proof.
  unfold RunOptimizations_defs. rewrite tr_bind_fst, tr_bind_snd. cbn [fst snd tr_ret].
  rewrite app_nil_r, RunOptimizations_loop_change. simpl.
  split; [by intros [?|?] | by right].
Qed.



Lemma RunOptimizations_loop_fixed_point o (l : list OptimizationDef) st :
  (forall p name codegen, fst (HOptimization_Run cu p name codegen) = false) ->
  only_sentinel st ->
  only_sentinel (fst (RunOptimizations_loop cu o l st))
  /\ forall p name c,
       In (EvRun p name c) (snd (RunOptimizations_loop cu o l st)) ->
       c = false
       /\ exists d, In d l /\ pass d = p /\ GetPassName d = name
                    /\ depends_on d = OptimizationPass.kNone.
Proof.
  intros Hquiet. revert st. induction l as [|d l IH]; intros st Hst.
  - split; [done | intros ? ? ? []].
  - cbn [RunOptimizations_loop]. rewrite tr_bind_fst, tr_bind_snd.
    assert (Hstep : only_sentinel (fst (RunOptimizations_step cu o d st))).
    { destruct Hst as [Hc Hs]. destruct (pass_changes st (depends_on d)) eqn:H.
      - rewrite RunOptimizations_step_run by done. cbv zeta. rewrite Hquiet.
        split; [done|]. simpl. intros p.
        destruct (decide (pass d = p)) as [<-|Hne].
        + by rewrite fn_lookup_insert.
        + rewrite fn_lookup_insert_ne by done. apply Hs.
      - rewrite RunOptimizations_step_skip by done. split; [done|]. simpl. intros p.
        destruct (decide (pass d = p)) as [<-|Hne].
        + by rewrite fn_lookup_insert.
        + rewrite fn_lookup_insert_ne by done. apply Hs. }
    destruct (IH _ Hstep) as [Hfinal Hruns]. split; [done|].
    intros p name c Hin. apply in_app_or in Hin as [Hin|Hin].
    + apply RunOptimizations_step_In_run in Hin as (Hdep & -> & -> & ->).
      split; [apply Hquiet|]. exists d. repeat split; [by left|].
      destruct Hst as [_ Hs]. by apply Hs.
    + destruct (Hruns p name c Hin) as (-> & d' & ? & ? & ? & ?).
      split; [done|]. exists d'. repeat split; try done. by right.
Qed.

(** X4. On a graph no pass changes, [RunOptimizations] returns false, and the
    passes that run are passes that depend on the sentinel: every pass that
    depends on another pass is skipped. *)
Theorem RunOptimizations_fixed_point o (definitions : list OptimizationDef)
    (codegen : CodeGenerator) :
  (forall p name codegen, fst (HOptimization_Run cu p name codegen) = false) ->
  fst (fst (RunOptimizations_defs cu o definitions codegen)) = false
  /\ forall p name c,
       In (EvRun p name c) (snd (RunOptimizations_defs cu o definitions codegen)) ->
       c = false
       /\ exists d, In d definitions /\ pass d = p /\ GetPassName d = name
                    /\ depends_on d = OptimizationPass.kNone.
Proof.
  intros Hquiet. unfold RunOptimizations_defs. rewrite tr_bind_fst, tr_bind_snd.
  cbn [fst snd tr_ret]. rewrite app_nil_r.
  destruct (RunOptimizations_loop_fixed_point o definitions (PassLoop_init codegen) Hquiet)
    as [[Hc _] Hruns]; [|done].
  split; [done|]. simpl. intros p Hp.
  destruct (decide (OptimizationPass.kNone = p)) as [<-|Hne]; [done|].
  by rewrite fn_lookup_insert_ne in Hp.
Qed.

(** Definitions that depend on the sentinel and are not the sentinel's own
    all run, in order. *)
Lemma RunOptimizations_loop_unconditional o (l : list OptimizationDef) st :
  Forall (fun d => depends_on d = OptimizationPass.kNone
                   /\ pass d <> OptimizationPass.kNone) l ->
  pass_changes st OptimizationPass.kNone = true ->
  omap run_of (snd (RunOptimizations_loop cu o l st))
  = (fun d => (pass d, GetPassName d)) <$> l.
Proof.
  intros Hl. revert st. induction Hl as [|d l [Hdep Hpass] Hl IH]; intros st Hst; [done|].
  cbn [RunOptimizations_loop]. rewrite tr_bind_snd, omap_app, IH.
  - rewrite RunOptimizations_step_run by (by rewrite Hdep). cbv zeta. cbn [snd].
    rewrite !omap_app, (no_run_omap _ (StartPass_no_run _ _)),
      (no_run_omap _ (EndPass_no_run _ _ _)). reflexivity.
  - by rewrite pass_changes_step_ne.
Qed.

End PassLoopMore.



(** On the quiet sample backend the curated list returns false. *)
Lemma RunOptimizations_fixed_point_witness :
  (forall p name codegen,
     fst (HOptimization_Run (Backend := Sample.backend Sample.quiet)
            Sample.compilation_unit p name codegen) = false)
  /\ fst (fst (RunOptimizations_defs (backend := Sample.backend Sample.quiet)
                 Sample.compilation_unit Sample.observer optimizations []))
     = false.
Proof.
  assert (H : forall p name codegen,
            fst (HOptimization_Run (Backend := Sample.backend Sample.quiet)
                   Sample.compilation_unit p name codegen) = false)
    by reflexivity.
  split; [exact H|].
  exact (proj1 (@RunOptimizations_fixed_point (Sample.backend Sample.quiet)
                  Sample.compilation_unit Sample.observer optimizations [] H)).
Defined.

(** ** What [TryCompile] records *)

Lemma omap_tr_bind {A B X} (f : CompileEvent -> option X) (m : Tr A) (k : A -> Tr B) :
  omap f (snd (tr_bind m k)) = omap f (snd m) ++ omap f (snd (k (fst m))).
Proof. by rewrite tr_bind_snd, omap_app. Qed.

(** A reading that ignores the events of the observer, the passes and
    register allocation finds nothing in a trace of such events. *)
Lemma omap_pass_events {A X} (f : CompileEvent -> option X) (m : Tr A) :
  (forall e, is_pass_event e = true -> f e = None) ->
  pass_events (snd m) -> omap f (snd m) = [].
Proof.
  intros Hf. induction 1 as [|e l He Hl IH]; [done|].
  cbn [omap list_omap]. rewrite (Hf e He). exact IH.
Qed.

Lemma stat_of_pass_event e : is_pass_event e = true -> stat_of e = None.
Proof. by destruct e. Qed.

Create HintDb pieces.

#[global] Hint Resolve StartPass_events EndPass_events DumpDisassembly_events
  PassObserver_delete_events PassObserver_new_events RunOptimizations_defs_events
  RunBaselineOptimizations_events RunArchOptimizations_events RunOptimizations_events
  AllocateRegisters_events : pieces.

(** Pushes [fst], [snd] and [omap] through the binds of a computation, and
    splits on what its branches test. *)
Ltac settled t :=
  lazymatch t with context [tr_bind] => fail | _ => idtac end.

Ltac tr_norm :=
  repeat first
    [ rewrite omap_tr_bind
    | rewrite tr_bind_snd
    | rewrite tr_bind_fst
    | progress cbv beta
    | progress cbn [tr_ret emit MaybeRecordStat fst snd negb]
    | match goal with
      | |- context [let '(_, _) := ?t in _] => settled t; destruct t eqn:?
      | |- context [if ?b then _ else _] => settled b; destruct b eqn:?
      | |- context [match ?x with None => _ | _ => _ end] =>
          settled x; destruct x eqn:?
      end ].

(** Drops the readings of the pieces that record pass events only. *)
Ltac drop_pieces f Hf :=
  repeat match goal with
         | |- context [omap f (snd ?m)] =>
             rewrite (omap_pass_events f m Hf) by eauto with pieces
         end.

Ltac failed_build :=
  match goal with
  | H : negb (is_success ?r) = true |- _ => destruct r; try discriminate H
  end.

Section TryCompileMore.
Context `{backend : Backend}.
Variable compiler_options : CompilerOptions.
Variable runtime : Runtime.

(** X5. Every path through [TryCompile] records the attempt and then exactly
    one outcome; the outcome is [kCompiledBytecode] exactly when a code
    generator is returned; when none is returned the code buffer is handed
    back as it was. *)
Theorem TryCompile_records_one_outcome ca cu method kind :
  exists outcome,
    omap stat_of (snd (TryCompile compiler_options runtime ca cu method kind))
    = [MethodCompilationStat.kAttemptBytecodeCompilation; outcome]
    /\ (fst (fst (TryCompile compiler_options runtime ca cu method kind)) <> None
        <-> outcome = MethodCompilationStat.kCompiledBytecode)
    /\ (fst (fst (TryCompile compiler_options runtime ca cu method kind)) = None ->
        snd (fst (TryCompile compiler_options runtime ca cu method kind)) = ca).
Proof.
  unfold TryCompile. tr_norm.
  all: drop_pieces stat_of stat_of_pass_event.
  all: try failed_build.
  all: simpl; eexists; split; [reflexivity|]; split; [split; [done|discriminate] | done].
Qed.

(** X6. [TryCompileIntrinsic] records the attempt, and [kCompiledIntrinsic]
    exactly when it returns a code generator: giving up on an intrinsic
    records no reason.  When it gives up the code buffer is handed back as it
    was. *)
Theorem TryCompileIntrinsic_records ca cu method :
  omap stat_of (snd (TryCompileIntrinsic compiler_options ca cu method))
  = MethodCompilationStat.kAttemptIntrinsicCompilation
    :: match fst (fst (TryCompileIntrinsic compiler_options ca cu method)) with
       | Some _ => [MethodCompilationStat.kCompiledIntrinsic]
       | None => []
       end
  /\ (fst (fst (TryCompileIntrinsic compiler_options ca cu method)) = None ->
      snd (fst (TryCompileIntrinsic compiler_options ca cu method)) = ca).
Proof.
  unfold TryCompileIntrinsic. tr_norm.
  all: drop_pieces stat_of stat_of_pass_event.
  all: by simpl.
Qed.

End TryCompileMore.

(** ** Where [TryCompile] stops *)

Lemma built_of_pass_event e : is_pass_event e = true -> built_of e = None.
Proof. by destruct e. Qed.

Lemma graph_of_pass_event e : is_pass_event e = true -> graph_of e = None.
Proof. by destruct e. Qed.

Lemma In_omap {X} (f : CompileEvent -> option X) e x l :
  f e = Some x -> In e l -> x ∈ omap f l.
Proof. intros Hf Hin. apply list_elem_of_omap. exists e. by rewrite list_elem_of_In. Qed.

Lemma StartPass_trace o name :
  snd (StartPass o name)
  = (if visualizer_enabled_ o then [EvDumpGraph name false (graph_in_bad_state_ o)] else [])
    ++ (if timing_logger_enabled_ o then [EvStartTiming name] else []).
Proof. unfold StartPass. by destruct (visualizer_enabled_ o), (timing_logger_enabled_ o). Qed.

Lemma EndPass_trace o name pass_change :
  snd (EndPass o name pass_change)
  = (if timing_logger_enabled_ o then [EvEndTiming] else [])
    ++ (if visualizer_enabled_ o then [EvDumpGraph name true (graph_in_bad_state_ o)] else []).
Proof. unfold EndPass. by destruct (visualizer_enabled_ o), (timing_logger_enabled_ o). Qed.

Lemma DumpDisassembly_trace o :
  snd (DumpDisassembly o)
  = if visualizer_enabled_ o then [EvDumpGraphWithDisassembly] else [].
Proof. unfold DumpDisassembly. by destruct (visualizer_enabled_ o). Qed.

Lemma PassObserver_delete_trace o :
  snd (PassObserver_delete o)
  = if timing_logger_enabled_ o then [EvLogTimings (cached_method_name_ o)] else [].
Proof. unfold PassObserver_delete. by destruct (timing_logger_enabled_ o). Qed.

(** Replaces the observer's calls by what they write, for each setting of
    its two switches. *)
Ltac observer_cases :=
  rewrite ?StartPass_trace, ?EndPass_trace, ?DumpDisassembly_trace,
    ?PassObserver_delete_trace;
  cbn [SetGraphInBadState visualizer_enabled_ timing_logger_enabled_
       graph_in_bad_state_ cached_method_name_];
  repeat match goal with
         | |- context [visualizer_enabled_ ?o] => destruct (visualizer_enabled_ o) eqn:?
         | |- context [timing_logger_enabled_ ?o] => destruct (timing_logger_enabled_ o) eqn:?
         end.

Section TryCompileStops.
Context `{backend : Backend}.
Variable compiler_options : CompilerOptions.
Variable runtime : Runtime.

Lemma work_of_PassObserver_new name codegen :
  omap work_of (snd (PassObserver_new compiler_options name codegen)) = [].
Proof. unfold PassObserver_new. by repeat case_match. Qed.

Lemma dump_of_PassObserver_new name codegen :
  omap dump_of (snd (PassObserver_new compiler_options name codegen)) = [].
Proof. unfold PassObserver_new. by repeat case_match. Qed.

(** X7. When the builder does not report success, [TryCompile] returns no
    code generator and hands back the code buffer as it was; no pass is run,
    no register is allocated and no code is generated; and the only graph
    dump made after a pass is the builder's, flagged as being in a bad
    state. *)
Theorem TryCompile_stops_at_builder_failure ca cu method kind result :
  In (EvBuildGraph result) (snd (TryCompile compiler_options runtime ca cu method kind)) ->
  result <> GraphAnalysisResult.kAnalysisSuccess ->
  fst (TryCompile compiler_options runtime ca cu method kind) = (None, ca)
  /\ omap work_of (snd (TryCompile compiler_options runtime ca cu method kind)) = []
  /\ forall name bad,
       In (EvDumpGraph name true bad)
          (snd (TryCompile compiler_options runtime ca cu method kind)) ->
       name = kBuilderPassName /\ bad = true.
Proof.
  intros Hin Hne. apply (In_omap built_of _ result) in Hin; [|done].
  assert (Hdump : forall name bad,
    In (EvDumpGraph name true bad)
       (snd (TryCompile compiler_options runtime ca cu method kind)) ->
    (name, true, bad) ∈ omap dump_of
       (snd (TryCompile compiler_options runtime ca cu method kind)))
    by (intros name bad H; by apply (In_omap dump_of (EvDumpGraph name true bad))).
  cut (fst (TryCompile compiler_options runtime ca cu method kind) = (None, ca)
       /\ omap work_of (snd (TryCompile compiler_options runtime ca cu method kind)) = []
       /\ forall name bad,
            (name, true, bad) ∈ omap dump_of
              (snd (TryCompile compiler_options runtime ca cu method kind)) ->
            name = kBuilderPassName /\ bad = true).
  { intros (? & ? & H). eauto. }
  clear Hdump. revert Hin. unfold TryCompile. tr_norm.
  all: drop_pieces built_of built_of_pass_event.
  all: try failed_build.
  all: intros Hin; simpl in Hin.
  all: try (by apply elem_of_nil in Hin).
  all: apply list_elem_of_singleton in Hin; subst.
  all: try (by destruct Hne).
  all: try match goal with H : negb (is_success ?r) = false |- _ => by destruct r end.
  all: rewrite ?work_of_PassObserver_new, ?dump_of_PassObserver_new.
  all: observer_cases.
  all: simpl.
  all: split; [done|]; split; [done|]; intros name bad Hd.
  all: repeat (apply elem_of_cons in Hd as [Hd|Hd]; [by simplify_eq|]).
  all: by apply elem_of_nil in Hd.
Qed.

(** X8. [TryCompile] constructs at most one graph, for the method index and
    the kind of compilation asked for; the graph of an unresolved method is
    never marked as safe for dead-reference elimination. *)
Theorem TryCompile_graph ca cu method kind idx safe kind' :
  In (EvNewHGraph idx safe kind')
     (snd (TryCompile compiler_options runtime ca cu method kind)) ->
  omap graph_of (snd (TryCompile compiler_options runtime ca cu method kind))
  = [(DexCompilationUnit.GetDexMethodIndex cu, safe, kind)]
  /\ (method = None -> safe = false).
Proof.
  intros Hin. apply (In_omap graph_of _ (idx, safe, kind')) in Hin; [|done].
  revert Hin. unfold TryCompile. tr_norm.
  all: drop_pieces graph_of graph_of_pass_event.
  all: try failed_build.
  all: cbn [omap list_omap graph_of app BuildFailureStat MaybeRecordStat emit snd]; intros Hin.
  all: try (by apply elem_of_nil in Hin).
  all: apply list_elem_of_singleton in Hin; by simplify_eq.
Qed.

End TryCompileStops.

Lemma TryCompile_stops_at_builder_failure_witness :
  fst (TryCompile (backend := SampleMore.skipping)
         (SampleMore.dumping None None) Sample.runtime
         (mkCodeVectorAllocator []) Sample.compilation_unit None CompilationKind.kOptimized)
  = (None, mkCodeVectorAllocator []).
Proof.
  apply (TryCompile_stops_at_builder_failure (backend := SampleMore.skipping)
           (SampleMore.dumping None None) Sample.runtime (mkCodeVectorAllocator [])
           Sample.compilation_unit None CompilationKind.kOptimized
           GraphAnalysisResult.kAnalysisSkipped).
  - vm_compute. tauto.
  - discriminate.
Defined.

Lemma TryCompile_graph_witness :
  omap graph_of
    (snd (TryCompile (backend := SampleMore.building)
            (SampleMore.dumping None None) Sample.runtime
            (mkCodeVectorAllocator []) Sample.compilation_unit None
            CompilationKind.kBaseline))
  = [(7, false, CompilationKind.kBaseline)].
Proof.
  apply (TryCompile_graph (backend := SampleMore.building)
           (SampleMore.dumping None None) Sample.runtime (mkCodeVectorAllocator [])
           Sample.compilation_unit None CompilationKind.kBaseline 7 false
           CompilationKind.kBaseline).
  vm_compute. tauto.
Defined.

(** ** Which passes run *)

Section PassLists.
Context `{backend : Backend}.
Variable cu : DexCompilationUnit.t.
Implicit Types (o : PassObserver) (d : OptimizationDef) (st : PassLoop).

Lemma RunOptimizations_step_runs o d st :
  omap run_of (snd (RunOptimizations_step cu o d st))
  = if pass_changes st (depends_on d) then [(pass d, GetPassName d)] else [].
Proof.
  destruct (pass_changes st (depends_on d)) eqn:H.
  - rewrite RunOptimizations_step_run by done. cbv zeta. cbn [snd].
    by rewrite !omap_app, (no_run_omap _ (StartPass_no_run _ _)),
      (no_run_omap _ (EndPass_no_run _ _ _)).
  - by rewrite RunOptimizations_step_skip.
Qed.

Lemma RunOptimizations_loop_sublist o (l : list OptimizationDef) st :
  omap run_of (snd (RunOptimizations_loop cu o l st))
  `sublist_of` (fun d => (pass d, GetPassName d)) <$> l.
Proof.
  revert st. induction l as [|d l IH]; intros st; [done|].
  cbn [RunOptimizations_loop]. rewrite tr_bind_snd, omap_app, RunOptimizations_step_runs.
  rewrite fmap_cons. destruct (pass_changes st (depends_on d)).
  - apply sublist_skip, IH.
  - apply sublist_cons, IH.
Qed.

(** X9. The passes [RunOptimizations] runs are a subsequence of its
    definitions: every pass that runs is listed, under the name of its
    definition, passes run in the order of the list, and a definition runs at
    most once. *)
Theorem RunOptimizations_runs_subsequence o (definitions : list OptimizationDef)
    (codegen : CodeGenerator) :
  omap run_of (snd (RunOptimizations_defs cu o definitions codegen))
  `sublist_of` (fun d => (pass d, GetPassName d)) <$> definitions.
Proof.
  unfold RunOptimizations_defs. rewrite tr_bind_snd. cbn [tr_ret snd].
  rewrite app_nil_r. apply RunOptimizations_loop_sublist.
Qed.

End PassLists.

Section PassListOptions.
Context `{backend : Backend}.
Variable compiler_options : CompilerOptions.
Variable runtime : Runtime.

(** X10. When the pass list is given on the command line, exactly the listed
    passes run, in the order given and each under the name given, whatever
    they report; no architecture-specific pass is added. *)
Theorem RunOptimizations_runs_listed_passes cu o codegen (pass_names : list string) :
  GetPassesToRun compiler_options = Some pass_names ->
  Forall (fun name =>
            OptimizationPassByName (ConvertPassNameToOptimizationName name)
            <> OptimizationPass.kNone) pass_names ->
  omap run_of (snd (RunOptimizations compiler_options cu o codegen))
  = (fun name => (OptimizationPassByName (ConvertPassNameToOptimizationName name), name))
    <$> pass_names.
Proof.
  intros Hopt Hnames. unfold RunOptimizations. rewrite Hopt.
  rewrite tr_bind_snd. cbn [tr_ret snd]. rewrite app_nil_r.
  unfold RunOptimizations_defs. rewrite tr_bind_snd. cbn [tr_ret snd]. rewrite app_nil_r.
  rewrite RunOptimizations_loop_unconditional.
  - rewrite <- list_fmap_compose. reflexivity.
  - apply Forall_fmap. eapply Forall_impl; [exact Hnames|]. by intros name Hne.
  - apply fn_lookup_insert.
Qed.

Lemma RunBaselineOptimizations_runs cu o codegen :
  omap run_of (snd (RunBaselineOptimizations compiler_options cu o codegen))
  = match GetInstructionSet compiler_options with
    | InstructionSet.kThumb2 | InstructionSet.kArm =>
        [(OptimizationPass.kCriticalNativeAbiFixupArm,
          OptimizationPassName OptimizationPass.kCriticalNativeAbiFixupArm)]
    | InstructionSet.kX86 =>
        [(OptimizationPass.kPcRelativeFixupsX86,
          OptimizationPassName OptimizationPass.kPcRelativeFixupsX86)]
    | _ => []
    end.
Proof.
  unfold RunBaselineOptimizations, RunOptimizations_defs.
  destruct (GetInstructionSet compiler_options); try done.
  all: rewrite tr_bind_snd; cbn [tr_ret snd]; rewrite app_nil_r.
  all: rewrite RunOptimizations_loop_unconditional; [done| |apply fn_lookup_insert].
  all: by repeat constructor.
Qed.

Lemma AllocateRegisters_no_run o strategy codegen :
  omap run_of (snd (AllocateRegisters o strategy codegen)) = [].
Proof.
  unfold AllocateRegisters. tr_norm.
  by rewrite !(no_run_omap _ (StartPass_no_run _ _)), !(no_run_omap _ (EndPass_no_run _ _ _)).
Qed.

Lemma PassObserver_new_no_run name codegen :
  omap run_of (snd (PassObserver_new compiler_options name codegen)) = [].
Proof. unfold PassObserver_new. by repeat case_match. Qed.

(** X11. A baseline compilation that yields code has run exactly the one
    fix-up pass of its instruction set, or none: neither the curated list nor
    a pass list given on the command line is consulted. *)
Theorem TryCompile_baseline_passes ca cu method :
  fst (fst (TryCompile compiler_options runtime ca cu method CompilationKind.kBaseline))
  <> None ->
  omap run_of
    (snd (TryCompile compiler_options runtime ca cu method CompilationKind.kBaseline))
  = match GetInstructionSet compiler_options with
    | InstructionSet.kThumb2 | InstructionSet.kArm =>
        [(OptimizationPass.kCriticalNativeAbiFixupArm,
          OptimizationPassName OptimizationPass.kCriticalNativeAbiFixupArm)]
    | InstructionSet.kX86 =>
        [(OptimizationPass.kPcRelativeFixupsX86,
          OptimizationPassName OptimizationPass.kPcRelativeFixupsX86)]
    | _ => []
    end.
Proof.
  unfold TryCompile. cbn [is_baseline]. tr_norm.
  all: try done.
  all: intros _.
  all: rewrite RunBaselineOptimizations_runs, AllocateRegisters_no_run,
         PassObserver_new_no_run.
  all: rewrite !(no_run_omap _ (StartPass_no_run _ _)), !(no_run_omap _ (EndPass_no_run _ _ _)).
  all: unfold DumpDisassembly, PassObserver_delete, tr_when.
  all: repeat case_match; simpl; by rewrite ?app_nil_r.
Qed.

End PassListOptions.

Lemma RunOptimizations_runs_listed_passes_witness :
  omap run_of
    (snd (RunOptimizations (backend := SampleMore.building)
            (SampleMore.dumping None (Some ["inliner$first"; "GVN"; "inliner$again"]))
            Sample.compilation_unit Sample.observer []))
  = [(OptimizationPass.kInliner, "inliner$first");
     (OptimizationPass.kGlobalValueNumbering, "GVN");
     (OptimizationPass.kInliner, "inliner$again")].
Proof.
  apply (RunOptimizations_runs_listed_passes (backend := SampleMore.building)
           (SampleMore.dumping None (Some ["inliner$first"; "GVN"; "inliner$again"]))
           Sample.compilation_unit Sample.observer []
           ["inliner$first"; "GVN"; "inliner$again"]).
  - reflexivity.
  - repeat constructor; vm_compute; discriminate.
Defined.

Lemma TryCompile_baseline_passes_witness :
  omap run_of
    (snd (TryCompile (backend := SampleMore.building)
            (Sample.options InstructionSet.kX86 CompilerFilter.kSpeed) Sample.runtime
            (mkCodeVectorAllocator []) Sample.compilation_unit None
            CompilationKind.kBaseline))
  = [(OptimizationPass.kPcRelativeFixupsX86, "pass")].
Proof.
  apply (TryCompile_baseline_passes (backend := SampleMore.building)
           (Sample.options InstructionSet.kX86 CompilerFilter.kSpeed) Sample.runtime
           (mkCodeVectorAllocator []) Sample.compilation_unit None).
  vm_compute. discriminate.
Defined.

(** ** Pass names *)

Lemma index_separator_cons (a : ascii) (s : string) :
  String.index 0 kPassNameSeparator (String a s)
  = if decide (a = "$"%char) then Some 0%nat
    else S <$> String.index 0 kPassNameSeparator s.
Proof.
  unfold kPassNameSeparator. cbn [String.index]. 
  destruct (decide (a = "$"%char)) as [->|Hne].
  - replace (String.prefix "$" (String "$" s)) with true; [done|].
    symmetry. apply prefix_spec. by exists s.
  - destruct (String.prefix "$" (String a s)) eqn:Hp.
    + apply prefix_spec in Hp as [after Heq].
      change (String a s = String "$" after) in Heq. by injection Heq.
    + by destruct (String.index 0 "$" s).
Qed.

Lemma ConvertPassNameToOptimizationName_cons (a : ascii) (s : string) :
  ConvertPassNameToOptimizationName (String a s)
  = if decide (a = "$"%char) then ""
    else String a (ConvertPassNameToOptimizationName s).
Proof.
  unfold ConvertPassNameToOptimizationName. rewrite index_separator_cons.
  destruct (decide (a = "$"%char)); [done|].
  destruct (String.index 0 kPassNameSeparator s); simpl; [done|done].
Qed.

(** X12. A pass name made of an optimization name without separator, the
    separator [$] and any suffix is converted to the optimization name; a
    name without separator is converted to itself. *)
Theorem ConvertPassNameToOptimizationName_strips_suffix (opt suffix : string) :
  free_of "$" opt ->
  ConvertPassNameToOptimizationName (opt +:+ kPassNameSeparator +:+ suffix) = opt
  /\ ConvertPassNameToOptimizationName opt = opt.
Proof.
  induction opt as [|a opt IH]; intros Hfree.
  - split; [|done]. rewrite append_empty.
    change (kPassNameSeparator +:+ suffix) with (String "$" suffix).
    by rewrite ConvertPassNameToOptimizationName_cons, decide_True.
  - destruct Hfree as [Hne Hfree]. destruct (IH Hfree) as [IH1 IH2].
    rewrite append_String, !ConvertPassNameToOptimizationName_cons.
    destruct (decide (a = "$"%char)); [done|]. by rewrite IH1, IH2.
Qed.

(** X13. The optimization name of any pass name contains no separator and is
    the part of the pass name before its first separator; converting it
    again changes nothing. *)
Theorem ConvertPassNameToOptimizationName_prefix (pass_name : string) :
  free_of "$" (ConvertPassNameToOptimizationName pass_name)
  /\ (pass_name = ConvertPassNameToOptimizationName pass_name
      \/ exists suffix,
           pass_name
           = ConvertPassNameToOptimizationName pass_name +:+ kPassNameSeparator +:+ suffix)
  /\ ConvertPassNameToOptimizationName (ConvertPassNameToOptimizationName pass_name)
     = ConvertPassNameToOptimizationName pass_name.
Proof.
  induction pass_name as [|a s (IH1 & IH2 & IH3)].
  - split; [done|]. split; [by left | done].
  - rewrite !ConvertPassNameToOptimizationName_cons.
    destruct (decide (a = "$"%char)) as [->|Hne].
    + split; [done|]. split; [|done]. right. exists s. by rewrite append_empty.
    + rewrite ConvertPassNameToOptimizationName_cons, decide_False by done.
      split; [done|]. split; [|by rewrite IH3].
      destruct IH2 as [IH2|[suffix IH2]].
      * left. by rewrite <- IH2.
      * right. exists suffix. rewrite append_String. by rewrite <- IH2.
Qed.

Lemma ConvertPassNameToOptimizationName_strips_suffix_witness :
  ConvertPassNameToOptimizationName
    ("dead_code_elimination" +:+ kPassNameSeparator +:+ "after_inlining")
  = "dead_code_elimination".
Proof.
  apply (ConvertPassNameToOptimizationName_strips_suffix
           "dead_code_elimination" "after_inlining").
  vm_compute. repeat split; discriminate.
Defined.

(** ** What the observer writes *)

Lemma ran_of_StartPass o name : omap ran_of (snd (StartPass o name)) = [].
Proof. rewrite StartPass_trace. by repeat case_match. Qed.

Lemma ran_of_EndPass o name c : omap ran_of (snd (EndPass o name c)) = [].
Proof. rewrite EndPass_trace. by repeat case_match. Qed.

Lemma ran_of_pass_scope o r : omap ran_of (pass_scope o r) = [r].
Proof.
  destruct r as [[p name] c]. unfold pass_scope.
  by rewrite !omap_app, ran_of_StartPass, ran_of_EndPass.
Qed.

Lemma observed_of_pass_scope o r :
  visualizer_enabled_ o = false -> timing_logger_enabled_ o = false ->
  omap observed_of (pass_scope o r) = [].
Proof.
  intros Hv Ht. destruct r as [[p name] c]. unfold pass_scope.
  by rewrite StartPass_trace, EndPass_trace, Hv, Ht.
Qed.

Lemma dumps_pass_scope o r :
  dumps (pass_scope o r)
  = if visualizer_enabled_ o then before_and_after [snd (fst r)] else [].
Proof.
  destruct r as [[p name] c]. unfold pass_scope, dumps.
  rewrite StartPass_trace, EndPass_trace. by repeat case_match.
Qed.

Lemma timings_pass_scope o r :
  timings (pass_scope o r)
  = if timing_logger_enabled_ o then started_and_ended [snd (fst r)] else [].
Proof.
  destruct r as [[p name] c]. unfold pass_scope, timings.
  rewrite StartPass_trace, EndPass_trace. by repeat case_match.
Qed.

Lemma flat_map_app_r {A B} (f : A -> list B) (l1 l2 : list A) :
  flat_map f (l1 ++ l2) = flat_map f l1 ++ flat_map f l2.
Proof. induction l1 as [|x l1 IH]; [done|]. simpl. by rewrite IH, app_assoc. Qed.

Lemma observed_of_scopes o runs :
  visualizer_enabled_ o = false -> timing_logger_enabled_ o = false ->
  omap observed_of (flat_map (pass_scope o) runs) = [].
Proof.
  intros Hv Ht. induction runs as [|r runs IH]; [done|].
  simpl. by rewrite omap_app, observed_of_pass_scope, IH.
Qed.

Lemma dumps_scopes o runs :
  dumps (flat_map (pass_scope o) runs)
  = if visualizer_enabled_ o then before_and_after ((fun r => snd (fst r)) <$> runs) else [].
Proof.
  induction runs as [|r runs IH]; [by destruct (visualizer_enabled_ o)|].
  simpl. unfold dumps in *. rewrite omap_app, IH. fold (dumps (pass_scope o r)).
  rewrite dumps_pass_scope. by destruct (visualizer_enabled_ o).
Qed.

Lemma timings_scopes o runs :
  timings (flat_map (pass_scope o) runs)
  = if timing_logger_enabled_ o
    then started_and_ended ((fun r => snd (fst r)) <$> runs) else [].
Proof.
  induction runs as [|r runs IH]; [by destruct (timing_logger_enabled_ o)|].
  simpl. unfold timings in *. rewrite omap_app, IH. fold (timings (pass_scope o r)).
  rewrite timings_pass_scope. by destruct (timing_logger_enabled_ o).
Qed.

Section Observer.
Context `{backend : Backend}.
Variable compiler_options : CompilerOptions.
Variable runtime : Runtime.
Implicit Types (o : PassObserver) (d : OptimizationDef) (st : PassLoop).

Lemma RunOptimizations_step_trace cu o d st :
  snd (RunOptimizations_step cu o d st)
  = flat_map (pass_scope o) (omap ran_of (snd (RunOptimizations_step cu o d st))).
Proof.
  destruct (pass_changes st (depends_on d)) eqn:H.
  - rewrite RunOptimizations_step_run by done. cbv zeta. cbn [snd].
    rewrite !omap_app, ran_of_StartPass, ran_of_EndPass.
    cbn [omap list_omap ran_of app flat_map pass_scope]. by rewrite app_nil_r.
  - by rewrite RunOptimizations_step_skip.
Qed.

Lemma RunOptimizations_loop_trace cu o (l : list OptimizationDef) st :
  snd (RunOptimizations_loop cu o l st)
  = flat_map (pass_scope o) (omap ran_of (snd (RunOptimizations_loop cu o l st))).
Proof.
  revert st. induction l as [|d l IH]; intros st; [done|].
  cbn [RunOptimizations_loop]. rewrite tr_bind_snd, omap_app, flat_map_app_r.
  by rewrite <- RunOptimizations_step_trace, <- IH.
Qed.

(** X14. The trace of [RunOptimizations] is one pass scope per pass that
    runs, and nothing else: the observer is told of the start and the end of
    every pass that runs, around its run and with its result, and is told
    nothing of a pass that is skipped. *)
Theorem RunOptimizations_one_scope_per_run cu o (definitions : list OptimizationDef)
    (codegen : CodeGenerator) :
  snd (RunOptimizations_defs cu o definitions codegen)
  = flat_map (pass_scope o)
      (omap ran_of (snd (RunOptimizations_defs cu o definitions codegen))).
Proof.
  unfold RunOptimizations_defs. rewrite tr_bind_snd. cbn [tr_ret snd].
  rewrite app_nil_r. apply RunOptimizations_loop_trace.
Qed.

Lemma RunOptimizations_defs_scoped cu o (definitions : list OptimizationDef) codegen :
  exists runs, snd (RunOptimizations_defs cu o definitions codegen)
               = flat_map (pass_scope o) runs.
Proof.
  eexists. unfold RunOptimizations_defs. rewrite tr_bind_snd. cbn [tr_ret snd].
  rewrite app_nil_r. apply RunOptimizations_loop_trace.
Qed.

Lemma RunBaselineOptimizations_scoped cu o codegen :
  exists runs, snd (RunBaselineOptimizations compiler_options cu o codegen)
               = flat_map (pass_scope o) runs.
Proof.
  unfold RunBaselineOptimizations.
  destruct (GetInstructionSet compiler_options);
    first [apply RunOptimizations_defs_scoped | by exists []].
Qed.

Lemma RunArchOptimizations_scoped cu o codegen :
  exists runs, snd (RunArchOptimizations compiler_options cu o codegen)
               = flat_map (pass_scope o) runs.
Proof.
  unfold RunArchOptimizations.
  destruct (GetInstructionSet compiler_options);
    first [apply RunOptimizations_defs_scoped | by exists []].
Qed.

Lemma RunOptimizations_scoped cu o codegen :
  exists runs, snd (RunOptimizations compiler_options cu o codegen)
               = flat_map (pass_scope o) runs.
Proof.
  unfold RunOptimizations. destruct (GetPassesToRun compiler_options) as [names|].
  - rewrite tr_bind_snd. cbn [tr_ret snd]. rewrite app_nil_r.
    apply RunOptimizations_defs_scoped.
  - rewrite !tr_bind_snd. cbn [tr_ret snd]. rewrite app_nil_r.
    destruct (RunOptimizations_defs_scoped cu o optimizations codegen) as [runs1 ->].
    destruct (RunArchOptimizations_scoped cu o
                (snd (fst (RunOptimizations_defs cu o optimizations codegen))))
      as [runs2 ->].
    exists (runs1 ++ runs2). by rewrite flat_map_app_r.
Qed.

(** What the constructor of the observer decides. *)
Lemma PassObserver_new_switches name codegen :
  let o := fst (fst (PassObserver_new compiler_options name codegen)) in
  timing_logger_enabled_ o
  = GetDumpPassTimings compiler_options && IsVerboseMethod compiler_options name
  /\ visualizer_enabled_ o
     = negb (String.eqb (GetDumpCfgFileName compiler_options) "")
       && IsVerboseMethod compiler_options name
  /\ graph_in_bad_state_ o = false
  /\ snd (PassObserver_new compiler_options name codegen)
     = if visualizer_enabled_ o then [EvPrintHeader name] else [].
Proof.
  unfold PassObserver_new.
  destruct (GetDumpPassTimings compiler_options),
    (String.eqb (GetDumpCfgFileName compiler_options) ""),
    (IsVerboseMethod compiler_options name); by cbn.
Qed.

End Observer.

Lemma AllocateRegisters_trace `{backend : Backend} o strategy codegen :
  snd (AllocateRegisters o strategy codegen)
  = snd (StartPass o kPrepareForRegisterAllocationPassName)
    ++ [EvPrepareForRegisterAllocation]
    ++ snd (EndPass o kPrepareForRegisterAllocationPassName true)
    ++ snd (StartPass o kLivenessPassName)
    ++ [EvLivenessAnalyze]
    ++ snd (EndPass o kLivenessPassName true)
    ++ snd (StartPass o kRegisterAllocatorPassName)
    ++ [EvAllocateRegisters strategy]
    ++ snd (EndPass o kRegisterAllocatorPassName true).
Proof. unfold AllocateRegisters. tr_norm. by rewrite app_nil_r. Qed.

(** Replaces the trace of each pass list by the pass scopes it consists of. *)
Ltac scoped_pieces :=
  repeat match goal with
         | |- context [snd (RunOptimizations ?a ?b ?c ?d)] =>
             destruct (RunOptimizations_scoped a b c d) as [? ->]
         | |- context [snd (RunBaselineOptimizations ?a ?b ?c ?d)] =>
             destruct (RunBaselineOptimizations_scoped a b c d) as [? ->]
         | |- context [snd (RunArchOptimizations ?a ?b ?c ?d)] =>
             destruct (RunArchOptimizations_scoped a b c d) as [? ->]
         | |- context [snd (RunOptimizations_defs ?a ?b ?c ?d)] =>
             destruct (RunOptimizations_defs_scoped a b c d) as [? ->]
         end.

(** Derives the switches of the observer a compilation has constructed. *)
Ltac observer_switches :=
  match goal with
  | H : fst (PassObserver_new ?opts ?name ?cg) = (?p, _) |- _ =>
      let Ht := fresh "Htiming" in
      let Hv := fresh "Hvisualizer" in
      let Hb := fresh "Hbad" in
      let Hh := fresh "Hheader" in
      destruct (PassObserver_new_switches opts name cg) as (Ht & Hv & Hb & Hh);
      rewrite H in Ht, Hv, Hb, Hh; cbn [fst] in Ht, Hv, Hb, Hh
  end.

Section ObserverInTryCompile.
Context `{backend : Backend}.
Variable compiler_options : CompilerOptions.
Variable runtime : Runtime.

(** X15. For a method the verbosity filter does not select, and when neither
    pass timings nor a graph dump are asked for, the observer writes
    nothing during [TryCompile] and [TryCompileIntrinsic]: no header, no
    graph, no timing, no disassembly. *)
Theorem TryCompile_silent_observer ca cu method kind :
  IsVerboseMethod compiler_options
    (PrettyMethod (DexCompilationUnit.GetDexFile cu)
                  (DexCompilationUnit.GetDexMethodIndex cu)) = false
  \/ (GetDumpPassTimings compiler_options = false
      /\ GetDumpCfgFileName compiler_options = "") ->
  omap observed_of (snd (TryCompile compiler_options runtime ca cu method kind)) = []
  /\ forall m, omap observed_of (snd (TryCompileIntrinsic compiler_options ca cu m)) = [].
Proof.
  intros Hquiet.
  assert (Hoff : forall (p : PassObserver),
    timing_logger_enabled_ p
    = GetDumpPassTimings compiler_options
      && IsVerboseMethod compiler_options
           (PrettyMethod (DexCompilationUnit.GetDexFile cu)
                         (DexCompilationUnit.GetDexMethodIndex cu)) ->
    visualizer_enabled_ p
    = negb (String.eqb (GetDumpCfgFileName compiler_options) "")
      && IsVerboseMethod compiler_options
           (PrettyMethod (DexCompilationUnit.GetDexFile cu)
                         (DexCompilationUnit.GetDexMethodIndex cu)) ->
    timing_logger_enabled_ p = false /\ visualizer_enabled_ p = false).
  { intros p -> ->. destruct Hquiet as [->|[-> ->]].
    - by rewrite !andb_false_r.
    - done. }
  split; [|intros m].
  - unfold TryCompile. tr_norm.
    all: try failed_build.
    all: try done.
    all: observer_switches; destruct (Hoff _ Htiming Hvisualizer) as [Ht Hv].
    all: scoped_pieces.
    all: rewrite ?observed_of_scopes by done.
    all: rewrite ?AllocateRegisters_trace, ?StartPass_trace, ?EndPass_trace,
           ?DumpDisassembly_trace, ?PassObserver_delete_trace, ?Hheader.
    all: cbn [SetGraphInBadState visualizer_enabled_ timing_logger_enabled_].
    all: by rewrite ?Ht, ?Hv.
  - unfold TryCompileIntrinsic. tr_norm.
    all: try done.
    all: observer_switches; destruct (Hoff _ Htiming Hvisualizer) as [Ht Hv].
    all: scoped_pieces.
    all: rewrite ?observed_of_scopes by done.
    all: rewrite ?AllocateRegisters_trace, ?StartPass_trace, ?EndPass_trace,
           ?DumpDisassembly_trace, ?PassObserver_delete_trace, ?Hheader.
    all: by rewrite ?Ht, ?Hv.
Qed.

End ObserverInTryCompile.

Lemma dumps_app l1 l2 : dumps (l1 ++ l2) = dumps l1 ++ dumps l2.
Proof. apply omap_app. Qed.

Lemma timings_app l1 l2 : timings (l1 ++ l2) = timings l1 ++ timings l2.
Proof. apply omap_app. Qed.

Section ObserverScopes.
Context `{backend : Backend}.
Variable compiler_options : CompilerOptions.
Variable runtime : Runtime.

(** X16. On every path through [TryCompile], also when the builder fails,
    the graph dumps come in pairs, before and after the same pass, and
    every timing that is started is ended before the next one starts. *)
Theorem TryCompile_closes_every_scope ca cu method kind :
  (exists names,
     dumps (snd (TryCompile compiler_options runtime ca cu method kind))
     = before_and_after names)
  /\ (exists names,
        timings (snd (TryCompile compiler_options runtime ca cu method kind))
        = started_and_ended names).
Proof.
  unfold TryCompile. tr_norm.
  all: try failed_build.
  all: try (split; by exists []).
  all: observer_switches.
  all: scoped_pieces.
  all: rewrite ?AllocateRegisters_trace, ?StartPass_trace, ?EndPass_trace,
         ?DumpDisassembly_trace, ?PassObserver_delete_trace, ?Hheader.
  all: cbn [SetGraphInBadState visualizer_enabled_ timing_logger_enabled_].
  all: rewrite ?dumps_app, ?timings_app, ?dumps_scopes, ?timings_scopes.
  all: destruct (visualizer_enabled_ p), (timing_logger_enabled_ p).
  all: cbn [dumps timings omap list_omap timing_of app BuildFailureStat MaybeRecordStat
            emit snd].
  all: unfold before_and_after, started_and_ended; rewrite ?app_nil_r.
  all: split;
         first [ by exists []
               | by exists [kBuilderPassName]
               | eexists (kBuilderPassName :: _
                          ++ [kPrepareForRegisterAllocationPassName; kLivenessPassName;
                              kRegisterAllocatorPassName]);
                 cbn [flat_map app]; rewrite flat_map_app_r; reflexivity ].
Qed.

End ObserverScopes.

Lemma TryCompile_silent_observer_witness :
  omap observed_of
    (snd (TryCompile (backend := SampleMore.building)
            (SampleMore.dumping (Some ["void Other.run()"]) None) Sample.runtime
            (mkCodeVectorAllocator []) Sample.compilation_unit None
            CompilationKind.kOptimized))
  = [].
Proof.
  refine (proj1 (TryCompile_silent_observer (backend := SampleMore.building)
                   (SampleMore.dumping (Some ["void Other.run()"]) None) Sample.runtime
                   (mkCodeVectorAllocator []) Sample.compilation_unit None
                   CompilationKind.kOptimized (or_introl _))).
  vm_compute. reflexivity.
Defined.

(** ** The talk of [JitCompile] with the code cache *)

Lemma caching_of_Compiling (l : list CompileEvent) : omap caching_of (Compiling <$> l) = [].
Proof. by induction l. Qed.

Lemma compiling_of_Compiling (l : list CompileEvent) : omap compiling_of (Compiling <$> l) = l.
Proof. induction l as [|e l IH]; [done|]. rewrite fmap_cons. cbn. by f_equal. Qed.

Lemma storing_of_Compiling (l : list CompileEvent) : omap storing_of (Compiling <$> l) = [].
Proof. by induction l. Qed.

(** Unfolds the operations of a run on the code cache. *)
Ltac m_unfold :=
  unfold m_when; unfold m_bind, m_ret, lift, code_cache_Reserve, code_cache_Commit,
    code_cache_Free, jit_AddMemoryUsage, jit_logger_WriteLog, MaybeRecordStat, emit.

Section JitProtocol.
Context `{backend : Backend} {R : Type} `{code_cache : JitCodeCache R}.
Variable compiler_options : CompilerOptions.
Variable runtime : Runtime.

(** X17. What [JitCompile] asks of the code cache has one of four shapes:
    nothing, and then the runtime is left as it was; a [Reserve] that fails;
    a [Reserve], a [Commit] of the reserved extents that fails and a [Free]
    of these extents; or a [Reserve], a [Commit] of the reserved extents that
    succeeds and the accounting of the memory used, followed by the log entry
    for the code behind the method header if a logger is given.  [JitCompile]
    answers true in the last case only. *)
Theorem JitCompile_protocol method kind (jit_logger : bool) (r : R) :
  let run := JitCompile compiler_options runtime method kind jit_logger r in
  let calls := omap caching_of (snd run) in
  (fst (fst run) = false /\ calls = [] /\ snd (fst run) = r)
  \/ (fst (fst run) = false
      /\ exists code_size stack_map_size roots,
           calls = [EvReserve code_size stack_map_size roots None])
  \/ (fst (fst run) = false
      /\ exists code_size stack_map_size roots code data,
           calls = [EvReserve code_size stack_map_size roots (Some (code, data));
                    EvCommit code data false;
                    EvFree (ArrayRef.data code) (ArrayRef.data data)])
  \/ (fst (fst run) = true
      /\ exists code_size stack_map_size roots code data logged_size,
           calls = [EvReserve code_size stack_map_size roots (Some (code, data));
                    EvCommit code data true;
                    EvAddMemoryUsage]
                   ++ if jit_logger
                      then [EvWriteLog (ArrayRef.data code + InstructionAlignedSize)
                                       logged_size]
                      else []).
Proof.
  unfold JitCompile, JitCompile_native, JitCompile_bytecode.
  destruct (TryCompile compiler_options runtime (mkCodeVectorAllocator [])
              (DexCompilationUnit.mk (ArtMethod.GetDexFile method)
                 (ArtMethod.GetCodeItem method) (ArtMethod.GetClassDefIndex method)
                 (ArtMethod.GetDexMethodIndex method) (ArtMethod.GetAccessFlags method))
              (Some method) kind) as [[compiled ca] trace] eqn:Htry.
  m_unfold. rewrite ?Htry. cbn [fst snd].
  repeat (case_match; simplify_eq/=);
    rewrite ?omap_app, ?caching_of_Compiling; cbn.
  all: repeat match goal with
              | H : negb ?b = _ |- _ => destruct b; try discriminate H; clear H
              end.
  all: first [ by left
             | right; left; split; [done|]; by eauto
             | right; right; left; split; [done|]; by eauto 10
             | right; right; right; split; [done|];
               first [ do 5 eexists; exists 0; reflexivity
                     | do 6 eexists; reflexivity ] ].
Qed.

End JitProtocol.

(** ** The patches and thunks of an artifact *)

Section EmitMore.
Context `{backend : Backend}.

(** X18. The patch list of [EmitAndSortLinkerPatches] is the only arrangement
    of the emitted patches in strictly ascending order of literal offset:
    when the offsets are distinct the result does not depend on the order in
    which the code generator emits the patches, and patches emitted in
    ascending order are left as they are. *)
Theorem EmitAndSortLinkerPatches_unique (codegen : CodeGenerator) (l : list LinkerPatch) :
  l ≡ₚ EmitLinkerPatches codegen ->
  Sorted offset_lt l ->
  EmitAndSortLinkerPatches codegen = l.
Proof.
  intros Hperm Hsorted. unfold EmitAndSortLinkerPatches.
  set (comp := fun lhs rhs : LinkerPatch => LiteralOffset lhs <? LiteralOffset rhs).
  assert (Htrans : Transitive offset_lt) by (intros a b c; unfold offset_lt; lia).
  apply (Sorted_unique_strong offset_lt); [| |done|].
  - intros x1 x2 _ _. unfold offset_lt. lia.
  - apply Sorted_offset_le_NoDup.
    + eapply Sorted_weaken; [|apply (std_sort_Sorted comp)].
      * intros a b. unfold not_after, offset_le, comp. by rewrite N.ltb_ge.
      * intros x y. unfold comp. rewrite N.ltb_lt, N.ltb_ge. lia.
    + rewrite (std_sort_Permutation comp), <- Hperm. by apply Sorted_offset_lt_NoDup.
  - by rewrite (std_sort_Permutation comp).
Qed.

Lemma Emit_thunk_trace (codegen : CodeGenerator) patch storage :
  snd (Emit_thunk codegen patch storage)
  = if NeedsThunkCode codegen patch && is_empty (GetThunkCode storage patch)
    then [Storing (EvEmitThunkCode patch);
          Storing (EvSetThunkCode patch (fst (EmitThunkCode codegen patch)))]
    else [].
Proof.
  unfold Emit_thunk.
  destruct (NeedsThunkCode codegen patch && is_empty (GetThunkCode storage patch)); [|done].
  by destruct (EmitThunkCode codegen patch).
Qed.

Lemma Emit_thunks_trace (codegen : CodeGenerator) (l : list LinkerPatch) storage :
  exists thunked,
    snd (Emit_thunks codegen l storage)
    = flat_map (fun patch =>
                  [Storing (EvEmitThunkCode patch);
                   Storing (EvSetThunkCode patch (fst (EmitThunkCode codegen patch)))])
               thunked
    /\ thunked `sublist_of` filter (fun patch => NeedsThunkCode codegen patch = true) l.
Proof.
  revert storage. induction l as [|patch l IH]; intros storage.
  - exists []. split; [done|]. constructor.
  - cbn [Emit_thunks]. rewrite m_seq_eq. cbn [snd].
    destruct (IH (snd (fst (Emit_thunk codegen patch storage)))) as (thunked & -> & Hsub).
    rewrite Emit_thunk_trace, filter_cons.
    destruct (NeedsThunkCode codegen patch) eqn:Hneeds; cbn [andb].
    + rewrite decide_True by done.
      destruct (is_empty (GetThunkCode storage patch)).
      * exists (patch :: thunked). split; [done|]. by apply sublist_skip.
      * exists thunked. split; [done|]. by apply sublist_cons.
    + rewrite decide_False by done. by exists thunked.
Qed.

(** X19. [Emit] first allocates the artifact it returns, and then
    synthesizes thunks: each synthesized thunk is registered at once, thunks
    are synthesized only for patches that need one, in the order of the
    sorted patch list, and at most once for each patch of the list. *)
Theorem Emit_thunks_follow_patches ca (codegen : CodeGenerator) code_item storage :
  exists thunked,
    snd (Emit ca codegen code_item storage)
    = Storing (EvSwapAllocCompiledMethod (fst (fst (Emit ca codegen code_item storage))))
      :: flat_map (fun patch =>
                     [Storing (EvEmitThunkCode patch);
                      Storing (EvSetThunkCode patch (fst (EmitThunkCode codegen patch)))])
                  thunked
    /\ thunked `sublist_of` filter (fun patch => NeedsThunkCode codegen patch = true)
                                   (EmitAndSortLinkerPatches codegen).
Proof.
  rewrite Emit_eq. cbv zeta. cbn [fst snd].
  destruct (Emit_thunks_trace codegen (EmitAndSortLinkerPatches codegen) storage)
    as (thunked & -> & Hsub).
  by exists thunked.
Qed.

End EmitMore.

Lemma EmitAndSortLinkerPatches_unique_witness :
  EmitAndSortLinkerPatches (backend := SampleMore.building) [OptimizationPass.kInliner]
  = [mkLinkerPatch 4 2; mkLinkerPatch 8 1].
Proof.
  apply (EmitAndSortLinkerPatches_unique (backend := SampleMore.building)
           [OptimizationPass.kInliner] [mkLinkerPatch 4 2; mkLinkerPatch 8 1]).
  - reflexivity.
  - repeat constructor.
Defined.

(** ** The ahead-of-time entry points *)

Lemma stats_app l1 l2 : stats (l1 ++ l2) = stats l1 ++ stats l2.
Proof. unfold stats. by rewrite !omap_app. Qed.

Lemma stats_Compiling (l : list CompileEvent) : stats (Compiling <$> l) = omap stat_of l.
Proof. unfold stats. by rewrite compiling_of_Compiling. Qed.

Section AotFacts.
Context `{backend : Backend}.
Variable compiler_options : CompilerOptions.
Variable runtime : Runtime.

Lemma TryCompile_stats_cases ca cu method kind :
  let r := TryCompile compiler_options runtime ca cu method kind in
  (fst (fst r) <> None
   /\ omap stat_of (snd r)
      = [MethodCompilationStat.kAttemptBytecodeCompilation;
         MethodCompilationStat.kCompiledBytecode])
  \/ (fst r = (None, ca)
      /\ exists reason,
           omap stat_of (snd r)
           = [MethodCompilationStat.kAttemptBytecodeCompilation; reason]
           /\ reason <> MethodCompilationStat.kCompiledBytecode
           /\ reason <> MethodCompilationStat.kJitOutOfMemoryForCommit).
Proof.
  unfold TryCompile. tr_norm.
  all: drop_pieces stat_of stat_of_pass_event.
  all: try failed_build.
  all: simpl; first [ by left | right; split; [done|]; by eexists ].
Qed.

Lemma TryCompileIntrinsic_stats_cases ca cu m :
  let r := TryCompileIntrinsic compiler_options ca cu m in
  (fst (fst r) <> None
   /\ omap stat_of (snd r)
      = [MethodCompilationStat.kAttemptIntrinsicCompilation;
         MethodCompilationStat.kCompiledIntrinsic])
  \/ (fst r = (None, ca)
      /\ omap stat_of (snd r) = [MethodCompilationStat.kAttemptIntrinsicCompilation]).
Proof.
  unfold TryCompileIntrinsic. tr_norm.
  all: drop_pieces stat_of stat_of_pass_event.
  all: simpl; first [ by left | by right ].
Qed.

Lemma stats_Emit ca (codegen : CodeGenerator) code_item storage :
  stats (snd (Emit ca codegen code_item storage)) = [].
Proof.
  destruct (Emit_thunks_trace codegen (EmitAndSortLinkerPatches codegen) storage)
    as (thunked & Heq & _).
  rewrite Emit_eq. cbv zeta. cbn [snd]. rewrite Heq.
  unfold stats. cbn. clear. by induction thunked.
Qed.

Lemma cm_intrinsic_Emit ca (codegen : CodeGenerator) code_item storage :
  cm_intrinsic (fst (fst (Emit ca codegen code_item storage))) = false.
Proof. by rewrite Emit_eq. Qed.

(** X20. [Compile] attempts the intrinsic path exactly for a method that
    resolves to an intrinsic.  An artifact marked as intrinsic comes from
    that path, and bytecode compilation is then not attempted; an artifact
    not so marked comes from a bytecode compilation that succeeded; when no
    artifact is returned, bytecode compilation was attempted and recorded
    the reason of its failure. *)
Theorem Compile_outcome code_item access_flags class_def_idx method_idx dex_file storage :
  let run := Compile compiler_options runtime code_item access_flags class_def_idx
                     method_idx dex_file storage in
  let intrinsic := is_intrinsic_method (ResolveMethod method_idx dex_file) in
  exists outcome,
    stats (snd run)
    = (if intrinsic then [MethodCompilationStat.kAttemptIntrinsicCompilation] else [])
      ++ outcome
    /\ match fst (fst run) with
       | Some compiled_method =>
           if cm_intrinsic compiled_method
           then intrinsic = true /\ outcome = [MethodCompilationStat.kCompiledIntrinsic]
           else outcome = [MethodCompilationStat.kAttemptBytecodeCompilation;
                           MethodCompilationStat.kCompiledBytecode]
       | None =>
           exists reason,
             outcome = [MethodCompilationStat.kAttemptBytecodeCompilation; reason]
             /\ reason <> MethodCompilationStat.kCompiledBytecode
       end.
Proof.
  cbv zeta. unfold Compile.
  set (cu := DexCompilationUnit.mk dex_file code_item class_def_idx method_idx access_flags).
  set (kind := if IsBaseline compiler_options
               then CompilationKind.kBaseline else CompilationKind.kOptimized).
  assert (Hgeneral : forall method pre,
    let run := m_bind (m_ret (S := CompiledMethodStorage) (@None CodeGenerator,
                                                           mkCodeVectorAllocator []))
      (fun '(codegen, code_allocator) =>
         let compiled_intrinsic := bool_decide (codegen <> None) in
         m_bind
           (match codegen with
            | None => lift (TryCompile compiler_options runtime code_allocator cu method kind)
            | Some _ => m_ret (codegen, code_allocator)
            end)
           (fun '(codegen, code_allocator) =>
              match codegen with
              | Some codegen =>
                  m_bind (Emit code_allocator codegen
                            (if compiled_intrinsic then None else code_item))
                    (fun compiled_method =>
                       m_ret (Some (if compiled_intrinsic
                                    then MarkAsIntrinsic compiled_method
                                    else compiled_method)))
              | None => m_ret None
              end)) storage in
    exists outcome,
      pre ++ stats (snd run) = pre ++ outcome
      /\ match fst (fst run) with
         | Some compiled_method =>
             cm_intrinsic compiled_method = false
             /\ outcome = [MethodCompilationStat.kAttemptBytecodeCompilation;
                           MethodCompilationStat.kCompiledBytecode]
         | None =>
             exists reason,
               outcome = [MethodCompilationStat.kAttemptBytecodeCompilation; reason]
               /\ reason <> MethodCompilationStat.kCompiledBytecode
         end).
  { intros method pre. cbv zeta. rewrite m_bind_eq. cbn [m_ret fst snd app].
    rewrite m_bind_lift. cbn [fst snd].
    destruct (TryCompile_stats_cases (mkCodeVectorAllocator []) cu method kind)
      as [[Hsome Hstats]|[Hnone (reason & Hstats & Hreason & _)]].
    - destruct (TryCompile compiler_options runtime (mkCodeVectorAllocator []) cu method kind)
        as [[[codegen|] ca] trace]; [|done]. cbn [fst snd] in *.
      rewrite m_bind_eq. cbn [m_ret fst snd]. rewrite bool_decide_false by (by intros []).
      eexists. split.
      + by rewrite !stats_app, stats_Compiling, Hstats, stats_Emit.
      + cbn [fst snd]. by rewrite cm_intrinsic_Emit.
    - rewrite Hnone. cbn [m_ret fst snd].
      eexists. split.
      + by rewrite !stats_app, stats_Compiling, Hstats.
      + cbn. by exists reason. }
  destruct (ResolveMethod method_idx dex_file) as [m|] eqn:Hresolve; cbn [is_intrinsic_method].
  2: { destruct (Hgeneral None []) as (outcome & Hstats & Hresult). exists outcome.
       split; [exact Hstats|]. destruct (fst (fst _)) as [cm|]; [|done].
       destruct Hresult as [-> ->]. done. }
  destruct (ArtMethod.IsIntrinsic m) eqn:Hintrinsic.
  2: { destruct (Hgeneral (Some m) []) as (outcome & Hstats & Hresult). exists outcome.
       split; [exact Hstats|]. destruct (fst (fst _)) as [cm|]; [|done].
       destruct Hresult as [-> ->]. done. }
  rewrite m_bind_lift.
  destruct (TryCompileIntrinsic_stats_cases (mkCodeVectorAllocator []) cu m)
    as [[Hsome Hstats]|[Hnone Hstats]].
  - destruct (TryCompileIntrinsic compiler_options (mkCodeVectorAllocator []) cu m)
      as [[[codegen|] ca] trace]; [|done]. cbn [fst snd] in *.
    rewrite m_bind_eq. cbn [m_ret fst snd]. rewrite m_bind_eq. cbn [m_ret fst snd].
    rewrite bool_decide_true by done.
    exists [MethodCompilationStat.kCompiledIntrinsic]. split.
    + by rewrite !stats_app, stats_Compiling, Hstats, stats_Emit.
    + done.
  - rewrite Hnone. cbn [fst snd]. rewrite bool_decide_false by (by intros []).
    destruct (Hgeneral (Some m) [MethodCompilationStat.kAttemptIntrinsicCompilation])
      as (outcome & Hstats' & Hresult).
    rewrite m_bind_eq in Hstats', Hresult. cbn [m_ret fst snd app] in Hstats', Hresult.
    rewrite bool_decide_false in Hstats', Hresult by (by intros []).
    exists outcome. split.
    + rewrite stats_app, stats_Compiling, Hstats. exact Hstats'.
    + destruct (fst (fst _)) as [cm|]; [|done]. destruct Hresult as [-> ->]. done.
Qed.

(** X21. When [Compile] returns no artifact, the storage is left as it was:
    no artifact is allocated and no thunk is synthesized or registered. *)
Theorem Compile_null_leaves_storage
    code_item access_flags class_def_idx method_idx dex_file storage :
  fst (fst (Compile compiler_options runtime code_item access_flags class_def_idx
                    method_idx dex_file storage)) = None ->
  snd (fst (Compile compiler_options runtime code_item access_flags class_def_idx
                    method_idx dex_file storage)) = storage
  /\ omap storing_of
       (snd (Compile compiler_options runtime code_item access_flags class_def_idx
                     method_idx dex_file storage)) = [].
Proof.
  unfold Compile.
  set (cu := DexCompilationUnit.mk dex_file code_item class_def_idx method_idx access_flags).
  set (kind := if IsBaseline compiler_options
               then CompilationKind.kBaseline else CompilationKind.kOptimized).
  destruct (ResolveMethod method_idx dex_file) as [m|]; [destruct (ArtMethod.IsIntrinsic m)|].
  all: unfold m_bind, lift, m_ret.
  all: cbn [fst snd].
  all: repeat (match goal with
               | |- context [TryCompileIntrinsic ?a ?b ?c ?d] =>
                   destruct (TryCompileIntrinsic a b c d) as [[[?|] ?] ?]
               | |- context [TryCompile ?a ?b ?c ?d ?e ?f] =>
                   destruct (TryCompile a b c d e f) as [[[?|] ?] ?]
               | |- context [Emit ?a ?b ?c ?d] =>
                   destruct (Emit a b c d) as [[? ?] ?]
               end; cbn [fst snd]).
  all: try discriminate.
  all: intros _; split; [done|].
  all: by rewrite ?app_nil_r, ?omap_app, ?storing_of_Compiling.
Qed.

(** X22. [JniCompile] always produces an artifact, and records how: either
    the intrinsic path compiled the method, and the artifact is marked as
    intrinsic, or the artifact is the generic stub, which is not so marked;
    for the stub the storage is asked for one thing only, the allocation of
    the artifact returned: no thunk is synthesized or registered.  The
    intrinsic path is attempted exactly for boot images, for a method that is
    resolved, an intrinsic and not signature polymorphic. *)
Theorem JniCompile_outcome access_flags method_idx dex_file storage :
  let run := JniCompile compiler_options access_flags method_idx dex_file storage in
  let attempted :=
    IsBootImage compiler_options
    && match LookupResolvedMethod method_idx dex_file with
       | Some method =>
           ArtMethod.IsIntrinsic method && negb (ArtMethod.IsSignaturePolymorphic method)
       | None => false
       end in
  (cm_intrinsic (fst (fst run)) = true
   /\ attempted = true
   /\ stats (snd run) = [MethodCompilationStat.kAttemptIntrinsicCompilation;
                         MethodCompilationStat.kCompiledIntrinsic])
  \/ (cm_intrinsic (fst (fst run)) = false
      /\ omap storing_of (snd run) = [EvSwapAllocCompiledMethod (fst (fst run))]
      /\ stats (snd run)
         = (if attempted then [MethodCompilationStat.kAttemptIntrinsicCompilation] else [])
           ++ [MethodCompilationStat.kCompiledNativeStub]).
Proof.
  cbv zeta. unfold JniCompile, JniCompile_intrinsic.
  destruct (IsBootImage compiler_options); [|by right].
  destruct (LookupResolvedMethod method_idx dex_file) as [method|]; [|by right].
  destruct (ArtMethod.IsIntrinsic method && negb (ArtMethod.IsSignaturePolymorphic method));
    [|by right].
  set (cu := DexCompilationUnit.mk dex_file None kDexNoIndex16 method_idx access_flags).
  destruct (TryCompileIntrinsic_stats_cases (mkCodeVectorAllocator []) cu method)
    as [[Hsome Hstats]|[Hnone Hstats]].
  - left. rewrite m_bind_eq, m_bind_lift. cbn [fst snd].
    destruct (TryCompileIntrinsic compiler_options (mkCodeVectorAllocator []) cu method)
      as [[[codegen|] ca] trace]; [|done]. cbn [fst snd] in *.
    rewrite m_bind_eq. cbn [m_ret fst snd MarkAsIntrinsic cm_intrinsic].
    split; [done|]. split; [done|].
    by rewrite !app_nil_r, !stats_app, stats_Compiling, Hstats, stats_Emit.
  - right. rewrite m_bind_eq, m_bind_lift. rewrite Hnone. cbn [m_ret fst snd].
    rewrite m_bind_lift. cbn [fst snd SwapAllocCompiledMethod cm_intrinsic].
    split; [done|]. split.
    + by rewrite !omap_app, !storing_of_Compiling.
    + rewrite !stats_app, stats_Compiling, Hstats. done.
Qed.

End AotFacts.

Lemma Compile_null_leaves_storage_witness :
  snd (fst (Compile (backend := SampleMore.skipping)
              (Sample.options InstructionSet.kX86_64 CompilerFilter.kSpeed) Sample.runtime
              (Some (mkCodeItem 8)) 1 0 7 Sample.dex_file (mkCompiledMethodStorage ∅)))
  = mkCompiledMethodStorage ∅.
Proof.
  refine (proj1 (Compile_null_leaves_storage (backend := SampleMore.skipping)
                   (Sample.options InstructionSet.kX86_64 CompilerFilter.kSpeed)
                   Sample.runtime (Some (mkCodeItem 8)) 1 0 7 Sample.dex_file
                   (mkCompiledMethodStorage ∅) _)).
  vm_compute. reflexivity.
Defined.

Section JitStatistics.
Context `{backend : Backend} {R : Type} `{code_cache : JitCodeCache R}.
Variable compiler_options : CompilerOptions.
Variable runtime : Runtime.

(** X23. [JitCompile] records [kJitOutOfMemoryForCommit] exactly when the
    code cache fails to reserve memory; it then answers false, and has asked
    nothing else of the cache. *)
Theorem JitCompile_out_of_memory method kind (jit_logger : bool) (r : R) :
  let run := JitCompile compiler_options runtime method kind jit_logger r in
  (In MethodCompilationStat.kJitOutOfMemoryForCommit (stats (snd run))
   <-> exists code_size stack_map_size roots,
         In (EvReserve code_size stack_map_size roots None) (omap caching_of (snd run)))
  /\ (In MethodCompilationStat.kJitOutOfMemoryForCommit (stats (snd run)) ->
      fst (fst run) = false /\ length (omap caching_of (snd run)) = 1%nat).
Proof.
  unfold JitCompile, JitCompile_native, JitCompile_bytecode.
  pose proof (TryCompile_stats_cases compiler_options runtime (mkCodeVectorAllocator [])
              (DexCompilationUnit.mk (ArtMethod.GetDexFile method)
                 (ArtMethod.GetCodeItem method) (ArtMethod.GetClassDefIndex method)
                 (ArtMethod.GetDexMethodIndex method) (ArtMethod.GetAccessFlags method))
              (Some method) kind) as Hstats.
  destruct (TryCompile compiler_options runtime (mkCodeVectorAllocator [])
              (DexCompilationUnit.mk (ArtMethod.GetDexFile method)
                 (ArtMethod.GetCodeItem method) (ArtMethod.GetClassDefIndex method)
                 (ArtMethod.GetDexMethodIndex method) (ArtMethod.GetAccessFlags method))
              (Some method) kind) as [[compiled ca] trace] eqn:Htry.
  cbv zeta in Hstats. cbn [fst snd] in Hstats.
  assert (Hclean : ~ In MethodCompilationStat.kJitOutOfMemoryForCommit (omap stat_of trace)).
  { destruct Hstats as [[_ ->]|[_ (reason & -> & _ & Hreason)]]; simpl; intuition congruence. }
  clear Hstats.
  unfold m_when; m_unfold. rewrite ?Htry. cbn [fst snd].
  repeat (case_match; simplify_eq/=);
    rewrite ?stats_app, ?stats_Compiling, ?omap_app, ?caching_of_Compiling; cbn.
  all: rewrite ?app_nil_r, ?in_app_iff; cbn.
  all: split; [split|].
  all: try (intros (? & ? & ? & Hin); by intuition simplify_eq).
  all: try (by intuition eauto 10).
Qed.

End JitStatistics.

Section JitOrder.
Context `{backend : Backend} {R : Type} `{code_cache : JitCodeCache R}.
Variable compiler_options : CompilerOptions.
Variable runtime : Runtime.

(** X24. For a native method [JitCompile] builds no graph and runs no pass:
    of the compiler it records at most the failure to reserve memory.  For
    any other method it first attempts the bytecode compilation, and asks
    the code cache for memory exactly when that compilation has produced
    code. *)
Theorem JitCompile_compiles_before_reserving method kind (jit_logger : bool) (r : R) :
  let run := JitCompile compiler_options runtime method kind jit_logger r in
  if ArtMethod.IsNative method
  then omap compiling_of (snd run) = []
       \/ omap compiling_of (snd run)
          = [EvMaybeRecordStat MethodCompilationStat.kJitOutOfMemoryForCommit]
  else exists outcome,
         take 2 (stats (snd run))
         = [MethodCompilationStat.kAttemptBytecodeCompilation; outcome]
         /\ (omap caching_of (snd run) <> []
             <-> outcome = MethodCompilationStat.kCompiledBytecode).
Proof.
  unfold JitCompile, JitCompile_native, JitCompile_bytecode.
  pose proof (TryCompile_stats_cases compiler_options runtime (mkCodeVectorAllocator [])
              (DexCompilationUnit.mk (ArtMethod.GetDexFile method)
                 (ArtMethod.GetCodeItem method) (ArtMethod.GetClassDefIndex method)
                 (ArtMethod.GetDexMethodIndex method) (ArtMethod.GetAccessFlags method))
              (Some method) kind) as Hstats.
  destruct (TryCompile compiler_options runtime (mkCodeVectorAllocator [])
              (DexCompilationUnit.mk (ArtMethod.GetDexFile method)
                 (ArtMethod.GetCodeItem method) (ArtMethod.GetClassDefIndex method)
                 (ArtMethod.GetDexMethodIndex method) (ArtMethod.GetAccessFlags method))
              (Some method) kind) as [[compiled ca] trace] eqn:Htry.
  cbv zeta in Hstats. cbn [fst snd] in Hstats.
  destruct (ArtMethod.IsNative method).
  - clear Hstats. unfold m_when; m_unfold. cbn [fst snd].
    repeat (case_match; simplify_eq/=); cbn; by eauto.
  - unfold m_when; m_unfold. rewrite ?Htry. cbn [fst snd].
    destruct Hstats as [[Hsome Hstats]|[[= -> ->] (reason & Hstats & Hreason & _)]].
    + destruct compiled as [codegen|]; [|done].
      exists MethodCompilationStat.kCompiledBytecode.
      repeat (case_match; simplify_eq/=);
        rewrite ?stats_app, ?stats_Compiling, ?omap_app, ?caching_of_Compiling, Hstats; cbn.
      all: by split.
    + exists reason. cbn [fst snd].
      rewrite ?app_nil_r, ?stats_Compiling, ?caching_of_Compiling, Hstats.
      split; [done|]. by split.
Qed.

End JitOrder.
